(** * Lovania contact system: the intake form, the /api/contact function
      and the admin dashboard

    Shallow embedding of
    - [netlify/functions/contact.ts] ([sendEmailNotification], [handler]),
    - [src/components/AdminDashboard.tsx] ([updateSubmissionStatus],
      [exportToCSV], the status buttons of [SubmissionDetail]),
    - [src/components/ContactForm.tsx] ([validateContactInfo],
      [validateProjectDetails]),
    followed by the properties of the submission lifecycle. *)

From Stdlib Require Import List String Ascii ZArith NArith Bool Lia.
From Stdlib Require Import Permutation Sorted.
From Stdlib Require Import DecimalString DecimalPos DecimalZ SpecFloat.
Import ListNotations.

Set Implicit Arguments.
Set Warnings "-register-all".

(* ================================================================== *)
(** ** JavaScript strings *)

(** A JavaScript string is a sequence of UTF-16 code units. *)
Definition code_unit := N.
Definition jsstring := list code_unit.

(** An ASCII literal of the source, as a JavaScript string. *)
Definition js (s : string) : jsstring :=
  map N_of_ascii (list_ascii_of_string s).

Arguments js : simpl never.

(** [a === b] on strings *)
Fixpoint jsstring_eqb (a b : jsstring) : bool :=
  match a, b with
  | [], [] => true
  | x :: a', y :: b' => (x =? y)%N && jsstring_eqb a' b'
  | _, _ => false
  end.

Definition QUOTE : code_unit := 34%N.    (* the double quote *)
Definition COMMA : code_unit := 44%N.
Definition DOT : code_unit := 46%N.
Definition AT : code_unit := 64%N.
Definition LF : code_unit := 10%N.
Definition UNDERSCORE : code_unit := 95%N.

(** ECMAScript WhiteSpace and LineTerminator code points: the characters
    matched by [\s] in a regular expression and stripped by
    [String.prototype.trim]. *)
Definition is_space (c : code_unit) : bool :=
  ((9 <=? c) && (c <=? 13) || (c =? 32) || (c =? 160) || (c =? 5760)
   || (8192 <=? c) && (c <=? 8202) || (c =? 8232) || (c =? 8233)
   || (c =? 8239) || (c =? 8287) || (c =? 12288) || (c =? 65279))%N.

Fixpoint trimStart (s : jsstring) : jsstring :=
  match s with
  | c :: s' => if is_space c then trimStart s' else s
  | [] => []
  end.

Definition trimEnd (s : jsstring) : jsstring := rev (trimStart (rev s)).

(** [s.trim()] *)
Definition trim (s : jsstring) : jsstring := trimEnd (trimStart s).

(** A string is blank when it is empty or has white space only. *)
Definition blank (s : jsstring) : bool := forallb is_space s.

(** [s.replace(/QUOTE/g, QUOTE QUOTE)], the call of [exportToCSV]: every
    double quote is replaced by two. *)
Fixpoint replace_quotes (s : jsstring) : jsstring :=
  match s with
  | [] => []
  | c :: s' =>
      if (c =? QUOTE)%N then QUOTE :: QUOTE :: replace_quotes s'
      else c :: replace_quotes s'
  end.

(** [parts.join(sep)] on an array of strings. *)
Fixpoint join (sep : jsstring) (parts : list jsstring) : jsstring :=
  match parts with
  | [] => []
  | [p] => p
  | p :: rest => p ++ sep ++ join sep rest
  end.

(** The decimal digits of an integer, as [String(n)] gives them. *)
Definition Z_toString (n : Z) : jsstring :=
  js (NilZero.string_of_int (Z.to_int n)).

(* ================================================================== *)
(** ** Regular expressions

    The one pattern of the source, [/^[^\s@]+@[^\s@]+\.[^\s@]+$/], uses
    character classes, concatenation and [+]; it is anchored at both ends
    and has no flags, so [test] decides whether the whole string, read as
    code units, belongs to its language. *)

Module Regex.

Inductive regex : Type :=
| Void : regex
| Eps : regex
| Class (p : code_unit -> bool) : regex
| Cat (r1 r2 : regex) : regex
| Alt (r1 r2 : regex) : regex
| Star (r : regex) : regex.

(** [r+] *)
Definition Plus (r : regex) : regex := Cat r (Star r).

(** The language of a pattern. *)
Inductive matches : regex -> jsstring -> Prop :=
| MEps : matches Eps []
| MClass p c : p c = true -> matches (Class p) [c]
| MCat r1 r2 s1 s2 :
    matches r1 s1 -> matches r2 s2 -> matches (Cat r1 r2) (s1 ++ s2)
| MAltL r1 r2 s : matches r1 s -> matches (Alt r1 r2) s
| MAltR r1 r2 s : matches r2 s -> matches (Alt r1 r2) s
| MStarNil r : matches (Star r) []
| MStarApp r s1 s2 :
    matches r s1 -> matches (Star r) s2 -> matches (Star r) (s1 ++ s2).

Fixpoint nullable (r : regex) : bool :=
  match r with
  | Void => false
  | Eps => true
  | Class _ => false
  | Cat r1 r2 => nullable r1 && nullable r2
  | Alt r1 r2 => nullable r1 || nullable r2
  | Star _ => true
  end.

(** What remains of the pattern once the code unit [c] has been read. *)
Fixpoint deriv (c : code_unit) (r : regex) : regex :=
  match r with
  | Void => Void
  | Eps => Void
  | Class p => if p c then Eps else Void
  | Cat r1 r2 =>
      if nullable r1 then Alt (Cat (deriv c r1) r2) (deriv c r2)
      else Cat (deriv c r1) r2
  | Alt r1 r2 => Alt (deriv c r1) (deriv c r2)
  | Star r1 => Cat (deriv c r1) (Star r1)
  end.

(** [/^r$/.test(s)] *)
Fixpoint test (r : regex) (s : jsstring) : bool :=
  match s with
  | [] => nullable r
  | c :: s' => test (deriv c r) s'
  end.

End Regex.

(* ================================================================== *)
(** ** JavaScript values

    The function receives whatever [JSON.parse] makes of the request
    body: the TypeScript interfaces are not checked at run time, so the
    fields of a request are arbitrary JSON values. *)

Inductive value : Type :=
| VUndefined : value
| VNull : value
| VBool (b : bool) : value
| VNumber (x : spec_float) : value
| VString (s : jsstring) : value
| VArray (items : list value) : value
| VObject (props : list (jsstring * value)) : value.

Inductive error : Type :=
| SyntaxError      (* JSON.parse on a malformed text *)
| TypeError        (* property of null or undefined, object without primitive value *)
| StoreError.      (* the blob store cannot be reached *)

Inductive result (A : Type) : Type :=
| Ok (a : A)
| Throw (e : error).
Arguments Ok {A} a.
Arguments Throw {A} e.

Definition result_bind {A B} (r : result A) (k : A -> result B) : result B :=
  match r with
  | Ok a => k a
  | Throw e => Throw e
  end.

(** The own property [k] of an object literal, [undefined] when absent. *)
Fixpoint lookup (k : jsstring) (props : list (jsstring * value)) : value :=
  match props with
  | [] => VUndefined
  | (k', v) :: rest => if jsstring_eqb k k' then v else lookup k rest
  end.

Definition has_own (k : jsstring) (props : list (jsstring * value)) : bool :=
  existsb (fun kv => jsstring_eqb k (fst kv)) props.

(** [o.k], for the property names the source reads (name, email, company,
    phone, projectType, description, timeline, budget, requirements,
    contactInfo, projectDetails, timestamp): none of them is defined on a
    prototype, so on a parsed value only an own property of an object can
    answer; reading a property of [null] or [undefined] throws. *)
Definition get (o : value) (k : jsstring) : result value :=
  match o with
  | VUndefined | VNull => Throw TypeError
  | VObject props => Ok (lookup k props)
  | VBool _ | VNumber _ | VString _ | VArray _ => Ok VUndefined
  end.

(** [o?.k] *)
Definition get_opt (o : value) (k : jsstring) : value :=
  match o with
  | VObject props => lookup k props
  | _ => VUndefined
  end.

Definition number_truthy (x : spec_float) : bool :=
  match x with
  | S754_zero _ | S754_nan => false
  | S754_infinity _ | S754_finite _ _ _ => true
  end.

(** ToBoolean: what [!v] negates. *)
Definition truthy (v : value) : bool :=
  match v with
  | VUndefined | VNull => false
  | VBool b => b
  | VNumber x => number_truthy x
  | VString s => match s with [] => false | _ => true end
  | VArray _ | VObject _ => true
  end.

(** ToIntegerOrInfinity on a finite number: truncation towards zero. *)
Definition number_trunc (x : spec_float) : option Z :=
  match x with
  | S754_zero _ => Some 0%Z
  | S754_finite neg m e =>
      let mag := (if (0 <=? e)%Z then Z.shiftl (Z.pos m) e
                  else Z.shiftr (Z.pos m) (- e))%Z in
      Some (if neg then (- mag)%Z else mag)
  | S754_infinity _ | S754_nan => None
  end.

(** TimeClip: the time value of [new Date(x)] for a number [x]; [None]
    stands for NaN. *)
Definition TimeClip (x : spec_float) : option Z :=
  match number_trunc x with
  | Some t => if (Z.abs t <=? 8640000000000000)%Z then Some t else None
  | None => None
  end.

(* ================================================================== *)
(** ** The runtime

    The built-in functions the source calls, as parameters of the model.
    [None] stands for a thrown SyntaxError ([JSON_parse]) or for NaN
    ([Date_parse]). *)

Record Runtime : Type := {
  JSON_parse : jsstring -> option value;
  JSON_stringify : value -> jsstring;
  Number_toString : spec_float -> jsstring;
  Date_parse : jsstring -> option Z;
  Date_toISOString : Z -> jsstring
}.

(** A line of the console. *)
Inductive log_entry : Type :=
| Log (msg : jsstring) (data : value)
| LogError (msg : jsstring) (e : error).

(** What a call of the function can observe and change outside itself:
    the clock, the random generator, the environment, the blob store
    [contact-submissions] and the console.
    - [clock k] is the k-th reading of the clock, in milliseconds;
    - [random k] is the k-th value of
      [Math.random().toString(36).substr(2, 9)]. *)
Record World : Type := {
  clock : nat -> Z;
  clock_reads : nat;
  random : nat -> jsstring;
  random_draws : nat;
  NOTIFICATION_EMAIL : option jsstring;
  store_online : bool;
  blobs : list (jsstring * jsstring);
  console : list log_entry
}.

Definition with_blobs (w : World) (b : list (jsstring * jsstring)) : World :=
  {| clock := clock w; clock_reads := clock_reads w;
     random := random w; random_draws := random_draws w;
     NOTIFICATION_EMAIL := NOTIFICATION_EMAIL w;
     store_online := store_online w; blobs := b; console := console w |}.

Definition with_console (w : World) (c : list log_entry) : World :=
  {| clock := clock w; clock_reads := clock_reads w;
     random := random w; random_draws := random_draws w;
     NOTIFICATION_EMAIL := NOTIFICATION_EMAIL w;
     store_online := store_online w; blobs := blobs w; console := c |}.

(** Computations of the function: they read and change the world and end
    with a value or a thrown error. *)
Definition M (A : Type) : Type := World -> result A * World.

Definition ret {A} (a : A) : M A := fun w => (Ok a, w).

Definition throw {A} (e : error) : M A := fun w => (Throw e, w).

Definition bind {A B} (m : M A) (k : A -> M B) : M B :=
  fun w => match m w with
           | (Ok a, w') => k a w'
           | (Throw e, w') => (Throw e, w')
           end.

(** [try { m } catch (error) { h error }] *)
Definition try_catch {A} (m : M A) (h : error -> M A) : M A :=
  fun w => match m w with
           | (Ok a, w') => (Ok a, w')
           | (Throw e, w') => h e w'
           end.

Definition lift {A} (r : result A) : M A := fun w => (r, w).

Declare Scope js_scope.
Delimit Scope js_scope with js.
Notation "x <- m ;; k" := (bind m (fun x => k))
  (at level 61, m at next level, right associativity) : js_scope.
Notation "m ;;; k" := (bind m (fun _ => k))
  (at level 61, right associativity) : js_scope.
Open Scope js_scope.

(** [Date.now()], and the time value of [new Date()] *)
Definition Date_now : M Z :=
  fun w => (Ok (clock w (clock_reads w)),
            {| clock := clock w; clock_reads := S (clock_reads w);
               random := random w; random_draws := random_draws w;
               NOTIFICATION_EMAIL := NOTIFICATION_EMAIL w;
               store_online := store_online w; blobs := blobs w;
               console := console w |}).

(** [Math.random().toString(36).substr(2, 9)] *)
Definition Math_random_token : M jsstring :=
  fun w => (Ok (random w (random_draws w)),
            {| clock := clock w; clock_reads := clock_reads w;
               random := random w; random_draws := S (random_draws w);
               NOTIFICATION_EMAIL := NOTIFICATION_EMAIL w;
               store_online := store_online w; blobs := blobs w;
               console := console w |}).

Definition console_log (msg : jsstring) (data : value) : M unit :=
  fun w => (Ok tt, with_console w (console w ++ [Log msg data])).

Definition console_error (msg : jsstring) (e : error) : M unit :=
  fun w => (Ok tt, with_console w (console w ++ [LogError msg e])).

(** *** The blob store *)

(** Writing under a key replaces the blob already there, or adds one. *)
Fixpoint blobs_set (k v : jsstring) (b : list (jsstring * jsstring))
  : list (jsstring * jsstring) :=
  match b with
  | [] => [(k, v)]
  | (k', v') :: rest =>
      if jsstring_eqb k k' then (k, v) :: rest
      else (k', v') :: blobs_set k v rest
  end.

Fixpoint blobs_get (k : jsstring) (b : list (jsstring * jsstring))
  : option jsstring :=
  match b with
  | [] => None
  | (k', v) :: rest => if jsstring_eqb k k' then Some v else blobs_get k rest
  end.

(** [store.set(key, text)] *)
Definition store_set (k text : jsstring) : M unit :=
  fun w => if store_online w then (Ok tt, with_blobs w (blobs_set k text (blobs w)))
           else (Throw StoreError, w).

(** [store.list()], the keys of its [blobs] *)
Definition store_list : M (list jsstring) :=
  fun w => if store_online w then (Ok (map fst (blobs w)), w)
           else (Throw StoreError, w).

(* ================================================================== *)
(** ** netlify/functions/contact.ts *)

Record Event : Type := {
  httpMethod : jsstring;
  event_body : option jsstring        (* [event.body]: a string or null *)
}.

Record Response : Type := {
  statusCode : Z;
  headers : list (jsstring * jsstring);
  body : jsstring
}.

(** [Array.prototype.sort] with a comparison function that may throw and
    may answer NaN ([None], read as 0 by the sort).  The sort is stable,
    and a stable sort is determined by a consistent comparison: it is
    written here as a stable insertion sort. *)
Section Sort.
Variable A : Type.
Variable cmp : A -> A -> result (option Z).

Fixpoint insert_by (x : A) (l : list A) : result (list A) :=
  match l with
  | [] => Ok [x]
  | y :: l' =>
      result_bind (cmp x y) (fun c =>
        match c with
        | Some d =>
            if (0 <? d)%Z
            then result_bind (insert_by x l') (fun r => Ok (y :: r))
            else Ok (x :: y :: l')
        | None => Ok (x :: y :: l')
        end)
  end.

Fixpoint sort_by (l : list A) : result (list A) :=
  match l with
  | [] => Ok []
  | x :: l' => result_bind (sort_by l') (insert_by x)
  end.

Variable key : A -> Z.

(** On [l] the comparison never throws and answers the difference of the
    keys, as [(a, b) => key(b) - key(a)] does. *)
Definition keyed (l : list A) : Prop :=
  forall x y, In x l -> In y l -> cmp x y = Ok (Some (key y - key x)%Z).

(** Largest key first. *)
Definition descending : list A -> Prop :=
  StronglySorted (fun a b => (key b <= key a)%Z).

End Sort.

Section ContactFunction.
Variable rt : Runtime.

(** ToString, as a template literal applies it to an interpolated value.
    An array joins its elements; an object answers through
    [Object.prototype.toString] unless an own property hides it, and an
    own property of a parsed object is never callable. *)
Fixpoint ToString (v : value) : result jsstring :=
  match v with
  | VUndefined => Ok (js "undefined")
  | VNull => Ok (js "null")
  | VBool b => Ok (js (if b then "true" else "false"))
  | VNumber x => Ok (Number_toString rt x)
  | VString s => Ok s
  | VArray items =>
      result_bind
        ((fix elements (l : list value) : result (list jsstring) :=
            match l with
            | [] => Ok []
            | x :: l' =>
                result_bind
                  (match x with
                   | VUndefined | VNull => Ok []
                   | _ => ToString x
                   end)
                  (fun p => result_bind (elements l') (fun ps => Ok (p :: ps)))
            end) items)
        (fun parts => Ok (join [COMMA] parts))
  | VObject props =>
      if has_own (js "toString") props then Throw TypeError
      else Ok (js "[object Object]")
  end.

(** [new Date(v).getTime()] *)
Definition Date_getTime (v : value) : result (option Z) :=
  match v with
  | VUndefined => Ok None
  | VNull => Ok (Some 0%Z)
  | VBool b => Ok (Some (if b then 1%Z else 0%Z))
  | VNumber x => Ok (TimeClip x)
  | VString s => Ok (Date_parse rt s)
  | VArray _ | VObject _ =>
      result_bind (ToString v) (fun s => Ok (Date_parse rt s))
  end.

(** [submission.a.b] *)
Definition get2 (submission : value) (a b : string) : result value :=
  result_bind (get submission (js a)) (fun o => get o (js b)).

(** [${submission.a.b}] *)
Definition show2 (submission : value) (a b : string) : result jsstring :=
  result_bind (get2 submission a b) ToString.

Definition email_html (submission : value) : result jsstring :=
  result_bind (show2 submission "contactInfo" "name") (fun name =>
  result_bind (show2 submission "contactInfo" "email") (fun email =>
  result_bind (show2 submission "contactInfo" "company") (fun company =>
  result_bind (show2 submission "contactInfo" "phone") (fun phone =>
  result_bind (show2 submission "projectDetails" "projectType") (fun projectType =>
  result_bind (show2 submission "projectDetails" "timeline") (fun timeline =>
  result_bind (show2 submission "projectDetails" "budget") (fun budget =>
  result_bind (show2 submission "projectDetails" "description") (fun description =>
  result_bind (get2 submission "projectDetails" "requirements") (fun requirements =>
  result_bind
    (if truthy requirements
     then result_bind (show2 submission "projectDetails" "requirements")
            (fun r => Ok (js "
          <h3>Specific Requirements</h3>
          <p>" ++ r ++ js "</p>
        "))
     else Ok []) (fun requirements_block =>
  result_bind (result_bind (get submission (js "id")) ToString) (fun id =>
  result_bind (result_bind (get submission (js "timestamp")) ToString) (fun timestamp =>
  Ok (js "
        <h2>New Project Inquiry</h2>
        <h3>Contact Information</h3>
        <ul>
          <li><strong>Name:</strong> " ++ name ++ js "</li>
          <li><strong>Email:</strong> " ++ email ++ js "</li>
          <li><strong>Company:</strong> " ++ company ++ js "</li>
          <li><strong>Phone:</strong> " ++ phone ++ js "</li>
        </ul>
        
        <h3>Project Details</h3>
        <ul>
          <li><strong>Project Type:</strong> " ++ projectType ++ js "</li>
          <li><strong>Timeline:</strong> " ++ timeline ++ js "</li>
          <li><strong>Budget:</strong> " ++ budget ++ js "</li>
        </ul>
        
        <h3>Description</h3>
        <p>" ++ description ++ js "</p>
        
        " ++ requirements_block ++ js "
        
        <p><strong>Submission ID:</strong> " ++ id ++ js "</p>
        <p><strong>Timestamp:</strong> " ++ timestamp ++ js "</p>
      "))))))))))))).

(** [process.env.NOTIFICATION_EMAIL || 'contact@lovania.com'] *)
Definition notification_address (w : World) : jsstring :=
  match NOTIFICATION_EMAIL w with
  | Some (c :: a) => c :: a
  | Some [] | None => js "contact@lovania.com"
  end.

Definition emailData (submission : value) : M value :=
  fun w =>
    (result_bind (show2 submission "contactInfo" "company") (fun company =>
     result_bind (email_html submission) (fun html =>
     Ok (VObject
           [(js "to", VString (notification_address w));
            (js "subject",
             VString (js "New Project Inquiry from " ++ company));
            (js "html", VString html)]))), w).

(** Email notification function. *)
Definition sendEmailNotification (submission : value) : M bool :=
  try_catch
    (data <- emailData submission ;;
     console_log (js "Email notification would be sent:") data ;;;
     ret true)
    (fun error =>
       console_error (js "Failed to send email notification:") error ;;;
       ret false).

(** [store.get(key, { type: 'json' })]: the parsed blob, [null] when the
    key has none. *)
Definition store_get_json (k : jsstring) : M value :=
  fun w =>
    if store_online w then
      match blobs_get k (blobs w) with
      | None => (Ok VNull, w)
      | Some text =>
          match JSON_parse rt text with
          | Some v => (Ok v, w)
          | None => (Throw SyntaxError, w)
          end
      end
    else (Throw StoreError, w).

(** [Promise.all(blobs.map(async (blob) => ...))] *)
Fixpoint get_all (keys : list jsstring) : M (list value) :=
  match keys with
  | [] => ret []
  | k :: keys' =>
      data <- store_get_json k ;;
      rest <- get_all keys' ;;
      ret (data :: rest)
  end.

(** [(a, b) => new Date(b.timestamp).getTime() - new Date(a.timestamp).getTime()].
    Both time values are integers, so the sign of the difference of the
    doubles is the sign of the exact difference. *)
Definition newest_first (a b : value) : result (option Z) :=
  result_bind (result_bind (get b (js "timestamp")) Date_getTime) (fun tb =>
  result_bind (result_bind (get a (js "timestamp")) Date_getTime) (fun ta =>
  Ok (match tb, ta with
      | Some x, Some y => Some (x - y)%Z
      | _, _ => None
      end))).

(** Enable CORS *)
Definition cors_headers : list (jsstring * jsstring) :=
  [(js "Access-Control-Allow-Origin", js "*");
   (js "Access-Control-Allow-Headers", js "Content-Type");
   (js "Access-Control-Allow-Methods", js "GET, POST, OPTIONS")].

Definition json_headers : list (jsstring * jsstring) :=
  cors_headers ++ [(js "Content-Type", js "application/json")].

Definition error_response (code : Z) (msg : string) : Response :=
  {| statusCode := code;
     headers := cors_headers;
     body := JSON_stringify rt (VObject [(js "error", VString (js msg))]) |}.

(** Admin endpoint to list submissions. *)
Definition handle_get : M Response :=
  try_catch
    (keys <- store_list ;;
     submissions <- get_all keys ;;
     (* Sort by timestamp, newest first *)
     sorted <- lift (sort_by newest_first submissions) ;;
     ret {| statusCode := 200;
            headers := json_headers;
            body := JSON_stringify rt (VArray sorted) |})
    (fun error =>
       console_error (js "Error fetching submissions:") error ;;;
       ret (error_response 500 "Failed to fetch submissions")).

(** [event.body || '{}'] *)
Definition body_text (event : Event) : jsstring :=
  match event_body event with
  | Some (c :: b) => c :: b
  | Some [] | None => js "{}"
  end.

Definition missing_contact (contactInfo : value) : bool :=
  negb (truthy (get_opt contactInfo (js "name")))
  || negb (truthy (get_opt contactInfo (js "email")))
  || negb (truthy (get_opt contactInfo (js "company"))).

Definition missing_project (projectDetails : value) : bool :=
  negb (truthy (get_opt projectDetails (js "projectType")))
  || negb (truthy (get_opt projectDetails (js "description")))
  || negb (truthy (get_opt projectDetails (js "timeline"))).

(** The object literal of [handler]; its [id] is
    [sub_${Date.now()}_${Math.random().toString(36).substr(2, 9)}]. *)
Definition new_submission (now : Z) (token : jsstring) (created : Z)
  (contactInfo projectDetails : value) : value :=
  VObject
    [(js "id", VString (js "sub_" ++ Z_toString now ++ js "_" ++ token));
     (js "timestamp", VString (Date_toISOString rt created));
     (js "contactInfo", contactInfo);
     (js "projectDetails", projectDetails);
     (js "status", VString (js "new"))].

Definition submission_id (submission : value) : jsstring :=
  match get_opt submission (js "id") with
  | VString s => s
  | _ => []
  end.

(** The POST branch, with the notification function as a parameter. *)
Definition handle_post_with (notify : value -> M bool) (event : Event)
  : M Response :=
  try_catch
    (match JSON_parse rt (body_text event) with
     | None => throw SyntaxError
     | Some parsed =>
         (* Validate required fields *)
         contactInfo <- lift (get parsed (js "contactInfo")) ;;
         projectDetails <- lift (get parsed (js "projectDetails")) ;;
         if missing_contact contactInfo then
           ret (error_response 400 "Missing required contact information")
         else if missing_project projectDetails then
           ret (error_response 400 "Missing required project details")
         else
           (* Create submission object *)
           now <- Date_now ;;
           token <- Math_random_token ;;
           created <- Date_now ;;
           let submission :=
             new_submission now token created contactInfo projectDetails in
           (* Store in Netlify Blobs *)
           store_set (submission_id submission)
                     (JSON_stringify rt submission) ;;;
           (* Send email notification *)
           _ <- notify submission ;;
           ret {| statusCode := 200;
                  headers := json_headers;
                  body := JSON_stringify rt
                    (VObject
                       [(js "success", VBool true);
                        (js "id", VString (submission_id submission));
                        (js "message",
                         VString (js "Submission received successfully"))]) |}
     end)
    (fun error =>
       console_error (js "Error processing submission:") error ;;;
       ret (error_response 500 "Failed to process submission")).

Definition handle_post : Event -> M Response :=
  handle_post_with sendEmailNotification.

Definition handler (event : Event) : M Response :=
  (* Handle preflight requests *)
  if jsstring_eqb (httpMethod event) (js "OPTIONS") then
    ret {| statusCode := 200; headers := cors_headers; body := [] |}
  else if jsstring_eqb (httpMethod event) (js "GET") then handle_get
  else if jsstring_eqb (httpMethod event) (js "POST") then handle_post event
  else (* Method not allowed *)
    ret (error_response 405 "Method not allowed").

End ContactFunction.

(* ================================================================== *)
(** ** src/components/AdminDashboard.tsx *)

Module AdminDashboard.

Inductive Status : Type := new | reviewed | responded.

Definition Status_eqb (a b : Status) : bool :=
  match a, b with
  | new, new | reviewed, reviewed | responded, responded => true
  | _, _ => false
  end.

Definition Status_toString (st : Status) : jsstring :=
  match st with
  | new => js "new"
  | reviewed => js "reviewed"
  | responded => js "responded"
  end.

(** The interface declares [phone], [budget] and [requirements] as
    strings, and the component guards their uses with [||] and [?.]:
    they are optional here, [None] for undefined. *)
Record ContactInfo : Type := {
  name : jsstring;
  email : jsstring;
  company : jsstring;
  phone : option jsstring
}.

Record ProjectDetails : Type := {
  projectType : jsstring;
  description : jsstring;
  timeline : jsstring;
  budget : option jsstring;
  requirements : option jsstring
}.

Record ContactSubmission : Type := {
  id : jsstring;
  timestamp : jsstring;
  contactInfo : ContactInfo;
  projectDetails : ProjectDetails;
  status : Status;
  notes : option jsstring
}.

Inductive Filter : Type := all | only (st : Status).

(** The state of the component. *)
Record State : Type := {
  submissions : list ContactSubmission;
  loading : bool;
  error : option jsstring;
  selectedSubmission : option ContactSubmission;
  filter : Filter
}.

(** [{ ...sub, status, ...(notes !== undefined && { notes }) }] *)
Definition updated (sub : ContactSubmission) (st : Status)
  (new_notes : option jsstring) : ContactSubmission :=
  {| id := id sub;
     timestamp := timestamp sub;
     contactInfo := contactInfo sub;
     projectDetails := projectDetails sub;
     status := st;
     notes := match new_notes with
              | Some n => Some n
              | None => notes sub
              end |}.

(** The function given to [setSubmissions] by [updateSubmissionStatus]. *)
Definition updateSubmissionStatus (target : jsstring) (st : Status)
  (new_notes : option jsstring) (prev : list ContactSubmission)
  : list ContactSubmission :=
  map (fun sub =>
         if jsstring_eqb (id sub) target then updated sub st new_notes
         else sub)
      prev.

Definition set_submissions (s : State) (l : list ContactSubmission) : State :=
  {| submissions := l; loading := loading s; error := error s;
     selectedSubmission := selectedSubmission s; filter := filter s |}.

(** [filter === 'all' || sub.status === filter] *)
Definition shown (f : Filter) (sub : ContactSubmission) : bool :=
  match f with
  | all => true
  | only st => Status_eqb (status sub) st
  end.

(** [x || ''] *)
Definition or_empty (x : option jsstring) : jsstring :=
  match x with
  | Some s => s
  | None => []
  end.

(** The quoted fields of a row: the text with its quotes doubled, between
    two quotes. *)
Definition quoted (text : jsstring) : jsstring :=
  [QUOTE] ++ replace_quotes text ++ [QUOTE].

(** [requirements?.replace(...) || ''] *)
Definition requirements_text (r : option jsstring) : jsstring :=
  match r with
  | Some s => replace_quotes s
  | None => []
  end.

Definition csv_fields (sub : ContactSubmission) : list jsstring :=
  [id sub;
   timestamp sub;
   name (contactInfo sub);
   email (contactInfo sub);
   company (contactInfo sub);
   or_empty (phone (contactInfo sub));
   projectType (projectDetails sub);
   timeline (projectDetails sub);
   or_empty (budget (projectDetails sub));
   Status_toString (status sub);
   quoted (description (projectDetails sub));
   [QUOTE] ++ requirements_text (requirements (projectDetails sub)) ++ [QUOTE]].

Definition csv_header : jsstring :=
  js "ID,Timestamp,Name,Email,Company,Phone,Project Type,Timeline,Budget,Status,Description,Requirements".

(** [csvContent] of [exportToCSV], the text of the downloaded file. *)
Definition csvContent (s : State) : jsstring :=
  join [LF]
    (csv_header
     :: map (fun sub => join [COMMA] (csv_fields sub))
            (List.filter (shown (filter s)) (submissions s))).

(** What the user and the network can do to the component. *)
Inductive Action : Type :=
| Fetched (data : list ContactSubmission)   (* fetchSubmissions got a list *)
| FetchFailed (msg : jsstring)               (* fetchSubmissions caught an error *)
| Retry                                      (* the Retry button *)
| SetFilter (f : Filter)                     (* the status select *)
| Select (sub : ContactSubmission)           (* a click on a card *)
| ClickStatus (st : Status) (notes_text : jsstring)
      (* a status button of the detail panel; [notes_text] is the
         content of its notes field *)
| ExportCSV.                                 (* the Export CSV button *)

Definition step (s : State) (a : Action) : State :=
  match a with
  | Fetched data =>
      {| submissions := data; loading := false; error := error s;
         selectedSubmission := selectedSubmission s; filter := filter s |}
  | FetchFailed msg =>
      {| submissions := submissions s; loading := false; error := Some msg;
         selectedSubmission := selectedSubmission s; filter := filter s |}
  | Retry =>
      {| submissions := submissions s; loading := true; error := error s;
         selectedSubmission := selectedSubmission s; filter := filter s |}
  | SetFilter f =>
      {| submissions := submissions s; loading := loading s; error := error s;
         selectedSubmission := selectedSubmission s; filter := f |}
  | Select sub =>
      {| submissions := submissions s; loading := loading s; error := error s;
         selectedSubmission := Some sub; filter := filter s |}
  | ClickStatus st notes_text =>
      match selectedSubmission s with
      | Some sub =>
          set_submissions s
            (updateSubmissionStatus (id sub) st (Some notes_text)
               (submissions s))
      | None => s
      end
  | ExportCSV => s
  end.

(** [filteredSubmissions], the submissions the list shows. *)
Definition filteredSubmissions (s : State) : list ContactSubmission :=
  List.filter (shown (filter s)) (submissions s).

(** [statusCounts] *)
Record StatusCounts : Type := {
  count_new : nat;
  count_reviewed : nat;
  count_responded : nat
}.

Definition statusCounts (s : State) : StatusCounts :=
  {| count_new :=
       List.length
         (List.filter (fun x => Status_eqb (status x) new) (submissions s));
     count_reviewed :=
       List.length
         (List.filter (fun x => Status_eqb (status x) reviewed) (submissions s));
     count_responded :=
       List.length
         (List.filter (fun x => Status_eqb (status x) responded)
            (submissions s)) |}.

(** What the component renders: the spinner while [loading], the error
    with its Retry button when [error] is truthy, the list otherwise. *)
Inductive View : Type :=
| LoadingView
| ErrorView (msg : jsstring)
| ListView (counts : StatusCounts) (cards : list ContactSubmission)
    (detail : option ContactSubmission).

Definition render (s : State) : View :=
  if loading s then LoadingView
  else match error s with
       | Some (c :: msg) => ErrorView (c :: msg)
       | Some [] | None =>
           ListView (statusCounts s) (filteredSubmissions s)
             (selectedSubmission s)
       end.

(** The state after a sequence of actions. *)
Definition run (s : State) (actions : list Action) : State :=
  fold_left step actions s.

End AdminDashboard.

(* ================================================================== *)
(** ** src/components/ContactForm.tsx *)

Module ContactForm.

Record ContactInfo : Type := {
  name : jsstring;
  email : jsstring;
  company : jsstring;
  phone : jsstring
}.

Record ProjectDetails : Type := {
  projectType : jsstring;
  description : jsstring;
  timeline : jsstring;
  budget : jsstring;
  requirements : jsstring
}.

Record FormData : Type := {
  contactInfo : ContactInfo;
  projectDetails : ProjectDetails
}.

Inductive Step : Type := contact | project | review.

(** [[^\s@]] *)
Definition not_space_or_at (c : code_unit) : bool :=
  negb (is_space c || (c =? AT)%N).

(** [/^[^\s@]+@[^\s@]+\.[^\s@]+$/] *)
Definition email_pattern : Regex.regex :=
  Regex.Cat (Regex.Plus (Regex.Class not_space_or_at))
    (Regex.Cat (Regex.Class (N.eqb AT))
       (Regex.Cat (Regex.Plus (Regex.Class not_space_or_at))
          (Regex.Cat (Regex.Class (N.eqb DOT))
             (Regex.Plus (Regex.Class not_space_or_at))))).

(** [!s], for a string *)
Definition empty (s : jsstring) : bool :=
  match s with
  | [] => true
  | _ => false
  end.

(** The error messages of a step, keyed by field, in the order they are
    assigned. *)
Definition Errors : Type := list (string * string).

Definition validateContactInfo (formData : FormData) : Errors * bool :=
  let c := contactInfo formData in
  let newErrors :=
    (if empty (trim (name c)) then [("name", "Name is required")%string] else [])
    ++ (if empty (trim (email c)) then [("email", "Email is required")%string]
        else if negb (Regex.test email_pattern (email c))
        then [("email", "Please enter a valid email address")%string]
        else [])
    ++ (if empty (trim (company c))
        then [("company", "Company name is required")%string] else []) in
  (newErrors, (List.length newErrors =? 0)%nat).

Definition validateProjectDetails (formData : FormData) : Errors * bool :=
  let d := projectDetails formData in
  let newErrors :=
    (if empty (projectType d)
     then [("projectType", "Please select a project type")%string] else [])
    ++ (if empty (trim (description d))
        then [("description", "Project description is required")%string] else [])
    ++ (if empty (timeline d)
        then [("timeline", "Please select a timeline")%string] else []) in
  (newErrors, (List.length newErrors =? 0)%nat).

(** [handleNext]: the step shown after a click on Next. *)
Definition handleNext (currentStep : Step) (formData : FormData) : Step :=
  match currentStep with
  | contact => if snd (validateContactInfo formData) then project else contact
  | project => if snd (validateProjectDetails formData) then review else project
  | review => review
  end.

Definition handleBack (currentStep : Step) : Step :=
  match currentStep with
  | contact => contact
  | project => contact
  | review => project
  end.

(** *** The state of the component *)

(** [keyof ContactInfo] and [keyof ProjectDetails] *)
Inductive ContactField : Type := Name | Email | Company | Phone.

Inductive ProjectField : Type :=
| ProjectType | Description | Timeline | Budget | Requirements.

Definition contact_key (f : ContactField) : string :=
  match f with
  | Name => "name"
  | Email => "email"
  | Company => "company"
  | Phone => "phone"
  end.

Definition project_key (f : ProjectField) : string :=
  match f with
  | ProjectType => "projectType"
  | Description => "description"
  | Timeline => "timeline"
  | Budget => "budget"
  | Requirements => "requirements"
  end.

(** [data[field]] *)
Definition contact_get (f : ContactField) (c : ContactInfo) : jsstring :=
  match f with
  | Name => name c
  | Email => email c
  | Company => company c
  | Phone => phone c
  end.

Definition project_get (f : ProjectField) (d : ProjectDetails) : jsstring :=
  match f with
  | ProjectType => projectType d
  | Description => description d
  | Timeline => timeline d
  | Budget => budget d
  | Requirements => requirements d
  end.

(** [{ ...prev.contactInfo, [field]: value }] *)
Definition contact_set (f : ContactField) (v : jsstring) (c : ContactInfo)
  : ContactInfo :=
  match f with
  | Name => {| name := v; email := email c; company := company c;
               phone := phone c |}
  | Email => {| name := name c; email := v; company := company c;
                phone := phone c |}
  | Company => {| name := name c; email := email c; company := v;
                  phone := phone c |}
  | Phone => {| name := name c; email := email c; company := company c;
                phone := v |}
  end.

(** [{ ...prev.projectDetails, [field]: value }] *)
Definition project_set (f : ProjectField) (v : jsstring) (d : ProjectDetails)
  : ProjectDetails :=
  match f with
  | ProjectType =>
      {| projectType := v; description := description d;
         timeline := timeline d; budget := budget d;
         requirements := requirements d |}
  | Description =>
      {| projectType := projectType d; description := v;
         timeline := timeline d; budget := budget d;
         requirements := requirements d |}
  | Timeline =>
      {| projectType := projectType d; description := description d;
         timeline := v; budget := budget d; requirements := requirements d |}
  | Budget =>
      {| projectType := projectType d; description := description d;
         timeline := timeline d; budget := v; requirements := requirements d |}
  | Requirements =>
      {| projectType := projectType d; description := description d;
         timeline := timeline d; budget := budget d; requirements := v |}
  end.

(** [errors[key]] *)
Fixpoint errors_get (key : string) (errors : Errors) : option string :=
  match errors with
  | [] => None
  | (k, msg) :: rest =>
      if String.eqb key k then Some msg else errors_get key rest
  end.

(** [errors[key]] is truthy: the key has a message that is not empty. *)
Definition has_error (key : string) (errors : Errors) : bool :=
  match errors_get key errors with
  | Some EmptyString | None => false
  | Some (String _ _) => true
  end.

(** [{ ...prev, [key]: msg }] *)
Fixpoint errors_set (key msg : string) (errors : Errors) : Errors :=
  match errors with
  | [] => [(key, msg)]
  | (k, m) :: rest =>
      if String.eqb key k then (key, msg) :: rest
      else (k, m) :: errors_set key msg rest
  end.

Record State : Type := {
  currentStep : Step;
  isLoading : bool;
  isSubmitted : bool;
  formData : FormData;
  errors : Errors
}.

Definition blank_form : FormData :=
  {| contactInfo := {| name := []; email := []; company := []; phone := [] |};
     projectDetails := {| projectType := []; description := [];
                          timeline := []; budget := []; requirements := [] |} |}.

(** The state the component starts in. *)
Definition initial : State :=
  {| currentStep := contact; isLoading := false; isSubmitted := false;
     formData := blank_form; errors := [] |}.

(** Clear error for this field *)
Definition clear_error (key : string) (errors : Errors) : Errors :=
  if has_error key errors then errors_set key "" errors else errors.

Definition handleContactInfoChange (f : ContactField) (v : jsstring)
  (s : State) : State :=
  {| currentStep := currentStep s; isLoading := isLoading s;
     isSubmitted := isSubmitted s;
     formData :=
       {| contactInfo := contact_set f v (contactInfo (formData s));
          projectDetails := projectDetails (formData s) |};
     errors := clear_error (contact_key f) (errors s) |}.

Definition handleProjectDetailsChange (f : ProjectField) (v : jsstring)
  (s : State) : State :=
  {| currentStep := currentStep s; isLoading := isLoading s;
     isSubmitted := isSubmitted s;
     formData :=
       {| contactInfo := contactInfo (formData s);
          projectDetails := project_set f v (projectDetails (formData s)) |};
     errors := clear_error (project_key f) (errors s) |}.

(** [handleNext] on the state: the validation of the current step
    replaces the error messages, and the step advances when it passes. *)
Definition next (s : State) : State :=
  match currentStep s with
  | contact =>
      let '(newErrors, ok) := validateContactInfo (formData s) in
      {| currentStep := if ok then project else contact;
         isLoading := isLoading s; isSubmitted := isSubmitted s;
         formData := formData s; errors := newErrors |}
  | project =>
      let '(newErrors, ok) := validateProjectDetails (formData s) in
      {| currentStep := if ok then review else project;
         isLoading := isLoading s; isSubmitted := isSubmitted s;
         formData := formData s; errors := newErrors |}
  | review => s
  end.

(** [handleBack] on the state. *)
Definition back (s : State) : State :=
  {| currentStep := handleBack (currentStep s); isLoading := isLoading s;
     isSubmitted := isSubmitted s; formData := formData s;
     errors := errors s |}.

(** How the [fetch] of [handleSubmit] ends: with a response, of which
    the status is read, or with an exception. *)
Inductive FetchOutcome : Type :=
| Responded (status : Z)
| Rejected.

(** [response.ok] *)
Definition ok (status : Z) : bool := ((200 <=? status) && (status <=? 299))%Z.

(** [handleSubmit] until its [await]. *)
Definition submitting (s : State) : State :=
  {| currentStep := currentStep s; isLoading := true;
     isSubmitted := isSubmitted s; formData := formData s;
     errors := errors s |}.

(** [handleSubmit] after its [await]. *)
Definition settled (o : FetchOutcome) (s : State) : State :=
  match o with
  | Responded status =>
      if ok status then
        {| currentStep := currentStep s; isLoading := false;
           isSubmitted := true; formData := formData s; errors := errors s |}
      else
        {| currentStep := currentStep s; isLoading := false;
           isSubmitted := isSubmitted s; formData := formData s;
           errors := [("submit", "Failed to submit form. Please try again.")%string] |}
  | Rejected =>
      {| currentStep := currentStep s; isLoading := false;
         isSubmitted := isSubmitted s; formData := formData s;
         errors := [("submit", "Failed to submit form. Please try again.")%string] |}
  end.

(** The button Submit Another Request. *)
Definition reset (s : State) : State :=
  {| currentStep := contact; isLoading := isLoading s; isSubmitted := false;
     formData := blank_form; errors := errors s |}.

(** [formData] as the JavaScript object [JSON.stringify] is given. *)
Definition FormData_value (formData : FormData) : value :=
  VObject
    [(js "contactInfo",
      VObject [(js "name", VString (name (contactInfo formData)));
               (js "email", VString (email (contactInfo formData)));
               (js "company", VString (company (contactInfo formData)));
               (js "phone", VString (phone (contactInfo formData)))]);
     (js "projectDetails",
      VObject
        [(js "projectType", VString (projectType (projectDetails formData)));
         (js "description", VString (description (projectDetails formData)));
         (js "timeline", VString (timeline (projectDetails formData)));
         (js "budget", VString (budget (projectDetails formData)));
         (js "requirements",
          VString (requirements (projectDetails formData)))])].

(** The request of [handleSubmit]: a POST of [JSON.stringify(formData)]. *)
Definition request (rt : Runtime) (formData : FormData) : Event :=
  {| httpMethod := js "POST";
     event_body := Some (JSON_stringify rt (FormData_value formData)) |}.

(** What the user and the network can do to the component.  A control
    that is not rendered, or is disabled, cannot be used: the fields of a
    step are there on that step only, Continue on the first two steps,
    Submit on the last while no request is pending, and after the
    submission nothing but the button to start again. *)
Inductive UserEvent : Type :=
| TypeContact (f : ContactField) (v : jsstring)
| TypeProject (f : ProjectField) (v : jsstring)
| ClickContinue
| ClickBack
| ClickSubmit
| Settled (o : FetchOutcome)
| ClickReset.

Definition Step_eqb (a b : Step) : bool :=
  match a, b with
  | contact, contact | project, project | review, review => true
  | _, _ => false
  end.

Definition react (s : State) (e : UserEvent) : State :=
  match e with
  | TypeContact f v =>
      if negb (isSubmitted s) && Step_eqb (currentStep s) contact
      then handleContactInfoChange f v s else s
  | TypeProject f v =>
      if negb (isSubmitted s) && Step_eqb (currentStep s) project
      then handleProjectDetailsChange f v s else s
  | ClickContinue =>
      if negb (isSubmitted s) && negb (Step_eqb (currentStep s) review)
      then next s else s
  | ClickBack =>
      if negb (isSubmitted s) && negb (Step_eqb (currentStep s) contact)
      then back s else s
  | ClickSubmit =>
      if negb (isSubmitted s) && Step_eqb (currentStep s) review
         && negb (isLoading s)
      then submitting s else s
  | Settled o => if isLoading s then settled o s else s
  | ClickReset => if isSubmitted s then reset s else s
  end.

(** The state after a sequence of events. *)
Definition session (events : list UserEvent) : State :=
  fold_left react events initial.

End ContactForm.

(* ================================================================== *)
(** ** A reference runtime

    An executable instance of [Runtime], to run the function on concrete
    requests: a JSON reader and writer, the ISO format of dates, and the
    decimal notation of integers.  The reader takes the JSON texts whose
    numbers are integer literals (a fraction or an exponent is refused),
    and [Date_parse] takes the format [toISOString] writes. *)

Module ReferenceRuntime.

Definition BACKSLASH : code_unit := 92%N.

Definition json_space (c : code_unit) : bool :=
  ((c =? 32) || (c =? 9) || (c =? 10) || (c =? 13))%N.

Fixpoint skip_ws (s : jsstring) : jsstring :=
  match s with
  | c :: s' => if json_space c then skip_ws s' else s
  | [] => []
  end.

Definition is_digit (c : code_unit) : bool := ((48 <=? c) && (c <=? 57))%N.

Definition hex_digit (c : code_unit) : option N :=
  if is_digit c then Some (c - 48)%N
  else if ((97 <=? c) && (c <=? 102))%N then Some (c - 87)%N
  else if ((65 <=? c) && (c <=? 70))%N then Some (c - 55)%N
  else None.

Definition hex4 (a b c d : code_unit) : option code_unit :=
  match hex_digit a, hex_digit b, hex_digit c, hex_digit d with
  | Some x, Some y, Some z, Some t => Some (((x * 16 + y) * 16 + z) * 16 + t)%N
  | _, _, _, _ => None
  end.

(** The characters of a string literal, after its opening quote. *)
Fixpoint read_chars (s acc : jsstring) : option (jsstring * jsstring) :=
  match s with
  | [] => None
  | c :: s' =>
      if (c =? QUOTE)%N then Some (rev acc, s')
      else if (c =? BACKSLASH)%N then
        match s' with
        | [] => None
        | e :: s'' =>
            if (e =? 117)%N then
              match s'' with
              | a :: b :: c' :: d :: s5 =>
                  match hex4 a b c' d with
                  | Some u => read_chars s5 (u :: acc)
                  | None => None
                  end
              | _ => None
              end
            else
              match (if (e =? QUOTE)%N then Some QUOTE
                     else if (e =? BACKSLASH)%N then Some BACKSLASH
                     else if (e =? 47)%N then Some 47%N
                     else if (e =? 98)%N then Some 8%N
                     else if (e =? 102)%N then Some 12%N
                     else if (e =? 110)%N then Some 10%N
                     else if (e =? 114)%N then Some 13%N
                     else if (e =? 116)%N then Some 9%N
                     else None) with
              | Some u => read_chars s'' (u :: acc)
              | None => None
              end
        end
      else if (c <? 32)%N then None
      else read_chars s' (c :: acc)
  end.

Fixpoint read_digits (s : jsstring) (acc : N) : N * jsstring :=
  match s with
  | c :: s' => if is_digit c then read_digits s' (acc * 10 + (c - 48))%N
               else (acc, s)
  | [] => (acc, [])
  end.

Definition number_of_N (neg : bool) (n : N) : spec_float :=
  match n with
  | N0 => S754_zero neg
  | Npos m => binary_round 53 1024 neg m 0
  end.

(** An integer literal; [c] is its first digit. *)
Definition read_integer (neg : bool) (c : code_unit) (s : jsstring)
  : option (value * jsstring) :=
  let '(n, rest) := read_digits (c :: s) 0%N in
  let leading_zero :=
    match s with
    | d :: _ => (c =? 48)%N && is_digit d
    | [] => false
    end in
  let continues :=
    match rest with
    | d :: _ => ((d =? 46) || (d =? 101) || (d =? 69))%N
    | [] => false
    end in
  if leading_zero || continues then None
  else Some (VNumber (number_of_N neg n), rest).

Fixpoint read_word (w s : jsstring) : option jsstring :=
  match w, s with
  | [], _ => Some s
  | a :: w', b :: s' => if (a =? b)%N then read_word w' s' else None
  | _ :: _, [] => None
  end.

(** Defining a property again keeps its place and takes the new value. *)
Fixpoint define (k : jsstring) (v : value) (props : list (jsstring * value))
  : list (jsstring * value) :=
  match props with
  | [] => [(k, v)]
  | (k', v') :: rest =>
      if jsstring_eqb k k' then (k, v) :: rest
      else (k', v') :: define k v rest
  end.

Fixpoint read_value (fuel : nat) (s : jsstring) : option (value * jsstring) :=
  match fuel with
  | O => None
  | S fuel' =>
      match skip_ws s with
      | [] => None
      | c :: s' =>
          if (c =? 123)%N then                       (* an object *)
            match skip_ws s' with
            | d :: s'' =>
                if (d =? 125)%N then Some (VObject [], s'')
                else
                  match read_members fuel' (d :: s'') [] with
                  | Some (props, rest) => Some (VObject props, rest)
                  | None => None
                  end
            | [] => None
            end
          else if (c =? 91)%N then                   (* an array *)
            match skip_ws s' with
            | d :: s'' =>
                if (d =? 93)%N then Some (VArray [], s'')
                else
                  match read_elements fuel' (d :: s'') with
                  | Some (items, rest) => Some (VArray items, rest)
                  | None => None
                  end
            | [] => None
            end
          else if (c =? QUOTE)%N then
            match read_chars s' [] with
            | Some (str, rest) => Some (VString str, rest)
            | None => None
            end
          else if (c =? 45)%N then
            match s' with
            | d :: s'' => if is_digit d then read_integer true d s'' else None
            | [] => None
            end
          else if is_digit c then read_integer false c s'
          else
            match read_word (js "true") (c :: s'),
                  read_word (js "false") (c :: s'),
                  read_word (js "null") (c :: s') with
            | Some rest, _, _ => Some (VBool true, rest)
            | None, Some rest, _ => Some (VBool false, rest)
            | None, None, Some rest => Some (VNull, rest)
            | None, None, None => None
            end
      end
  end

with read_elements (fuel : nat) (s : jsstring)
  : option (list value * jsstring) :=
  match fuel with
  | O => None
  | S fuel' =>
      match read_value fuel' s with
      | Some (v, rest) =>
          match skip_ws rest with
          | d :: rest' =>
              if (d =? 44)%N then
                match read_elements fuel' rest' with
                | Some (items, rest'') => Some (v :: items, rest'')
                | None => None
                end
              else if (d =? 93)%N then Some ([v], rest')
              else None
          | [] => None
          end
      | None => None
      end
  end

with read_members (fuel : nat) (s : jsstring) (props : list (jsstring * value))
  : option (list (jsstring * value) * jsstring) :=
  match fuel with
  | O => None
  | S fuel' =>
      match skip_ws s with
      | q :: s1 =>
          if (q =? QUOTE)%N then
            match read_chars s1 [] with
            | Some (k, s2) =>
                match skip_ws s2 with
                | colon :: s3 =>
                    if (colon =? 58)%N then
                      match read_value fuel' s3 with
                      | Some (v, rest) =>
                          match skip_ws rest with
                          | d :: rest' =>
                              if (d =? 44)%N
                              then read_members fuel' rest' (define k v props)
                              else if (d =? 125)%N
                              then Some (define k v props, rest')
                              else None
                          | [] => None
                          end
                      | None => None
                      end
                    else None
                | [] => None
                end
            | None => None
            end
          else None
      | [] => None
      end
  end.

Definition read_json (text : jsstring) : option value :=
  match read_value (2 * List.length text + 2) text with
  | Some (v, rest) =>
      match skip_ws rest with
      | [] => Some v
      | _ :: _ => None
      end
  | None => None
  end.

Definition hex_char (n : N) : code_unit :=
  if (n <? 10)%N then (48 + n)%N else (87 + n)%N.

(** [\uXXXX] *)
Definition unicode_escape (c : code_unit) : jsstring :=
  [BACKSLASH; 117%N;
   hex_char (c / 4096 mod 16); hex_char (c / 256 mod 16);
   hex_char (c / 16 mod 16); hex_char (c mod 16)]%N.

Definition high_surrogate (c : code_unit) : bool :=
  ((55296 <=? c) && (c <=? 56319))%N.

Definition low_surrogate (c : code_unit) : bool :=
  ((56320 <=? c) && (c <=? 57343))%N.

Fixpoint write_chars (s : jsstring) : jsstring :=
  match s with
  | [] => []
  | c :: s' =>
      if (c =? QUOTE)%N then BACKSLASH :: QUOTE :: write_chars s'
      else if (c =? BACKSLASH)%N then BACKSLASH :: BACKSLASH :: write_chars s'
      else if (c =? 8)%N then BACKSLASH :: 98%N :: write_chars s'
      else if (c =? 12)%N then BACKSLASH :: 102%N :: write_chars s'
      else if (c =? 10)%N then BACKSLASH :: 110%N :: write_chars s'
      else if (c =? 13)%N then BACKSLASH :: 114%N :: write_chars s'
      else if (c =? 9)%N then BACKSLASH :: 116%N :: write_chars s'
      else if (c <? 32)%N then unicode_escape c ++ write_chars s'
      else if high_surrogate c then
        match s' with
        | d :: s'' =>
            if low_surrogate d then c :: d :: write_chars s''
            else unicode_escape c ++ write_chars s'
        | [] => unicode_escape c
        end
      else if low_surrogate c then unicode_escape c ++ write_chars s'
      else c :: write_chars s'
  end.

Definition write_string (s : jsstring) : jsstring :=
  [QUOTE] ++ write_chars s ++ [QUOTE].

(** The decimal notation of a number; exact on the integers below 10^21. *)
Definition write_number (x : spec_float) : jsstring :=
  match x with
  | S754_nan => js "NaN"
  | S754_infinity neg => js (if neg then "-Infinity" else "Infinity")
  | _ => match number_trunc x with
         | Some n => Z_toString n
         | None => js "NaN"
         end
  end.

Definition finite (x : spec_float) : bool :=
  match x with
  | S754_zero _ | S754_finite _ _ _ => true
  | S754_infinity _ | S754_nan => false
  end.

Fixpoint write_json (v : value) : jsstring :=
  match v with
  | VUndefined => js "undefined"
  | VNull => js "null"
  | VBool b => js (if b then "true" else "false")
  | VNumber x => if finite x then write_number x else js "null"
  | VString s => write_string s
  | VArray items =>
      js "["
      ++ join [COMMA]
           ((fix elements (l : list value) : list jsstring :=
               match l with
               | [] => []
               | VUndefined :: l' => js "null" :: elements l'
               | x :: l' => write_json x :: elements l'
               end) items)
      ++ js "]"
  | VObject props =>
      js "{"
      ++ join [COMMA]
           ((fix members (l : list (jsstring * value)) : list jsstring :=
               match l with
               | [] => []
               | (_, VUndefined) :: l' => members l'
               | (k, x) :: l' =>
                   (write_string k ++ js ":" ++ write_json x) :: members l'
               end) props)
      ++ js "}"
  end.

(** *** Dates *)

Definition msPerDay : Z := 86400000.

(** The year, month (1 to 12) and day of the month of a day number. *)
Definition civil_of_days (days : Z) : Z * Z * Z :=
  let z := (days + 719468)%Z in
  let era := (z / 146097)%Z in
  let doe := (z - era * 146097)%Z in
  let yoe := ((doe - doe / 1460 + doe / 36524 - doe / 146096) / 365)%Z in
  let doy := (doe - (365 * yoe + yoe / 4 - yoe / 100))%Z in
  let mp := ((5 * doy + 2) / 153)%Z in
  let d := (doy - (153 * mp + 2) / 5 + 1)%Z in
  let m := (if mp <? 10 then mp + 3 else mp - 9)%Z in
  let y := (yoe + era * 400 + (if m <=? 2 then 1 else 0))%Z in
  (y, m, d).

Definition days_of_civil (y m d : Z) : Z :=
  let y' := (if m <=? 2 then y - 1 else y)%Z in
  let era := (y' / 400)%Z in
  let yoe := (y' - era * 400)%Z in
  let mp := ((m + 9) mod 12)%Z in
  let doy := ((153 * mp + 2) / 5 + d - 1)%Z in
  let doe := (yoe * 365 + yoe / 4 - yoe / 100 + doy)%Z in
  (era * 146097 + doe - 719468)%Z.

(** The last [width] decimal digits of [n], with leading zeros. *)
Fixpoint digits (width : nat) (n : Z) : jsstring :=
  match width with
  | O => []
  | S w => digits w (n / 10) ++ [(48 + Z.to_N (n mod 10))%N]
  end.

Definition toISOString (t : Z) : jsstring :=
  let '(y, m, d) := civil_of_days (t / msPerDay) in
  let ms := (t mod msPerDay)%Z in
  (if (y <? 0)%Z then js "-" ++ digits 6 (- y)
   else if (9999 <? y)%Z then js "+" ++ digits 6 y
   else digits 4 y)
  ++ js "-" ++ digits 2 m ++ js "-" ++ digits 2 d
  ++ js "T" ++ digits 2 (ms / 3600000)
  ++ js ":" ++ digits 2 (ms / 60000 mod 60)
  ++ js ":" ++ digits 2 (ms / 1000 mod 60)
  ++ js "." ++ digits 3 (ms mod 1000) ++ js "Z".

Fixpoint number_of_digits (s : jsstring) (acc : Z) : option Z :=
  match s with
  | [] => Some acc
  | c :: s' =>
      if is_digit c then number_of_digits s' (acc * 10 + Z.of_N (c - 48))%Z
      else None
  end.

Definition parse_iso (s : jsstring) : option Z :=
  match s with
  | [y1; y2; y3; y4; h1; m1; m2; h2; d1; d2; t; hh1; hh2; c1; mm1; mm2; c2;
     ss1; ss2; dot; f1; f2; f3; z] =>
      if ((h1 =? 45) && (h2 =? 45) && (t =? 84) && (c1 =? 58) && (c2 =? 58)
          && (dot =? 46) && (z =? 90))%N then
        match number_of_digits [y1; y2; y3; y4] 0,
              number_of_digits [m1; m2] 0, number_of_digits [d1; d2] 0,
              number_of_digits [hh1; hh2] 0, number_of_digits [mm1; mm2] 0,
              number_of_digits [ss1; ss2] 0, number_of_digits [f1; f2; f3] 0
        with
        | Some y, Some m, Some d, Some hh, Some mm, Some ss, Some f =>
            let day := days_of_civil y m d in
            if ((1 <=? m) && (m <=? 12) && (1 <=? d) && (hh <? 24)
                && (mm <? 60) && (ss <? 60))%Z
               && (let '(y', m', d') := civil_of_days day in
                   (y' =? y) && (m' =? m) && (d' =? d))%Z
            then Some (day * msPerDay + hh * 3600000 + mm * 60000
                       + ss * 1000 + f)%Z
            else None
        | _, _, _, _, _, _, _ => None
        end
      else None
  | _ => None
  end.

Definition runtime : Runtime :=
  {| JSON_parse := read_json;
     JSON_stringify := write_json;
     Number_toString := write_number;
     Date_parse := parse_iso;
     Date_toISOString := toISOString |}.

End ReferenceRuntime.

(* ================================================================== *)
(** ** Notions of the specification *)

(** Reading a quoted CSV field back (RFC 4180): the field stands between
    two quotes, and a pair of quotes inside stands for one quote. *)
Fixpoint csv_unescape (s : jsstring) : option jsstring :=
  match s with
  | [] => None
  | c :: s' =>
      if (c =? QUOTE)%N then
        match s' with
        | [] => Some []
        | d :: s'' =>
            if (d =? QUOTE)%N then option_map (cons QUOTE) (csv_unescape s'')
            else None
        end
      else option_map (cons c) (csv_unescape s')
  end.

Definition csv_unquote (field : jsstring) : option jsstring :=
  match field with
  | c :: s => if (c =? QUOTE)%N then csv_unescape s else None
  | [] => None
  end.

(** Every quote doubled, nothing else changed. *)
Definition quotes_doubled (text : jsstring) : jsstring :=
  flat_map (fun c => if (c =? QUOTE)%N then [QUOTE; QUOTE] else [c]) text.

(** The field [name] of the part [part] of a request body. *)
Definition field (parsed : value) (part name : string) : value :=
  get_opt (get_opt parsed (js part)) (js name).

Definition required_fields : list (string * string) :=
  [("contactInfo", "name"); ("contactInfo", "email");
   ("contactInfo", "company"); ("projectDetails", "projectType");
   ("projectDetails", "description"); ("projectDetails", "timeline")]%string.

(** A field is missing when the request has no value for it. *)
Definition missing (v : value) : Prop := v = VUndefined \/ v = VNull.

(** The request bodies the function can destructure: any parsed value
    but [null]. *)
Definition destructurable (parsed : value) : Prop :=
  parsed <> VNull /\ parsed <> VUndefined.

(** All six required fields pass the truthiness checks of the function. *)
Definition complete (parsed : value) : bool :=
  forallb (fun pn => truthy (field parsed (fst pn) (snd pn))) required_fields.

(** The text has an [@], and a [.] somewhere after it. *)
Definition at_then_dot (s : jsstring) : Prop :=
  exists u v w, s = u ++ [AT] ++ v ++ [DOT] ++ w.

(** The record the function makes of a request body in the world [w]. *)
Definition created (rt : Runtime) (w : World) (parsed : value) : value :=
  new_submission rt (clock w (clock_reads w)) (random w (random_draws w))
    (clock w (S (clock_reads w)))
    (get_opt parsed (js "contactInfo")) (get_opt parsed (js "projectDetails")).

(** The world once that record is written: two readings of the clock and
    one random number are used, and the record is stored under its id. *)
Definition after_create (rt : Runtime) (w : World) (parsed : value) : World :=
  {| clock := clock w; clock_reads := S (S (clock_reads w));
     random := random w; random_draws := S (random_draws w);
     NOTIFICATION_EMAIL := NOTIFICATION_EMAIL w;
     store_online := store_online w;
     blobs := blobs_set (submission_id (created rt w parsed))
                (JSON_stringify rt (created rt w parsed)) (blobs w);
     console := console w |}.

(** The answer to an accepted request. *)
Definition accepted (rt : Runtime) (id : jsstring) : Response :=
  {| statusCode := 200;
     headers := json_headers;
     body := JSON_stringify rt
       (VObject [(js "success", VBool true);
                 (js "id", VString id);
                 (js "message",
                  VString (js "Submission received successfully"))]) |}.

Definition POST (text : option jsstring) : Event :=
  {| httpMethod := js "POST"; event_body := text |}.

Definition GET : Event := {| httpMethod := js "GET"; event_body := None |}.

(** The time value of the [timestamp] of a stored record. *)
Definition time_of (rt : Runtime) (record : value) : option Z :=
  match result_bind (get record (js "timestamp")) (Date_getTime rt) with
  | Ok t => t
  | Throw _ => None
  end.

(** [a] is at least as recent as [b]. *)
Definition not_older (rt : Runtime) (a b : value) : Prop :=
  exists ta tb, time_of rt a = Some ta /\ time_of rt b = Some tb
                /\ (tb <= ta)%Z.

(** A value that is not an object: a template literal can always print
    it. *)
Definition primitive (v : value) : bool :=
  match v with
  | VArray _ | VObject _ => false
  | VUndefined | VNull | VBool _ | VNumber _ | VString _ => true
  end.

(** The fields of a request the notification prints. *)
Definition printed_fields : list (string * string) :=
  [("contactInfo", "name"); ("contactInfo", "email");
   ("contactInfo", "company"); ("contactInfo", "phone");
   ("projectDetails", "projectType"); ("projectDetails", "timeline");
   ("projectDetails", "budget"); ("projectDetails", "description");
   ("projectDetails", "requirements")]%string.

(** Reading a CSV text (RFC 4180, the records separated by line feeds):
    a field is plain, up to the next comma or line feed and without
    quotes, or quoted, up to the quote that is not doubled. *)
Inductive csv_mode : Type := AtStart | InPlain | InQuoted | AfterQuote.

Fixpoint csv_read (m : csv_mode) (cur : jsstring) (row : list jsstring)
  (s : jsstring) : option (list (list jsstring)) :=
  match s with
  | [] =>
      match m with
      | InQuoted => None
      | _ => Some [rev (rev cur :: row)]
      end
  | c :: s' =>
      match m with
      | AtStart =>
          if (c =? QUOTE)%N then csv_read InQuoted [] row s'
          else if (c =? COMMA)%N then csv_read AtStart [] ([] :: row) s'
          else if (c =? LF)%N
          then option_map (cons (rev ([] :: row))) (csv_read AtStart [] [] s')
          else csv_read InPlain [c] row s'
      | InPlain =>
          if (c =? QUOTE)%N then None
          else if (c =? COMMA)%N then csv_read AtStart [] (rev cur :: row) s'
          else if (c =? LF)%N
          then option_map (cons (rev (rev cur :: row)))
                 (csv_read AtStart [] [] s')
          else csv_read InPlain (c :: cur) row s'
      | InQuoted =>
          if (c =? QUOTE)%N then csv_read AfterQuote cur row s'
          else csv_read InQuoted (c :: cur) row s'
      | AfterQuote =>
          if (c =? QUOTE)%N then csv_read InQuoted (QUOTE :: cur) row s'
          else if (c =? COMMA)%N then csv_read AtStart [] (rev cur :: row) s'
          else if (c =? LF)%N
          then option_map (cons (rev (rev cur :: row)))
                 (csv_read AtStart [] [] s')
          else None
      end
  end.

(** The records of a CSV text, each a list of fields. *)
Definition csv_parse (text : jsstring) : option (list (list jsstring)) :=
  csv_read AtStart [] [] text.

(** A text that can stand in a CSV field as it is: no quote, no comma, no
    line feed. *)
Definition plain (text : jsstring) : bool :=
  forallb (fun c => negb ((c =? QUOTE) || (c =? COMMA) || (c =? LF))%N) text.

(** The ten values a row of the export writes as they are. *)
Definition csv_raw (sub : AdminDashboard.ContactSubmission) : list jsstring :=
  [AdminDashboard.id sub;
   AdminDashboard.timestamp sub;
   AdminDashboard.name (AdminDashboard.contactInfo sub);
   AdminDashboard.email (AdminDashboard.contactInfo sub);
   AdminDashboard.company (AdminDashboard.contactInfo sub);
   AdminDashboard.or_empty (AdminDashboard.phone (AdminDashboard.contactInfo sub));
   AdminDashboard.projectType (AdminDashboard.projectDetails sub);
   AdminDashboard.timeline (AdminDashboard.projectDetails sub);
   AdminDashboard.or_empty
     (AdminDashboard.budget (AdminDashboard.projectDetails sub));
   AdminDashboard.Status_toString (AdminDashboard.status sub)].

(** The twelve values of a submission, in the order of the columns. *)
Definition csv_record (sub : AdminDashboard.ContactSubmission)
  : list jsstring :=
  csv_raw sub
  ++ [AdminDashboard.description (AdminDashboard.projectDetails sub);
      AdminDashboard.or_empty
        (AdminDashboard.requirements (AdminDashboard.projectDetails sub))].

(** The names of the columns. *)
Definition csv_columns : list jsstring :=
  [js "ID"; js "Timestamp"; js "Name"; js "Email"; js "Company"; js "Phone";
   js "Project Type"; js "Timeline"; js "Budget"; js "Status";
   js "Description"; js "Requirements"].

(** The id of the record the next create request makes in the world
    [w]. *)
Definition next_id (w : World) : jsstring :=
  js "sub_" ++ Z_toString (clock w (clock_reads w)) ++ js "_"
  ++ random w (random_draws w).

(** The answer to a POST, as a table: the checks of the function in their
    order, without the store and the notification. *)
Definition post_response (rt : Runtime) (w : World) (event : Event)
  : Response :=
  match JSON_parse rt (body_text event) with
  | None => error_response rt 500 "Failed to process submission"
  | Some parsed =>
      match parsed with
      | VNull | VUndefined =>
          error_response rt 500 "Failed to process submission"
      | _ =>
          if missing_contact (get_opt parsed (js "contactInfo")) then
            error_response rt 400 "Missing required contact information"
          else if missing_project (get_opt parsed (js "projectDetails")) then
            error_response rt 400 "Missing required project details"
          else if store_online w then accepted rt (next_id w)
          else error_response rt 500 "Failed to process submission"
      end
  end.

(** The steps behind the current one of the form have been validated
    with the data the form holds. *)
Definition validated (s : ContactForm.State) : Prop :=
  (ContactForm.currentStep s <> ContactForm.contact ->
   snd (ContactForm.validateContactInfo (ContactForm.formData s)) = true)
  /\ (ContactForm.currentStep s = ContactForm.review ->
      snd (ContactForm.validateProjectDetails (ContactForm.formData s)) = true).

(** The step after [st], the last one being its own successor. *)
Definition following (st : ContactForm.Step) : ContactForm.Step :=
  match st with
  | ContactForm.contact => ContactForm.project
  | ContactForm.project | ContactForm.review => ContactForm.review
  end.

(* ================================================================== *)
(** ** Sample data *)

Module Samples.

Definition contactInfo (name email company phone : string) : value :=
  VObject [(js "name", VString (js name)); (js "email", VString (js email));
           (js "company", VString (js company));
           (js "phone", VString (js phone))].

Definition projectDetails
  (projectType description timeline budget requirements : string) : value :=
  VObject [(js "projectType", VString (js projectType));
           (js "description", VString (js description));
           (js "timeline", VString (js timeline));
           (js "budget", VString (js budget));
           (js "requirements", VString (js requirements))].

Definition techcorp_project : value :=
  projectDetails "System Architecture"
    "Need help with scalable infrastructure" "3-6 months" "$100k - $250k"
    "AWS, Kubernetes, high availability".

(** The request of the documentation, with the given name and email. *)
Definition inquiry (name email : string) : value :=
  VObject [(js "contactInfo",
            contactInfo name email "TechCorp" "+1-555-0123");
           (js "projectDetails", techcorp_project)].

(** The request of the documentation without its company. *)
Definition inquiry_without_company : value :=
  VObject [(js "contactInfo",
            VObject [(js "name", VString (js "John Smith"));
                     (js "email", VString (js "john@example.com"))]);
           (js "projectDetails", techcorp_project)].

(** A request whose company is an object that has no primitive value. *)
Definition inquiry_opaque_company : value :=
  VObject [(js "contactInfo",
            VObject [(js "name", VString (js "John Smith"));
                     (js "email", VString (js "john@example.com"));
                     (js "company",
                      VObject [(js "toString", VBool true)])]);
           (js "projectDetails", techcorp_project)].

(** The body the form sends: [JSON.stringify(formData)]. *)
Definition sent (request : value) : Event :=
  {| httpMethod := js "POST";
     event_body := Some (ReferenceRuntime.write_json request) |}.

(** An empty store on 2024-01-15 at 10:30, the clock advancing by one
    millisecond at each reading. *)
Definition world0 : World :=
  {| clock := fun k => (1705314600000 + Z.of_nat k)%Z;
     clock_reads := 0;
     random := fun k => js "k3x9q2m1" ++ [(97 + N.of_nat k)%N];
     random_draws := 0;
     NOTIFICATION_EMAIL := None;
     store_online := true;
     blobs := [];
     console := [] |}.

(** The same, with a clock that stands still and a generator that
    repeats itself. *)
Definition world_repeating : World :=
  {| clock := fun _ => 1705314600000%Z;
     clock_reads := 0;
     random := fun _ => js "k3x9q2m1z";
     random_draws := 0;
     NOTIFICATION_EMAIL := None;
     store_online := true;
     blobs := [];
     console := [] |}.

Definition john (st : AdminDashboard.Status) : AdminDashboard.ContactSubmission :=
  {| AdminDashboard.id := js "sub_1705314600000_k3x9q2m1z";
     AdminDashboard.timestamp := js "2024-01-15T10:30:00.000Z";
     AdminDashboard.contactInfo :=
       {| AdminDashboard.name := js "John Smith";
          AdminDashboard.email := js "john@example.com";
          AdminDashboard.company := js "TechCorp";
          AdminDashboard.phone := Some (js "+1-555-0123") |};
     AdminDashboard.projectDetails :=
       {| AdminDashboard.projectType := js "System Architecture";
          AdminDashboard.description :=
            js "Need help with scalable infrastructure";
          AdminDashboard.timeline := js "3-6 months";
          AdminDashboard.budget := Some (js "$100k - $250k");
          AdminDashboard.requirements := Some (js "AWS, Kubernetes") |};
     AdminDashboard.status := st;
     AdminDashboard.notes := None |}.

Definition jane : AdminDashboard.ContactSubmission :=
  {| AdminDashboard.id := js "sub_1705314700000_a1b2c3d4e";
     AdminDashboard.timestamp := js "2024-01-15T10:31:40.000Z";
     AdminDashboard.contactInfo :=
       {| AdminDashboard.name := js "Jane Doe";
          AdminDashboard.email := js "jane@example.org";
          AdminDashboard.company := js "DataWorks";
          AdminDashboard.phone := None |};
     AdminDashboard.projectDetails :=
       {| AdminDashboard.projectType := js "Cloud Migration";
          AdminDashboard.description := js "Move the warehouse";
          AdminDashboard.timeline := js "1-2 months";
          AdminDashboard.budget := None;
          AdminDashboard.requirements := None |};
     AdminDashboard.status := AdminDashboard.reviewed;
     AdminDashboard.notes := Some (js "called on Monday") |}.

(** The dashboard showing one submission, selected. *)
Definition dashboard (st : AdminDashboard.Status) : AdminDashboard.State :=
  {| AdminDashboard.submissions := [jane; john st];
     AdminDashboard.loading := false;
     AdminDashboard.error := None;
     AdminDashboard.selectedSubmission := Some (john st);
     AdminDashboard.filter := AdminDashboard.all |}.

Definition john_inquiry : value := inquiry "John Smith" "john@example.com".

Definition jane_inquiry : value := inquiry "Jane Doe" "jane@example.org".

(** The store after the two inquiries. *)
Definition world1 : World :=
  snd (handler ReferenceRuntime.runtime (sent john_inquiry) world0).

Definition world2 : World :=
  snd (handler ReferenceRuntime.runtime (sent jane_inquiry) world1).

(** The state of the form with the given name and email. *)
Definition form (name email : string) : ContactForm.FormData :=
  {| ContactForm.contactInfo :=
       {| ContactForm.name := js name;
          ContactForm.email := js email;
          ContactForm.company := js "TechCorp";
          ContactForm.phone := js "+1-555-0123" |};
     ContactForm.projectDetails :=
       {| ContactForm.projectType := js "System Architecture";
          ContactForm.description :=
            js "Need help with scalable infrastructure";
          ContactForm.timeline := js "3-6 months";
          ContactForm.budget := js "$100k - $250k";
          ContactForm.requirements := js "AWS, Kubernetes" |} |}.


End Samples.

(* ================================================================== *)
(** ** More sample data *)

Module MoreSamples.

(** A submission whose description has quotes, a comma and a line feed. *)
Definition quoting : AdminDashboard.ContactSubmission :=
  {| AdminDashboard.id := js "sub_1705314800000_q0q0q0q0q";
     AdminDashboard.timestamp := js "2024-01-15T10:33:20.000Z";
     AdminDashboard.contactInfo :=
       {| AdminDashboard.name := js "Ada Byron";
          AdminDashboard.email := js "ada@example.net";
          AdminDashboard.company := js "Analytical Engines";
          AdminDashboard.phone := None |};
     AdminDashboard.projectDetails :=
       {| AdminDashboard.projectType := js "Custom Solution";
          AdminDashboard.description :=
            js "They said " ++ [QUOTE] ++ js "no, never" ++ [QUOTE]
            ++ [LF] ++ js "twice";
          AdminDashboard.timeline := js "12+ months";
          AdminDashboard.budget := None;
          AdminDashboard.requirements := Some [QUOTE; QUOTE] |};
     AdminDashboard.status := AdminDashboard.new;
     AdminDashboard.notes := None |}.

(** The dashboard with three submissions, showing the new ones. *)
Definition triage : AdminDashboard.State :=
  {| AdminDashboard.submissions :=
       [Samples.jane; Samples.john AdminDashboard.new; quoting];
     AdminDashboard.loading := false;
     AdminDashboard.error := None;
     AdminDashboard.selectedSubmission := None;
     AdminDashboard.filter := AdminDashboard.only AdminDashboard.new |}.

(** The dashboard after a fetch that failed. *)
Definition failed : AdminDashboard.State :=
  {| AdminDashboard.submissions := [];
     AdminDashboard.loading := false;
     AdminDashboard.error := Some (js "Failed to fetch submissions");
     AdminDashboard.selectedSubmission := None;
     AdminDashboard.filter := AdminDashboard.all |}.

(** A store with a record and a blob that is not JSON. *)
Definition world_corrupt : World :=
  {| clock := clock Samples.world1;
     clock_reads := clock_reads Samples.world1;
     random := random Samples.world1;
     random_draws := random_draws Samples.world1;
     NOTIFICATION_EMAIL := None;
     store_online := true;
     blobs := blobs Samples.world1 ++ [(js "sub_0_broken", js "{")];
     console := [] |}.

(** The inquiry of John with an id, a status and a timestamp of the
    client's own. *)
Definition john_inquiry_with_id : value :=
  VObject [(js "id", VString (js "sub_1_mine"));
           (js "status", VString (js "responded"));
           (js "timestamp", VString (js "1999-12-31T23:59:59.999Z"));
           (js "contactInfo",
            Samples.contactInfo "John Smith" "john@example.com" "TechCorp"
              "+1-555-0123");
           (js "projectDetails", Samples.techcorp_project)].

(** The form on its first step, with the contact data typed in. *)
Definition typed_contact : ContactForm.State :=
  {| ContactForm.currentStep := ContactForm.contact;
     ContactForm.isLoading := false;
     ContactForm.isSubmitted := false;
     ContactForm.formData := Samples.form "John Smith" "john@example.com";
     ContactForm.errors := [("name", "Name is required")%string] |}.



(** A user who fills in the first two steps and reaches the review. *)
Definition filling : list ContactForm.UserEvent :=
  [ContactForm.ClickContinue;
   ContactForm.TypeContact ContactForm.Name (js "John Smith");
   ContactForm.TypeContact ContactForm.Email (js "john@example.com");
   ContactForm.TypeContact ContactForm.Company (js "TechCorp");
   ContactForm.ClickContinue;
   ContactForm.TypeProject ContactForm.ProjectType (js "AI Agents System");
   ContactForm.TypeProject ContactForm.Description (js "An agent.");
   ContactForm.TypeProject ContactForm.Timeline (js "3-6 months");
   ContactForm.ClickContinue].


End MoreSamples.

(* ================================================================== *)
(** * Properties *)

(** ** Strings *)

Lemma jsstring_eqb_eq (a b : jsstring) : jsstring_eqb a b = true <-> a = b.
Proof.
  revert b; induction a as [|x a IH]; intros [|y b]; simpl;
    try (split; congruence).
  rewrite andb_true_iff, N.eqb_eq, IH. split.
  - intros [-> ->]; reflexivity.
  - intros [= -> ->]; auto.
Qed.

Lemma jsstring_eqb_refl (a : jsstring) : jsstring_eqb a a = true.
Proof. now apply jsstring_eqb_eq. Qed.

Lemma jsstring_eqb_neq (a b : jsstring) : a <> b -> jsstring_eqb a b = false.
Proof.
  intros H. destruct (jsstring_eqb a b) eqn:E; [|reflexivity].
  apply jsstring_eqb_eq in E. contradiction.
Qed.

Lemma replace_quotes_doubles (s : jsstring) :
  replace_quotes s = quotes_doubled s.
Proof.
  induction s as [|c s IH]; simpl; [reflexivity|].
  destruct (c =? QUOTE)%N; simpl; now rewrite IH.
Qed.

Lemma csv_unescape_replace_quotes (s : jsstring) :
  csv_unescape (replace_quotes s ++ [QUOTE]) = Some s.
Proof.
  induction s as [|c s IH]; simpl; [reflexivity|].
  destruct (c =? QUOTE)%N eqn:E; simpl.
  - apply N.eqb_eq in E; subst c. now rewrite IH.
  - rewrite E, IH. reflexivity.
Qed.

Lemma js_inj (s1 s2 : string) : js s1 = js s2 -> s1 = s2.
Proof.
  unfold js. intros H.
  rewrite <- (string_of_list_ascii_of_string s1),
          <- (string_of_list_ascii_of_string s2).
  f_equal. revert H.
  generalize (list_ascii_of_string s1), (list_ascii_of_string s2).
  induction l as [|a l IH]; intros [|b l']; simpl; try discriminate;
    [reflexivity|].
  intros [= Hab Hl]. f_equal; [|now apply IH].
  rewrite <- (ascii_N_embedding a), <- (ascii_N_embedding b). now f_equal.
Qed.

Lemma Z_to_int_proper (n : Z) :
  Z.to_int n <> Decimal.Pos Decimal.Nil /\ Z.to_int n <> Decimal.Neg Decimal.Nil.
Proof.
  destruct n; simpl; split; try discriminate; intros [= H];
    now apply DecimalPos.Unsigned.to_uint_nonnil in H.
Qed.

(** Different integers have different decimal notations. *)
Lemma Z_toString_inj (n m : Z) : Z_toString n = Z_toString m -> n = m.
Proof.
  unfold Z_toString. intros H. apply js_inj in H.
  apply DecimalZ.to_int_inj.
  apply (f_equal NilZero.int_of_string) in H.
  destruct (Z_to_int_proper n), (Z_to_int_proper m).
  rewrite !NilZero.isi in H by assumption. now injection H.
Qed.

Lemma digits_no_underscore (d : Decimal.uint) :
  ~ In UNDERSCORE (js (NilEmpty.string_of_uint d)).
Proof.
  unfold js.
  induction d; simpl; try tauto; intros [H|H]; try discriminate; tauto.
Qed.

(** The decimal notation of an integer has no underscore. *)
Lemma Z_toString_no_underscore (n : Z) : ~ In UNDERSCORE (Z_toString n).
Proof.
  unfold Z_toString.
  assert (U : forall d, ~ In UNDERSCORE (js (NilZero.string_of_uint d))).
  { intros d. destruct d; try apply (digits_no_underscore (_ d)).
    unfold js; simpl. intros [H|H]; [discriminate | tauto]. }
  destruct (Z.to_int n) as [d|d]; simpl; [apply U|].
  intros H. change (In UNDERSCORE (45%N :: js (NilZero.string_of_uint d))) in H.
  destruct H as [H|H]; [discriminate | now apply (U d)].
Qed.

Lemma split_at_first (u : code_unit) (a a' t t' : jsstring) :
  ~ In u a -> ~ In u a' -> a ++ u :: t = a' ++ u :: t' -> a = a' /\ t = t'.
Proof.
  revert a'; induction a as [|x a IH]; intros [|y a']; simpl;
    intros Ha Ha' E.
  - injection E as ->. auto.
  - injection E as -> _. tauto.
  - injection E as -> _. tauto.
  - injection E as -> E. destruct (IH a') as [-> ->]; tauto.
Qed.

(** The id tells the clock reading and the random token it is made of. *)
Lemma new_id_inj (now now' : Z) (token token' : jsstring) :
  js "sub_" ++ Z_toString now ++ js "_" ++ token
  = js "sub_" ++ Z_toString now' ++ js "_" ++ token' ->
  now = now' /\ token = token'.
Proof.
  intros E. apply app_inv_head in E.
  change (js "_") with [UNDERSCORE] in E. simpl in E.
  apply split_at_first in E; auto using Z_toString_no_underscore.
  destruct E as [E ->]. split; [now apply Z_toString_inj | reflexivity].
Qed.

(** ** The admin dashboard *)

Module DashboardFacts.
Import AdminDashboard.

Lemma csv_unquote_quoted (text : jsstring) :
  csv_unquote (quoted text) = Some text.
Proof. unfold quoted; simpl. apply csv_unescape_replace_quotes. Qed.

(** C8. In a row of the CSV export the description and the requirements
    stand between two double quotes with every quote of the text doubled,
    the ten fields before them are the values of the record as they are,
    and undoing the CSV quoting of the two fields gives back the
    description and the requirements (the empty text when there are
    none) exactly. *)
Theorem csv_quoted_fields_roundtrip (sub : ContactSubmission) :
  let d := description (projectDetails sub) in
  let r := or_empty (requirements (projectDetails sub)) in
  csv_fields sub =
    [id sub; timestamp sub; name (contactInfo sub); email (contactInfo sub);
     company (contactInfo sub); or_empty (phone (contactInfo sub));
     projectType (projectDetails sub); timeline (projectDetails sub);
     or_empty (budget (projectDetails sub)); Status_toString (status sub)]
    ++ [[QUOTE] ++ quotes_doubled d ++ [QUOTE];
        [QUOTE] ++ quotes_doubled r ++ [QUOTE]]
  /\ option_map csv_unquote (nth_error (csv_fields sub) 10) = Some (Some d)
  /\ option_map csv_unquote (nth_error (csv_fields sub) 11) = Some (Some r).
Proof.
  cbv zeta. split; [|split].
  - unfold csv_fields, quoted. rewrite <- !replace_quotes_doubles.
    destruct (requirements (projectDetails sub)); reflexivity.
  - cbn [csv_fields nth_error option_map]. now rewrite csv_unquote_quoted.
  - cbn [csv_fields nth_error option_map]. f_equal.
    destruct (requirements (projectDetails sub)) as [r|]; simpl.
    + apply csv_unescape_replace_quotes.
    + reflexivity.
Qed.


(** C10. [updateSubmissionStatus] keeps the length and the order of the
    list, leaves every submission with another id as it is, and in a
    submission with the target id changes the status, and the notes only
    when notes are given. *)
Theorem updateSubmissionStatus_frame
  (prev : list ContactSubmission) (target : jsstring) (st : Status)
  (new_notes : option jsstring) (i : nat) (sub : ContactSubmission) :
  nth_error prev i = Some sub ->
  let next := updateSubmissionStatus target st new_notes prev in
  List.length next = List.length prev
  /\ map id next = map id prev
  /\ exists sub',
       nth_error next i = Some sub'
       /\ (id sub <> target -> sub' = sub)
       /\ (id sub = target ->
           id sub' = id sub /\ timestamp sub' = timestamp sub
           /\ contactInfo sub' = contactInfo sub
           /\ projectDetails sub' = projectDetails sub
           /\ status sub' = st
           /\ notes sub' = match new_notes with
                           | Some n => Some n
                           | None => notes sub
                           end).
Proof.
  intros Hi next. subst next. unfold updateSubmissionStatus.
  split; [apply length_map|]. split.
  - rewrite map_map. apply map_ext. intros x.
    destruct (jsstring_eqb (id x) target); reflexivity.
  - rewrite nth_error_map, Hi. simpl. eexists. split; [reflexivity|]. split.
    + intros Hne. now rewrite (jsstring_eqb_neq Hne).
    + intros He. apply jsstring_eqb_eq in He. rewrite He. simpl. auto 6.
Qed.

Lemma updateSubmissionStatus_frame_witness :
  nth_error (submissions (Samples.dashboard new)) 1 = Some (Samples.john new)
  /\ (let next :=
        updateSubmissionStatus (id (Samples.john new)) responded None
          (submissions (Samples.dashboard new)) in
      List.length next = List.length (submissions (Samples.dashboard new))
      /\ map id next = map id (submissions (Samples.dashboard new))
      /\ exists sub',
           nth_error next 1 = Some sub'
           /\ (id (Samples.john new) <> id (Samples.john new) ->
               sub' = Samples.john new)
           /\ (id (Samples.john new) = id (Samples.john new) ->
               id sub' = id (Samples.john new)
               /\ timestamp sub' = timestamp (Samples.john new)
               /\ contactInfo sub' = contactInfo (Samples.john new)
               /\ projectDetails sub' = projectDetails (Samples.john new)
               /\ status sub' = responded
               /\ notes sub' = notes (Samples.john new))).
Proof.
  split; [reflexivity|].
  exact (@updateSubmissionStatus_frame
           (submissions (Samples.dashboard new)) (id (Samples.john new))
           responded None 1 (Samples.john new) eq_refl).
Defined.

(** The submissions after an action of the dashboard. *)
Lemma submissions_step (s : State) (a : Action) :
  submissions (step s a) =
  match a with
  | Fetched data => data
  | ClickStatus st text =>
      match selectedSubmission s with
      | Some sel =>
          updateSubmissionStatus (id sel) st (Some text) (submissions s)
      | None => submissions s
      end
  | _ => submissions s
  end.
Proof.
  destruct a; try reflexivity. simpl.
  destruct (selectedSubmission s); reflexivity.
Qed.

End DashboardFacts.

(** ** Regular expressions *)

Module RegexFacts.
Import Regex.

Lemma matches_nil_nullable (r : regex) (s : jsstring) :
  matches r s -> s = [] -> nullable r = true.
Proof.
  induction 1; intros E; simpl; try discriminate; try reflexivity.
  - apply app_eq_nil in E as [-> ->]. now rewrite IHmatches1, IHmatches2.
  - now rewrite IHmatches.
  - rewrite IHmatches by assumption. apply orb_true_r.
Qed.

Lemma nullable_matches_nil (r : regex) : nullable r = true -> matches r [].
Proof.
  induction r; simpl; intros H; try discriminate.
  - constructor.
  - apply andb_true_iff in H as [H1 H2].
    change (@nil code_unit) with (@nil code_unit ++ []). constructor; auto.
  - apply orb_true_iff in H as [H|H]; [apply MAltL | apply MAltR]; auto.
  - constructor.
Qed.

Lemma deriv_sound (c : code_unit) (r : regex) :
  forall s, matches (deriv c r) s -> matches r (c :: s).
Proof.
  induction r; simpl; intros s H.
  - inversion H.
  - inversion H.
  - destruct (p c) eqn:E; inversion H; subst. now constructor.
  - assert (Hcat : forall t, matches (Cat (deriv c r1) r2) t ->
                             matches (Cat r1 r2) (c :: t)).
    { intros t Ht. inversion Ht; subst.
      change (c :: s1 ++ s2) with ((c :: s1) ++ s2). constructor; auto. }
    destruct (nullable r1) eqn:E; [|now apply Hcat].
    inversion H; subst; [now apply Hcat|].
    change (c :: s) with ([] ++ c :: s).
    constructor; [now apply nullable_matches_nil | auto].
  - inversion H; subst; [apply MAltL | apply MAltR]; auto.
  - inversion H; subst.
    change (c :: s1 ++ s2) with ((c :: s1) ++ s2). constructor; auto.
Qed.

Lemma deriv_complete (r : regex) (t : jsstring) :
  matches r t -> forall c s, t = c :: s -> matches (deriv c r) s.
Proof.
  induction 1; intros c0 s0 E; simpl; try discriminate.
  - injection E as -> <-. rewrite H. constructor.
  - destruct s1 as [|x s1]; simpl in E.
    + subst s2. rewrite (matches_nil_nullable H eq_refl).
      apply MAltR. now apply IHmatches2.
    + injection E as -> <-.
      assert (matches (Cat (deriv c0 r1) r2) (s1 ++ s2))
        by (constructor; auto).
      destruct (nullable r1); [now apply MAltL | assumption].
  - apply MAltL. auto.
  - apply MAltR. auto.
  - destruct s1 as [|x s1]; simpl in E.
    + now apply IHmatches2.
    + injection E as -> <-. constructor; auto.
Qed.

(** The test decides the language of the pattern. *)
Lemma test_matches (r : regex) (s : jsstring) :
  test r s = true <-> matches r s.
Proof.
  revert r; induction s as [|c s IH]; intros r; simpl.
  - split; [apply nullable_matches_nil|].
    intros H. now apply (matches_nil_nullable H).
  - rewrite IH. split; [apply deriv_sound|].
    intros H. now apply (deriv_complete H).
Qed.

Lemma matches_star_class (p : code_unit -> bool) (r : regex) (s : jsstring) :
  matches r s -> r = Star (Class p) -> forallb p s = true.
Proof.
  induction 1; intros E; try discriminate; [reflexivity|].
  injection E as ->. rewrite forallb_app, IHmatches2 by reflexivity.
  inversion H; subst. simpl.
  match goal with Hp : p _ = true |- _ => now rewrite Hp end.
Qed.

Lemma star_class_matches (p : code_unit -> bool) (s : jsstring) :
  forallb p s = true -> matches (Star (Class p)) s.
Proof.
  induction s as [|c s IH]; simpl; intros H; [constructor|].
  apply andb_true_iff in H as [Hc Hs].
  change (c :: s) with ([c] ++ s). constructor; [now constructor | auto].
Qed.

(** [[p]+] takes the texts of one code unit or more, all of them in the
    class. *)
Lemma matches_plus_class (p : code_unit -> bool) (s : jsstring) :
  matches (Plus (Class p)) s <-> s <> [] /\ forallb p s = true.
Proof.
  split.
  - intros H. inversion H as [| |? ? ? ? Hc Hs| | | |]; subst.
    inversion Hc as [|? ? Hp| | | | |]; subst. simpl. split.
    + discriminate.
    + rewrite Hp. simpl. now apply (matches_star_class Hs).
  - intros [Hne Hall]. destruct s as [|c s]; [contradiction|].
    simpl in Hall. apply andb_true_iff in Hall as [Hc Hs].
    change (c :: s) with ([c] ++ s).
    constructor; [now constructor | now apply star_class_matches].
Qed.

Lemma matches_char (c : code_unit) (s : jsstring) :
  matches (Class (N.eqb c)) s <-> s = [c].
Proof.
  split.
  - intros H. inversion H as [|? ? Hp| | | | |]; subst.
    apply N.eqb_eq in Hp. now subst.
  - intros ->. constructor. apply N.eqb_refl.
Qed.


Lemma matches_cat (r1 r2 : regex) (s : jsstring) :
  matches (Cat r1 r2) s <->
  exists s1 s2, s = s1 ++ s2 /\ matches r1 s1 /\ matches r2 s2.
Proof.
  split.
  - intros H. inversion H; subst. eauto.
  - intros (s1 & s2 & -> & H1 & H2). now constructor.
Qed.

End RegexFacts.

(** ** The intake form *)

Module FormFacts.
Import ContactForm.

Lemma trimStart_nil (s : jsstring) : trimStart s = [] <-> blank s = true.
Proof.
  induction s as [|c s IH]; simpl; [tauto|].
  destruct (is_space c); simpl; [exact IH|]. split; discriminate.
Qed.

Lemma trimStart_head (s t : jsstring) (c : code_unit) :
  trimStart s = c :: t -> is_space c = false.
Proof.
  induction s as [|x s IH]; simpl; [discriminate|].
  destruct (is_space x) eqn:E; [exact IH|]. now intros [= <- _].
Qed.

Lemma blank_rev (s : jsstring) : blank (rev s) = blank s.
Proof.
  unfold blank. induction s as [|c s IH]; simpl; [reflexivity|].
  rewrite forallb_app, IH. simpl. rewrite andb_true_r. apply andb_comm.
Qed.

(** [!s.trim()] holds of the blank strings and of no other. *)
Lemma empty_trim (s : jsstring) : empty (trim s) = blank s.
Proof.
  unfold trim, trimEnd. destruct (blank s) eqn:B.
  - apply trimStart_nil in B. now rewrite B.
  - destruct (trimStart s) as [|c t] eqn:E.
    + apply trimStart_nil in E. congruence.
    + destruct (trimStart (rev (c :: t))) as [|c' t'] eqn:E'.
      * apply trimStart_nil in E'. rewrite blank_rev in E'. simpl in E'.
        now rewrite (trimStart_head _ E) in E'.
      * destruct (rev (c' :: t')) eqn:R; [|reflexivity].
        apply (f_equal (@List.length _)) in R.
        rewrite length_rev in R. discriminate.
Qed.

(** The language of the email pattern: something, an [@], something, a
    dot, something, where no something is empty or has white space or
    an [@]. *)
Lemma email_pattern_spec (s : jsstring) :
  Regex.test email_pattern s = true <->
  exists u v w,
    s = u ++ [AT] ++ v ++ [DOT] ++ w
    /\ (u <> [] /\ forallb not_space_or_at u = true)
    /\ (v <> [] /\ forallb not_space_or_at v = true)
    /\ (w <> [] /\ forallb not_space_or_at w = true).
Proof.
  rewrite RegexFacts.test_matches. unfold email_pattern. split.
  - intros H.
    apply RegexFacts.matches_cat in H as (u & s1 & -> & Hu & H).
    apply RegexFacts.matches_cat in H as (a & s2 & -> & Ha & H).
    apply RegexFacts.matches_cat in H as (v & s3 & -> & Hv & H).
    apply RegexFacts.matches_cat in H as (d & w & -> & Hd & Hw).
    apply RegexFacts.matches_char in Ha, Hd. subst a d.
    apply RegexFacts.matches_plus_class in Hu, Hv, Hw.
    exists u, v, w. auto.
  - intros (u & v & w & -> & Hu & Hv & Hw).
    apply RegexFacts.matches_plus_class in Hu, Hv, Hw.
    repeat (apply Regex.MCat; try assumption);
      now apply RegexFacts.matches_char.
Qed.

Lemma validateContactInfo_true (formData : FormData) :
  snd (validateContactInfo formData) = true <->
  blank (name (contactInfo formData)) = false
  /\ blank (email (contactInfo formData)) = false
  /\ Regex.test email_pattern (email (contactInfo formData)) = true
  /\ blank (company (contactInfo formData)) = false.
Proof.
  unfold validateContactInfo. cbv zeta. rewrite !empty_trim. simpl snd.
  destruct (blank (name _)), (blank (email _)),
    (Regex.test email_pattern _), (blank (company _)); simpl;
    intuition congruence.
Qed.

Lemma validateProjectDetails_true (formData : FormData) :
  snd (validateProjectDetails formData) = true <->
  projectType (projectDetails formData) <> []
  /\ blank (description (projectDetails formData)) = false
  /\ timeline (projectDetails formData) <> [].
Proof.
  unfold validateProjectDetails. cbv zeta. rewrite !empty_trim. simpl snd.
  destruct (projectType _), (blank (description _)), (timeline _); simpl;
    intuition congruence.
Qed.

(** The form lets an email through only if it has an [@] and a dot after
    it. *)
Lemma form_email_at_then_dot (formData : FormData) :
  snd (validateContactInfo formData) = true ->
  at_then_dot (email (contactInfo formData)).
Proof.
  intros H. apply validateContactInfo_true in H as (_ & _ & H & _).
  apply email_pattern_spec in H as (u & v & w & E & _).
  now exists u, v, w.
Qed.

End FormFacts.

(** ** Sorting *)

Module SortFacts.

Section Keyed.
Variable A : Type.
Variable cmp : A -> A -> result (option Z).
Variable key : A -> Z.

Lemma insert_by_descending (x : A) (l : list A) :
  (forall y, In y l -> cmp x y = Ok (Some (key y - key x)%Z)) ->
  descending key l ->
  exists l', insert_by cmp x l = Ok l'
             /\ Permutation (x :: l) l' /\ descending key l'.
Proof.
  unfold descending.
  induction l as [|y l IH]; intros Hcmp Hs; simpl.
  - exists [x]. repeat split; auto. constructor; constructor.
  - rewrite (Hcmp y (or_introl eq_refl)). simpl.
    inversion Hs as [|? ? Hl Hy]; subst.
    destruct (0 <? key y - key x)%Z eqn:E.
    + apply Z.ltb_lt in E.
      destruct IH as (l' & -> & Hp & Hs'); [intros; apply Hcmp; now right
                                            | assumption |].
      exists (y :: l'). simpl. split; [reflexivity|]. split.
      * rewrite perm_swap. now constructor.
      * constructor; [assumption|].
        apply (Permutation_Forall Hp). constructor; [lia | assumption].
    + apply Z.ltb_ge in E. exists (x :: y :: l). repeat split; auto.
      constructor; [assumption|]. constructor; [lia|].
      eapply Forall_impl; [|exact Hy]. simpl. intros; lia.
Qed.

(** The sort ends, with the same elements, largest key first. *)
Lemma sort_by_descending (l : list A) :
  keyed cmp key l ->
  exists l', sort_by cmp l = Ok l' /\ Permutation l l' /\ descending key l'.
Proof.
  induction l as [|x l IH]; intros Hk; simpl.
  - exists []. repeat split; auto. constructor.
  - destruct IH as (l1 & -> & Hp & Hs).
    { intros a b Ha Hb. apply Hk; now right. }
    simpl.
    destruct (@insert_by_descending x l1) as (l2 & E & Hp2 & Hs2); auto.
    { intros y Hy. apply Hk; [now left|]. right.
      now apply (Permutation_in _ (Permutation_sym Hp)). }
    exists l2. split; [assumption|]. split; [|assumption].
    now rewrite <- Hp2, <- Hp.
Qed.

End Keyed.

Lemma StronglySorted_on (A : Type) (R R' : A -> A -> Prop) (P : A -> Prop)
  (l : list A) :
  (forall a b, P a -> P b -> R a b -> R' a b) ->
  Forall P l -> StronglySorted R l -> StronglySorted R' l.
Proof.
  intros HR HP Hs. induction Hs as [|a l Hs IH Ha]; constructor.
  - apply IH. now inversion HP.
  - inversion HP as [|? ? Pa Pl]; subst.
    rewrite Forall_forall in *. intros b Hb. apply HR; auto.
Qed.

End SortFacts.


(** ** The function *)

Module FunctionFacts.

Section WithRuntime.
Variable rt : Runtime.

Lemma get_destructurable (parsed : value) (k : jsstring) :
  destructurable parsed -> get parsed k = Ok (get_opt parsed k).
Proof. intros [H1 H2]. destruct parsed; simpl; congruence. Qed.

Lemma complete_checks (parsed : value) :
  complete parsed = true <->
  missing_contact (get_opt parsed (js "contactInfo")) = false
  /\ missing_project (get_opt parsed (js "projectDetails")) = false.
Proof.
  unfold complete, required_fields, missing_contact, missing_project, field.
  cbn [forallb fst snd].
  rewrite !andb_true_iff, !orb_false_iff, !negb_false_iff. tauto.
Qed.

Lemma submission_id_new (now created : Z) (token : jsstring)
  (contactInfo projectDetails : value) :
  submission_id (new_submission rt now token created contactInfo projectDetails)
  = js "sub_" ++ Z_toString now ++ js "_" ++ token.
Proof. reflexivity. Qed.

(** The notification function ends with a boolean, whatever it is given:
    [true] when the message could be built, [false] when building it
    threw; it adds one line to the console and changes nothing else. *)
Lemma sendEmailNotification_returns (submission : value) (w : World) :
  exists (b : bool) (entry : log_entry),
    sendEmailNotification rt submission w
    = (Ok b, with_console w (console w ++ [entry]))
    /\ (b = true <-> exists data, fst (emailData rt submission w) = Ok data).
Proof.
  unfold sendEmailNotification, try_catch, bind, console_log, console_error, ret.
  destruct (emailData rt submission w) as [[data|e] w'] eqn:E.
  - assert (w' = w) by (unfold emailData in E; now injection E). subst w'.
    exists true, (Log (js "Email notification would be sent:") data).
    simpl. split; [reflexivity|]. split; eauto.
  - assert (w' = w) by (unfold emailData in E; now injection E). subst w'.
    exists false, (LogError (js "Failed to send email notification:") e).
    simpl. split; [reflexivity|]. split; [discriminate|].
    intros [data H]. discriminate.
Qed.

(** What the POST branch does with a complete request while the store
    can be reached. *)
Lemma handle_post_with_complete (notify : value -> M bool) (event : Event)
  (w : World) (parsed : value) :
  JSON_parse rt (body_text event) = Some parsed ->
  destructurable parsed ->
  complete parsed = true ->
  store_online w = true ->
  handle_post_with rt notify event w =
  match notify (created rt w parsed) (after_create rt w parsed) with
  | (Ok _, w') =>
      (Ok (accepted rt (submission_id (created rt w parsed))), w')
  | (Throw e, w') =>
      (Ok (error_response rt 500 "Failed to process submission"),
       with_console w'
         (console w' ++ [LogError (js "Error processing submission:") e]))
  end.
Proof.
  intros Hparse Hd Hc Hon. apply complete_checks in Hc as [Hc Hp].
  unfold handle_post_with, try_catch, bind, lift. rewrite Hparse.
  rewrite !(get_destructurable _ Hd), Hc, Hp.
  unfold Date_now, Math_random_token, store_set.
  unfold after_create, created, with_blobs, accepted.
  cbn [clock clock_reads random random_draws store_online blobs console
       NOTIFICATION_EMAIL].
  rewrite Hon.
  destruct (notify _ _) as [[b|e] w']; reflexivity.
Qed.


Lemma handler_POST (event : Event) :
  httpMethod event = js "POST" -> handler rt event = handle_post rt event.
Proof. intros H. unfold handler. rewrite H. reflexivity. Qed.

Lemma handler_GET : handler rt GET = handle_get rt.
Proof. reflexivity. Qed.

(** A request with a required field that is not truthy is answered 400,
    and nothing outside the function changes. *)
Lemma handle_post_with_incomplete (notify : value -> M bool) (event : Event)
  (w : World) (parsed : value) :
  JSON_parse rt (body_text event) = Some parsed ->
  destructurable parsed ->
  complete parsed = false ->
  exists msg,
    handle_post_with rt notify event w = (Ok (error_response rt 400 msg), w).
Proof.
  intros Hparse Hd Hc.
  unfold handle_post_with, try_catch, bind, lift. rewrite Hparse.
  rewrite !(get_destructurable _ Hd).
  destruct (missing_contact _) eqn:C; [eexists; reflexivity|].
  destruct (missing_project _) eqn:P; [eexists; reflexivity|].
  assert (complete parsed = true) by (apply complete_checks; auto).
  congruence.
Qed.

(** A body that does not parse is answered 500. *)
Lemma handle_post_with_unparseable (notify : value -> M bool) (event : Event)
  (w : World) :
  JSON_parse rt (body_text event) = None ->
  handle_post_with rt notify event w =
  (Ok (error_response rt 500 "Failed to process submission"),
   with_console w
     (console w ++ [LogError (js "Error processing submission:") SyntaxError])).
Proof.
  intros Hparse. unfold handle_post_with, try_catch, bind. rewrite Hparse.
  reflexivity.
Qed.

(** So is the body [null], which cannot be destructured. *)
Lemma handle_post_with_null (notify : value -> M bool) (event : Event)
  (w : World) (parsed : value) :
  JSON_parse rt (body_text event) = Some parsed ->
  ~ destructurable parsed ->
  handle_post_with rt notify event w =
  (Ok (error_response rt 500 "Failed to process submission"),
   with_console w
     (console w ++ [LogError (js "Error processing submission:") TypeError])).
Proof.
  intros Hparse Hd. unfold handle_post_with, try_catch, bind, lift.
  rewrite Hparse.
  destruct parsed; try reflexivity;
    exfalso; apply Hd; split; discriminate.
Qed.

(** So is a complete request when the store cannot be reached, and the
    store stays as it was. *)
Lemma handle_post_with_offline (notify : value -> M bool) (event : Event)
  (w : World) (parsed : value) :
  JSON_parse rt (body_text event) = Some parsed ->
  destructurable parsed ->
  complete parsed = true ->
  store_online w = false ->
  exists w',
    handle_post_with rt notify event w
    = (Ok (error_response rt 500 "Failed to process submission"), w')
    /\ blobs w' = blobs w.
Proof.
  intros Hparse Hd Hc Hoff. apply complete_checks in Hc as [Hc Hp].
  unfold handle_post_with, try_catch, bind, lift. rewrite Hparse.
  rewrite !(get_destructurable _ Hd), Hc, Hp.
  unfold Date_now, Math_random_token, store_set.
  cbn [clock clock_reads random random_draws store_online blobs console
       NOTIFICATION_EMAIL].
  rewrite Hoff. eexists. split; reflexivity.
Qed.

Lemma missing_not_truthy (v : value) : missing v -> truthy v = false.
Proof. intros [-> | ->]; reflexivity. Qed.

Lemma not_truthy_incomplete (parsed : value) (part name : string) :
  In (part, name) required_fields ->
  truthy (field parsed part name) = false ->
  complete parsed = false.
Proof.
  intros Hin Hf. unfold complete.
  destruct (forallb _ required_fields) eqn:E; [|reflexivity].
  rewrite forallb_forall in E. specialize (E _ Hin). simpl in E. congruence.
Qed.


Lemma destructurable_dec (parsed : value) :
  destructurable parsed \/ ~ destructurable parsed.
Proof.
  destruct parsed; try (left; split; discriminate);
    right; intros [H1 H2]; congruence.
Qed.

(** What a list request answers does not depend on the console. *)
Lemma get_all_console (keys : list jsstring) (w : World)
  (c : list log_entry) :
  fst (get_all rt keys (with_console w c)) = fst (get_all rt keys w).
Proof.
  induction keys as [|k keys IH]; [reflexivity|].
  cbn [get_all]. unfold bind, store_get_json.
  change (store_online (with_console w c)) with (store_online w).
  change (blobs (with_console w c)) with (blobs w).
  destruct (store_online w); [|reflexivity].
  destruct (blobs_get k (blobs w)) as [text|].
  - destruct (JSON_parse rt text); [|reflexivity].
    destruct (get_all rt keys (with_console w c)) as [[l1|e1] w1],
             (get_all rt keys w) as [[l2|e2] w2];
      simpl in *; congruence.
  - destruct (get_all rt keys (with_console w c)) as [[l1|e1] w1],
             (get_all rt keys w) as [[l2|e2] w2];
      simpl in *; congruence.
Qed.

Lemma handle_get_console (w : World) (c : list log_entry) :
  fst (handle_get rt (with_console w c)) = fst (handle_get rt w).
Proof.
  unfold handle_get, try_catch, bind, store_list, lift.
  change (store_online (with_console w c)) with (store_online w).
  change (blobs (with_console w c)) with (blobs w).
  destruct (store_online w); [|reflexivity].
  pose proof (get_all_console (map fst (blobs w)) w c) as H.
  destruct (get_all rt (map fst (blobs w)) (with_console w c))
    as [[l1|e1] w1],
    (get_all rt (map fst (blobs w)) w) as [[l2|e2] w2];
    simpl in H; try discriminate.
  - injection H as ->.
    destruct (sort_by (newest_first rt) l2) as [sorted|e]; reflexivity.
  - reflexivity.
Qed.

(** C2, amended. A create request whose body is not null and lacks one
    of the six required fields is answered 400 and changes nothing: the
    world, and with it the store, is as before.  The body null lacks all
    six and is answered 500, Failed to process submission, like a body
    that is not JSON.  Neither writes to the store, and the list read
    afterwards is the list read before: it does not hold the attempted
    record. *)
Theorem missing_field_rejected_without_write (event : Event) (w : World)
  (parsed : value) (part name : string) :
  httpMethod event = js "POST" ->
  JSON_parse rt (body_text event) = Some parsed ->
  In (part, name) required_fields ->
  missing (field parsed part name) ->
  exists resp w',
    handler rt event w = (Ok resp, w')
    /\ (destructurable parsed -> statusCode resp = 400%Z /\ w' = w)
    /\ (~ destructurable parsed ->
        resp = error_response rt 500 "Failed to process submission")
    /\ blobs w' = blobs w
    /\ fst (handler rt GET w') = fst (handler rt GET w).
Proof.
  intros Hm Hparse Hin Hmiss.
  rewrite (handler_POST _ Hm). unfold handle_post.
  destruct (destructurable_dec parsed) as [Hd|Hd].
  - assert (Hc : complete parsed = false)
      by (eapply not_truthy_incomplete; eauto using missing_not_truthy).
    destruct (handle_post_with_incomplete (sendEmailNotification rt) event w
                Hparse Hd Hc) as [msg E].
    rewrite E. exists (error_response rt 400 msg), w.
    repeat split; auto. intros Hn. contradiction.
  - rewrite (handle_post_with_null (sendEmailNotification rt) event w
               Hparse Hd).
    eexists _, _. split; [reflexivity|].
    split; [intros Hy; contradiction|]. split; [reflexivity|].
    split; [reflexivity|]. rewrite handler_GET. apply handle_get_console.
Qed.

(** A complete request is answered 200 while the store can be reached:
    the notification cannot fail the request. *)
Lemma handle_post_complete (event : Event) (w : World) (parsed : value) :
  JSON_parse rt (body_text event) = Some parsed ->
  destructurable parsed ->
  complete parsed = true ->
  store_online w = true ->
  exists entry,
    handle_post rt event w
    = (Ok (accepted rt (submission_id (created rt w parsed))),
       with_console (after_create rt w parsed)
         (console (after_create rt w parsed) ++ [entry])).
Proof.
  intros Hparse Hd Hc Hon. unfold handle_post.
  rewrite (handle_post_with_complete (sendEmailNotification rt) event w
             Hparse Hd Hc Hon).
  destruct (sendEmailNotification_returns (created rt w parsed)
              (after_create rt w parsed)) as (b & entry & E & _).
  rewrite E. now exists entry.
Qed.

(** The only requests answered 400 are those whose text parses to a body
    with a required field that is not truthy. *)
Lemma handle_post_400 (event : Event) (w w' : World) (resp : Response) :
  handle_post rt event w = (Ok resp, w') ->
  statusCode resp = 400%Z ->
  exists parsed,
    JSON_parse rt (body_text event) = Some parsed
    /\ destructurable parsed /\ complete parsed = false.
Proof.
  intros E H400.
  destruct (JSON_parse rt (body_text event)) as [parsed|] eqn:Hparse.
  - destruct (destructurable_dec parsed) as [Hd|Hd].
    + destruct (complete parsed) eqn:Hc; [|eauto].
      destruct (store_online w) eqn:Hon.
      * destruct (handle_post_complete event w Hparse Hd Hc Hon) as [entry E'].
        rewrite E' in E. injection E as <- _. discriminate.
      * destruct (handle_post_with_offline (sendEmailNotification rt) event w
                    Hparse Hd Hc Hon) as (w1 & E' & _).
        unfold handle_post in E. rewrite E' in E.
        injection E as <- _. discriminate.
    + unfold handle_post in E.
      rewrite (handle_post_with_null (sendEmailNotification rt) event w
                 Hparse Hd) in E.
      injection E as <- _. discriminate.
  - unfold handle_post in E.
    rewrite (handle_post_with_unparseable (sendEmailNotification rt) event w
               Hparse) in E.
    injection E as <- _. discriminate.
Qed.

(** C9, amended. A POST whose body text does not parse as JSON is
    answered 500, Failed to process submission, not 400; an absent or
    empty body is read as the empty object and answered 400; and a 400 is
    given only to a text that parses and lacks a required field. *)
Theorem unparseable_body_500_absent_body_400 (event : Event) (w : World) :
  httpMethod event = js "POST" ->
  JSON_parse rt (js "{}") = Some (VObject []) ->
  (JSON_parse rt (body_text event) = None ->
   handler rt event w =
   (Ok (error_response rt 500 "Failed to process submission"),
    with_console w
      (console w
       ++ [LogError (js "Error processing submission:") SyntaxError])))
  /\ (event_body event = None \/ event_body event = Some [] ->
      handler rt event w =
      (Ok (error_response rt 400 "Missing required contact information"), w))
  /\ (forall resp w',
        handler rt event w = (Ok resp, w') -> statusCode resp = 400%Z ->
        exists parsed,
          JSON_parse rt (body_text event) = Some parsed
          /\ destructurable parsed /\ complete parsed = false).
Proof.
  intros Hm Hempty. rewrite (handler_POST _ Hm). split; [|split].
  - intros Hparse. now apply handle_post_with_unparseable.
  - intros Habsent.
    assert (Hb : body_text event = js "{}")
      by (unfold body_text; destruct Habsent as [-> | ->]; reflexivity).
    unfold handle_post, handle_post_with, try_catch, bind, lift.
    rewrite Hb, Hempty. reflexivity.
  - intros resp w'. apply handle_post_400.
Qed.

(** C3, amended. A create request with a required field that is present
    but empty is answered 400 and nothing is written.  The function does
    not trim: white space is not blank for it.  The form does trim the
    name, the email, the company and the description, and refuses the
    step when one of them is blank. *)
Theorem empty_field_rejected_blank_field_by_form (event : Event) (w : World)
  (parsed : value) (part name : string) (formData : ContactForm.FormData) :
  httpMethod event = js "POST" ->
  JSON_parse rt (body_text event) = Some parsed ->
  destructurable parsed ->
  In (part, name) required_fields ->
  field parsed part name = VString [] ->
  (exists resp, handler rt event w = (Ok resp, w) /\ statusCode resp = 400%Z)
  /\ (blank (ContactForm.name (ContactForm.contactInfo formData))
      || blank (ContactForm.email (ContactForm.contactInfo formData))
      || blank (ContactForm.company (ContactForm.contactInfo formData))
      = true ->
      snd (ContactForm.validateContactInfo formData) = false)
  /\ (blank (ContactForm.description (ContactForm.projectDetails formData))
      = true ->
      snd (ContactForm.validateProjectDetails formData) = false).
Proof.
  intros Hm Hparse Hd Hin Hf. split; [|split].
  - assert (Hc : complete parsed = false).
    { apply (not_truthy_incomplete parsed Hin). now rewrite Hf. }
    destruct (handle_post_with_incomplete (sendEmailNotification rt) event w
                Hparse Hd Hc) as [msg E].
    rewrite (handler_POST _ Hm). unfold handle_post. rewrite E.
    exists (error_response rt 400 msg). auto.
  - intros Hb.
    destruct (snd (ContactForm.validateContactInfo formData)) eqn:V;
      [|reflexivity].
    apply FormFacts.validateContactInfo_true in V as (V1 & V2 & _ & V3).
    rewrite V1, V2, V3 in Hb. discriminate.
  - intros Hb.
    destruct (snd (ContactForm.validateProjectDetails formData)) eqn:V;
      [|reflexivity].
    apply FormFacts.validateProjectDetails_true in V as (_ & V & _).
    congruence.
Qed.

(** C1, amended. The function does not look at the shape of the email:
    every create request whose six required fields are truthy is
    accepted with 200 while the store can be reached.  The pattern is
    applied by the form alone, which lets an email pass only if it has an
    at sign and a dot after it; there a@b.c passes, a@b and ab.com do
    not. *)
Theorem email_shape_checked_by_form_only (event : Event) (w : World)
  (parsed : value) (formData : ContactForm.FormData) :
  httpMethod event = js "POST" ->
  JSON_parse rt (body_text event) = Some parsed ->
  destructurable parsed ->
  complete parsed = true ->
  store_online w = true ->
  (exists w',
     handler rt event w
     = (Ok (accepted rt (submission_id (created rt w parsed))), w'))
  /\ (snd (ContactForm.validateContactInfo formData) = true ->
      at_then_dot (ContactForm.email (ContactForm.contactInfo formData)))
  /\ Regex.test ContactForm.email_pattern (js "a@b.c") = true
  /\ Regex.test ContactForm.email_pattern (js "a@b") = false
  /\ Regex.test ContactForm.email_pattern (js "ab.com") = false.
Proof.
  intros Hm Hparse Hd Hc Hon. split; [|split; [|repeat split]].
  - rewrite (handler_POST _ Hm).
    destruct (handle_post_complete event w Hparse Hd Hc Hon) as [entry E].
    rewrite E. eauto.
  - apply FormFacts.form_email_at_then_dot.
Qed.

Lemma blobs_get_set (k text : jsstring) (b : list (jsstring * jsstring)) :
  blobs_get k (blobs_set k text b) = Some text.
Proof.
  induction b as [|[k' v'] b IH]; simpl.
  - now rewrite jsstring_eqb_refl.
  - destruct (jsstring_eqb k k') eqn:E; simpl; rewrite ?jsstring_eqb_refl, ?E;
      auto.
Qed.

(** C5. The notification function never throws: whatever it is given, it
    ends with a boolean, [true] when the message was built and [false]
    when building it failed.  The create request is answered with the
    same success whether the notification answers [true] or [false], and
    the record written before the notification is still in the store. *)
Theorem notification_never_fails_creation (submission : value) (w0 : World)
  (event : Event) (w : World) (parsed : value) :
  httpMethod event = js "POST" ->
  JSON_parse rt (body_text event) = Some parsed ->
  destructurable parsed ->
  complete parsed = true ->
  store_online w = true ->
  let id := submission_id (created rt w parsed) in
  (exists (b : bool) (entry : log_entry),
     sendEmailNotification rt submission w0
     = (Ok b, with_console w0 (console w0 ++ [entry]))
     /\ (b = true <-> exists data, fst (emailData rt submission w0) = Ok data))
  /\ (forall b : bool,
        handle_post_with rt (fun _ => ret b) event w
        = (Ok (accepted rt id), after_create rt w parsed))
  /\ (exists w',
        handler rt event w = (Ok (accepted rt id), w')
        /\ blobs_get id (blobs w')
           = Some (JSON_stringify rt (created rt w parsed))).
Proof.
  intros Hm Hparse Hd Hc Hon id. split; [|split].
  - apply sendEmailNotification_returns.
  - intros b.
    now rewrite (handle_post_with_complete (fun _ => ret b) event w
                   Hparse Hd Hc Hon).
  - rewrite (handler_POST _ Hm).
    destruct (handle_post_complete event w Hparse Hd Hc Hon) as [entry E].
    rewrite E. eexists. split; [reflexivity|]. simpl. apply blobs_get_set.
Qed.

(** C4, amended. For a valid create request the function makes the id
    from its own clock and random generator, [sub_], the clock reading,
    [_] and the random token: the id is not empty and owes nothing to the
    request.  The record it writes to the store under that id, before it
    answers with the id, has the status new and the time of a reading of
    the clock as its timestamp.  An id made from another clock reading
    or another token is another id; two calls that read the same time
    and draw the same token get the same id. *)
Theorem create_assigns_id_status_timestamp (event : Event) (w : World)
  (parsed : value) (now' : Z) (token' : jsstring) :
  httpMethod event = js "POST" ->
  JSON_parse rt (body_text event) = Some parsed ->
  destructurable parsed ->
  complete parsed = true ->
  store_online w = true ->
  let now := clock w (clock_reads w) in
  let token := random w (random_draws w) in
  let id := js "sub_" ++ Z_toString now ++ js "_" ++ token in
  let record :=
    VObject
      [(js "id", VString id);
       (js "timestamp",
        VString (Date_toISOString rt (clock w (S (clock_reads w)))));
       (js "contactInfo", get_opt parsed (js "contactInfo"));
       (js "projectDetails", get_opt parsed (js "projectDetails"));
       (js "status", VString (js "new"))] in
  id <> []
  /\ (exists w',
        handler rt event w = (Ok (accepted rt id), w')
        /\ blobs_get id (blobs w') = Some (JSON_stringify rt record))
  /\ (js "sub_" ++ Z_toString now' ++ js "_" ++ token' = id <->
      now' = now /\ token' = token).
Proof.
  intros Hm Hparse Hd Hc Hon now token id record. split; [|split].
  - discriminate.
  - rewrite (handler_POST _ Hm).
    destruct (handle_post_complete event w Hparse Hd Hc Hon) as [entry E].
    rewrite E. eexists. split; [reflexivity|]. simpl. apply blobs_get_set.
  - split; [apply new_id_inj|]. now intros [-> ->].
Qed.

(** *** The store keeps one blob per key *)

Lemma blobs_set_keys (k text : jsstring) (b : list (jsstring * jsstring)) :
  map fst (blobs_set k text b)
  = if existsb (jsstring_eqb k) (map fst b) then map fst b
    else map fst b ++ [k].
Proof.
  induction b as [|[k' v'] b IH]; simpl; [reflexivity|].
  destruct (jsstring_eqb k k') eqn:E; simpl.
  - apply jsstring_eqb_eq in E. now subst.
  - rewrite IH. now destruct (existsb _ _).
Qed.

Lemma blobs_set_NoDup (k text : jsstring) (b : list (jsstring * jsstring)) :
  NoDup (map fst b) -> NoDup (map fst (blobs_set k text b)).
Proof.
  intros H. rewrite blobs_set_keys.
  destruct (existsb (jsstring_eqb k) (map fst b)) eqn:E; [assumption|].
  apply NoDup_app; [assumption | repeat constructor; simpl; tauto |].
  intros x Hx [Hk | []]. subst x.
  assert (existsb (jsstring_eqb k) (map fst b) = true)
    by (apply existsb_exists; exists k; auto using jsstring_eqb_refl).
  congruence.
Qed.

Lemma get_all_world (keys : list jsstring) (w : World) :
  snd (get_all rt keys w) = w.
Proof.
  induction keys as [|k keys IH]; simpl; [reflexivity|].
  unfold bind, store_get_json.
  destruct (store_online w); [|reflexivity].
  destruct (blobs_get k (blobs w)) as [text|].
  - destruct (JSON_parse rt text); [|reflexivity].
    destruct (get_all rt keys w) as [[l|e] w'] eqn:E; simpl in *;
      now rewrite <- IH.
  - destruct (get_all rt keys w) as [[l|e] w'] eqn:E; simpl in *;
      now rewrite <- IH.
Qed.

(** A list request leaves the store as it is. *)
Lemma handle_get_blobs (w : World) : blobs (snd (handle_get rt w)) = blobs w.
Proof.
  unfold handle_get, try_catch, bind, store_list, lift.
  destruct (store_online w); [|reflexivity].
  pose proof (get_all_world (map fst (blobs w)) w) as Hw.
  destruct (get_all rt (map fst (blobs w)) w) as [[l|e] w']; simpl in Hw;
    subst w'; [|reflexivity].
  destruct (sort_by (newest_first rt) l); reflexivity.
Qed.

(** A create request leaves the store as it is or writes one blob. *)
Lemma handle_post_blobs (event : Event) (w : World) :
  blobs (snd (handle_post rt event w)) = blobs w
  \/ exists k text,
       blobs (snd (handle_post rt event w)) = blobs_set k text (blobs w).
Proof.
  destruct (JSON_parse rt (body_text event)) as [parsed|] eqn:Hparse.
  - destruct (destructurable_dec parsed) as [Hd|Hd].
    + destruct (complete parsed) eqn:Hc.
      * destruct (store_online w) eqn:Hon.
        -- destruct (handle_post_complete event w Hparse Hd Hc Hon)
             as [entry E].
           rewrite E. right. eexists. eexists. reflexivity.
        -- destruct (handle_post_with_offline (sendEmailNotification rt)
                       event w Hparse Hd Hc Hon) as (w1 & E & Hb).
           unfold handle_post. rewrite E. now left.
      * destruct (handle_post_with_incomplete (sendEmailNotification rt)
                    event w Hparse Hd Hc) as [msg E].
        unfold handle_post. rewrite E. now left.
    + unfold handle_post.
      rewrite (handle_post_with_null (sendEmailNotification rt) event w
                 Hparse Hd). now left.
  - unfold handle_post.
    rewrite (handle_post_with_unparseable (sendEmailNotification rt) event w
               Hparse). now left.
Qed.

(** Whatever the request, the keys of the store stay distinct. *)
Lemma handler_keeps_keys_distinct (event : Event) (w : World) :
  NoDup (map fst (blobs w)) ->
  NoDup (map fst (blobs (snd (handler rt event w)))).
Proof.
  intros H. unfold handler.
  destruct (jsstring_eqb (httpMethod event) (js "OPTIONS")); [assumption|].
  destruct (jsstring_eqb (httpMethod event) (js "GET")).
  - now rewrite handle_get_blobs.
  - destruct (jsstring_eqb (httpMethod event) (js "POST")); [|assumption].
    destruct (handle_post_blobs event w) as [-> | (k & text & ->)];
      [assumption | now apply blobs_set_NoDup].
Qed.

Lemma blobs_get_In (k v : jsstring) (b : list (jsstring * jsstring)) :
  NoDup (map fst b) -> In (k, v) b -> blobs_get k b = Some v.
Proof.
  induction b as [|[k' v'] b IH]; simpl; intros Hnd Hin; [contradiction|].
  inversion Hnd as [|? ? Hk' Hb]; subst.
  destruct (jsstring_eqb k k') eqn:E.
  - apply jsstring_eqb_eq in E. subst k'.
    destruct Hin as [[= ->] | Hin]; [reflexivity|].
    exfalso. apply Hk'. now apply (in_map fst) in Hin.
  - destruct Hin as [[= -> _] | Hin]; [|auto].
    now rewrite jsstring_eqb_refl in E.
Qed.

(** Reading the blobs one by one gives what each of them parses to. *)
Lemma get_all_reads (w : World) (bl : list (jsstring * jsstring))
  (records : list value) :
  store_online w = true ->
  (forall kv, In kv bl -> blobs_get (fst kv) (blobs w) = Some (snd kv)) ->
  Forall2 (fun kv r => JSON_parse rt (snd kv) = Some r) bl records ->
  get_all rt (map fst bl) w = (Ok records, w).
Proof.
  intros Hon Hget H. induction H as [|kv r bl records Hr H IH]; simpl.
  - reflexivity.
  - unfold bind, store_get_json. rewrite Hon.
    rewrite (Hget kv (or_introl eq_refl)), Hr.
    rewrite IH by (intros; apply Hget; now right). reflexivity.
Qed.

Lemma time_of_Some (record : value) (t : Z) :
  time_of rt record = Some t ->
  result_bind (get record (js "timestamp")) (Date_getTime rt) = Ok (Some t).
Proof.
  unfold time_of.
  destruct (result_bind _ _) as [[t'|]|e]; intros [= ->]; reflexivity.
Qed.

Lemma newest_first_keyed (records : list value) :
  Forall (fun r => time_of rt r <> None) records ->
  keyed (newest_first rt)
    (fun r => match time_of rt r with Some t => t | None => 0%Z end)
    records.
Proof.
  rewrite Forall_forall. intros Ht a b Ha Hb.
  destruct (time_of rt a) as [ta|] eqn:Ea; [|now apply Ht in Ha].
  destruct (time_of rt b) as [tb|] eqn:Eb; [|now apply Ht in Hb].
  unfold newest_first.
  now rewrite (time_of_Some _ Ea), (time_of_Some _ Eb).
Qed.

(** C6. The list request reads every stored record and answers with all
    of them, each once, the most recent first: in the answer no record is
    older than one that follows it (records of the same instant in either
    order).  The stored records are those the store holds under distinct
    keys, and their timestamps are dates. *)
Theorem list_newest_first (w : World) (records : list value) :
  store_online w = true ->
  NoDup (map fst (blobs w)) ->
  Forall2 (fun kv r => JSON_parse rt (snd kv) = Some r) (blobs w) records ->
  Forall (fun r => time_of rt r <> None) records ->
  exists sorted,
    handler rt GET w
    = (Ok {| statusCode := 200;
             headers := json_headers;
             body := JSON_stringify rt (VArray sorted) |}, w)
    /\ Permutation records sorted
    /\ StronglySorted (not_older rt) sorted.
Proof.
  intros Hon Hnd Hparse Ht.
  destruct (SortFacts.sort_by_descending (newest_first_keyed Ht))
    as (sorted & Hsort & Hperm & Hdesc).
  exists sorted. split; [|split; [assumption|]].
  - rewrite handler_GET.
    unfold handle_get, try_catch, bind, store_list, lift. rewrite Hon.
    rewrite (@get_all_reads w (blobs w) records Hon); [|intros [k v]|exact Hparse].
    + now rewrite Hsort.
    + now apply blobs_get_In.
  - apply (@SortFacts.StronglySorted_on value
             (fun a b =>
                (match time_of rt b with Some t => t | None => 0 end
                 <= match time_of rt a with Some t => t | None => 0 end)%Z)
             (not_older rt)
             (fun r => time_of rt r <> None)).
    + intros a b Ha Hb Hab. unfold not_older.
      destruct (time_of rt a) as [ta|]; [|contradiction].
      destruct (time_of rt b) as [tb|]; [|contradiction]. eauto.
    + now apply (Permutation_Forall Hperm).
    + exact Hdesc.
Qed.

End WithRuntime.

End FunctionFacts.

(** ** The status of a submission *)

Module LifecycleFacts.
Import AdminDashboard.

(** C7, amended. A submission is created with the status new.  In the
    dashboard its status changes when the list is loaded and when a staff
    member clicks a status button, and at no other event, in whatever
    state the dashboard is.  A click sets the chosen status on the
    selected submission whatever its status was: the three statuses can
    be set in any order, backwards too.  Without a selection there is no
    status button, and nothing changes. *)
Theorem status_set_only_by_status_buttons (rt : Runtime)
  (now created_at : Z) (token : jsstring) (contact project : value)
  (s : State) (a : Action) (st : Status) (text : jsstring) :
  get_opt (new_submission rt now token created_at contact project)
    (js "status") = VString (Status_toString new)
  /\ match a with
     | Fetched _ | ClickStatus _ _ => True
     | _ => submissions (step s a) = submissions s
     end
  /\ (selectedSubmission s = None ->
      submissions (step s (ClickStatus st text)) = submissions s)
  /\ (forall sel : ContactSubmission,
        selectedSubmission s = Some sel ->
        Forall2
          (fun before after =>
             after = if jsstring_eqb (id before) (id sel)
                     then updated before st (Some text) else before)
          (submissions s) (submissions (step s (ClickStatus st text)))
        /\ Forall (fun sub => id sub = id sel -> status sub = st)
             (submissions (step s (ClickStatus st text)))).
Proof.
  split; [reflexivity|]. split; [destruct a; auto|]. split.
  - intros Hnone. cbn [step]. now rewrite Hnone.
  - intros sel Hsel. rewrite DashboardFacts.submissions_step, Hsel.
    unfold updateSubmissionStatus. split.
    + induction (submissions s); simpl; constructor; auto.
    + rewrite Forall_map, Forall_forall. intros sub _.
      destruct (jsstring_eqb (id sub) (id sel)) eqn:E; simpl; [auto|].
      intros He. rewrite He, jsstring_eqb_refl in E. discriminate.
Qed.

(** A click on New moves a responded submission back to new. *)
Lemma responded_set_back_to_new :
  map status (submissions (Samples.dashboard responded))
  = [reviewed; responded]
  /\ map status
       (submissions (step (Samples.dashboard responded) (ClickStatus new [])))
     = [reviewed; new].
Proof. split; reflexivity. Qed.

Lemma status_set_only_by_status_buttons_witness :
  selectedSubmission (Samples.dashboard responded)
  = Some (Samples.john responded)
  /\ Forall (fun sub => id sub = id (Samples.john responded) -> status sub = new)
       (submissions
          (step (Samples.dashboard responded) (ClickStatus new (js "later")))).
Proof.
  split; [reflexivity|].
  exact (proj2
    (proj2 (proj2 (proj2
       (status_set_only_by_status_buttons ReferenceRuntime.runtime
          1705314600000 1705314600001 (js "k3x9q2m1z") VNull VNull
          (Samples.dashboard responded) ExportCSV
          new (js "later"))))
       (Samples.john responded)
       (eq_refl (Some (Samples.john responded))))).
Defined.

End LifecycleFacts.


(** ** The function on the sample requests *)

Module FunctionExamples.
Import ReferenceRuntime Samples.

Lemma reads_inquiry_without_company :
  JSON_parse runtime (body_text (sent inquiry_without_company))
  = Some inquiry_without_company.
Proof. vm_compute. reflexivity. Qed.

Lemma missing_field_rejected_without_write_witness :
  (httpMethod (sent inquiry_without_company) = js "POST"
   /\ JSON_parse runtime (body_text (sent inquiry_without_company))
      = Some inquiry_without_company
   /\ In ("contactInfo", "company")%string required_fields
   /\ missing (field inquiry_without_company "contactInfo" "company"))
  /\ exists resp w',
       handler runtime (sent inquiry_without_company) world0 = (Ok resp, w')
       /\ (destructurable inquiry_without_company ->
           statusCode resp = 400%Z /\ w' = world0)
       /\ (~ destructurable inquiry_without_company ->
           resp = error_response runtime 500 "Failed to process submission")
       /\ blobs w' = blobs world0
       /\ fst (handler runtime GET w') = fst (handler runtime GET world0).
Proof.
  assert (H1 : httpMethod (sent inquiry_without_company) = js "POST")
    by reflexivity.
  assert (H2 : JSON_parse runtime (body_text (sent inquiry_without_company))
               = Some inquiry_without_company)
    by (vm_compute; reflexivity).
  assert (H4 : In ("contactInfo", "company")%string required_fields)
    by (simpl; tauto).
  assert (H5 : missing (field inquiry_without_company "contactInfo" "company"))
    by (left; reflexivity).
  split; [auto|].
  exact (@FunctionFacts.missing_field_rejected_without_write
           runtime (sent inquiry_without_company) world0
           inquiry_without_company "contactInfo" "company" H1 H2 H4 H5).
Defined.

(** C2, as stated, fails: the body null lacks the six required fields,
    and the function answers 500, not 400. *)
Lemma null_body_answered_500 :
  JSON_parse runtime (body_text (POST (Some (js "null")))) = Some VNull
  /\ Forall (fun pn => missing (field VNull (fst pn) (snd pn))) required_fields
  /\ fst (handler runtime (POST (Some (js "null"))) world0)
     = Ok (error_response runtime 500 "Failed to process submission")
  /\ statusCode (error_response runtime 500 "Failed to process submission")
     = 500%Z
  /\ blobs (snd (handler runtime (POST (Some (js "null"))) world0))
     = blobs world0.
Proof.
  split; [vm_compute; reflexivity|].
  split; [repeat constructor|].
  repeat split; vm_compute; reflexivity.
Qed.

Lemma reads_what_the_form_sends :
  JSON_parse runtime (body_text (sent john_inquiry)) = Some john_inquiry
  /\ JSON_parse runtime (js "{") = None
  /\ JSON_parse runtime (js "{}") = Some (VObject [])
  /\ JSON_parse runtime (js "null") = Some VNull.
Proof. repeat split; vm_compute; reflexivity. Qed.

(** C1, as stated, fails: the function accepts ab.com and a@b as emails. *)
Lemma post_accepts_email_without_at_or_dot :
  ~ at_then_dot (js "ab.com")
  /\ fst (handler runtime (sent (inquiry "John Smith" "ab.com")) world0)
     = Ok (accepted runtime (js "sub_1705314600000_k3x9q2m1a"))
  /\ fst (handler runtime (sent (inquiry "John Smith" "a@b")) world0)
     = Ok (accepted runtime (js "sub_1705314600000_k3x9q2m1a"))
  /\ statusCode (accepted runtime (js "sub_1705314600000_k3x9q2m1a")) = 200%Z.
Proof.
  split; [|repeat split; vm_compute; reflexivity].
  intros (u & v & w & E).
  assert (H : In AT (js "ab.com")) by (rewrite E; apply in_elt).
  vm_compute in H. intuition discriminate.
Qed.

(** C3, as stated, fails: the function accepts a name of one space. *)
Lemma post_accepts_white_space_name :
  blank (js " ") = true
  /\ fst (handler runtime (sent (inquiry " " "john@example.com")) world0)
     = Ok (accepted runtime (js "sub_1705314600000_k3x9q2m1a"))
  /\ map fst
       (blobs (snd (handler runtime (sent (inquiry " " "john@example.com"))
                      world0)))
     = [js "sub_1705314600000_k3x9q2m1a"].
Proof. repeat split; vm_compute; reflexivity. Qed.

(** C4, as stated, fails: two calls that read the same time and draw the
    same random token get the same id, and the second record takes the
    place of the first in the store. *)
Lemma same_time_same_token_same_id :
  let first := handler runtime (sent john_inquiry) world_repeating in
  let second := handler runtime (sent jane_inquiry) (snd first) in
  fst first = Ok (accepted runtime (js "sub_1705314600000_k3x9q2m1z"))
  /\ fst second = Ok (accepted runtime (js "sub_1705314600000_k3x9q2m1z"))
  /\ map fst (blobs (snd second)) = [js "sub_1705314600000_k3x9q2m1z"].
Proof. repeat split; vm_compute; reflexivity. Qed.

(** C9, as stated, fails: a POST without a body is answered 400, not 500. *)
Lemma absent_body_answered_400 :
  event_body (POST None) = None
  /\ handler runtime (POST None) world0
     = (Ok (error_response runtime 400 "Missing required contact information"),
        world0)
  /\ statusCode
       (error_response runtime 400 "Missing required contact information")
     = 400%Z.
Proof. repeat split. Qed.

(** The notification fails on a company that has no primitive value, and
    the request is accepted all the same. *)
Lemma notification_fails_creation_succeeds :
  fst (sendEmailNotification runtime
         (created runtime world0 inquiry_opaque_company)
         (after_create runtime world0 inquiry_opaque_company))
  = Ok false
  /\ fst (handler runtime (sent inquiry_opaque_company) world0)
     = Ok (accepted runtime (js "sub_1705314600000_k3x9q2m1a")).
Proof. split; vm_compute; reflexivity. Qed.

(** The list after the two inquiries: the later one first. *)
Lemma list_after_two_inquiries :
  fst (handler runtime GET world2)
  = Ok {| statusCode := 200;
          headers := json_headers;
          body := JSON_stringify runtime
                    (VArray [created runtime world1 jane_inquiry;
                             created runtime world0 john_inquiry]) |}.
Proof. vm_compute. reflexivity. Qed.

Lemma email_shape_checked_by_form_only_witness :
  (httpMethod (sent (inquiry "John Smith" "ab.com")) = js "POST"
   /\ JSON_parse runtime (body_text (sent (inquiry "John Smith" "ab.com")))
      = Some (inquiry "John Smith" "ab.com")
   /\ destructurable (inquiry "John Smith" "ab.com")
   /\ complete (inquiry "John Smith" "ab.com") = true
   /\ store_online world0 = true)
  /\ (exists w',
        handler runtime (sent (inquiry "John Smith" "ab.com")) world0
        = (Ok (accepted runtime
                 (submission_id
                    (created runtime world0 (inquiry "John Smith" "ab.com")))),
           w'))
  /\ (snd (ContactForm.validateContactInfo (form "John Smith" "a@b.c")) = true ->
      at_then_dot
        (ContactForm.email (ContactForm.contactInfo (form "John Smith" "a@b.c"))))
  /\ Regex.test ContactForm.email_pattern (js "a@b.c") = true
  /\ Regex.test ContactForm.email_pattern (js "a@b") = false
  /\ Regex.test ContactForm.email_pattern (js "ab.com") = false.
Proof.
  assert (H1 : httpMethod (sent (inquiry "John Smith" "ab.com")) = js "POST")
    by reflexivity.
  assert (H2 : JSON_parse runtime
                 (body_text (sent (inquiry "John Smith" "ab.com")))
               = Some (inquiry "John Smith" "ab.com"))
    by (vm_compute; reflexivity).
  assert (H3 : destructurable (inquiry "John Smith" "ab.com"))
    by (split; discriminate).
  assert (H4 : complete (inquiry "John Smith" "ab.com") = true)
    by (vm_compute; reflexivity).
  assert (H5 : store_online world0 = true) by reflexivity.
  split; [auto|].
  exact (FunctionFacts.email_shape_checked_by_form_only runtime
           (sent (inquiry "John Smith" "ab.com")) world0
           (form "John Smith" "a@b.c") H1 H2 H3 H4 H5).
Defined.

Lemma empty_field_rejected_blank_field_by_form_witness :
  (httpMethod (sent (inquiry "" "john@example.com")) = js "POST"
   /\ JSON_parse runtime (body_text (sent (inquiry "" "john@example.com")))
      = Some (inquiry "" "john@example.com")
   /\ destructurable (inquiry "" "john@example.com")
   /\ In ("contactInfo", "name")%string required_fields
   /\ field (inquiry "" "john@example.com") "contactInfo" "name" = VString [])
  /\ (exists resp,
        handler runtime (sent (inquiry "" "john@example.com")) world0
        = (Ok resp, world0)
        /\ statusCode resp = 400%Z)
  /\ snd (ContactForm.validateContactInfo (form " " "john@example.com"))
     = false.
Proof.
  assert (H1 : httpMethod (sent (inquiry "" "john@example.com")) = js "POST")
    by reflexivity.
  assert (H2 : JSON_parse runtime
                 (body_text (sent (inquiry "" "john@example.com")))
               = Some (inquiry "" "john@example.com"))
    by (vm_compute; reflexivity).
  assert (H3 : destructurable (inquiry "" "john@example.com"))
    by (split; discriminate).
  assert (H4 : In ("contactInfo", "name")%string required_fields)
    by (simpl; tauto).
  assert (H5 : field (inquiry "" "john@example.com") "contactInfo" "name"
               = VString [])
    by reflexivity.
  split; [auto|].
  destruct (FunctionFacts.empty_field_rejected_blank_field_by_form runtime
              (sent (inquiry "" "john@example.com")) world0
              (form " " "john@example.com") H1 H2 H3 H4 H5)
    as (Hpost & Hform & _).
  split; [exact Hpost | exact (Hform eq_refl)].
Defined.

Lemma unparseable_body_500_absent_body_400_witness :
  (httpMethod (POST (Some (js "{"))) = js "POST"
   /\ JSON_parse runtime (js "{}") = Some (VObject []))
  /\ (JSON_parse runtime (body_text (POST (Some (js "{")))) = None ->
      handler runtime (POST (Some (js "{"))) world0 =
      (Ok (error_response runtime 500 "Failed to process submission"),
       with_console world0
         (console world0
          ++ [LogError (js "Error processing submission:") SyntaxError])))
  /\ (event_body (POST (Some (js "{"))) = None
      \/ event_body (POST (Some (js "{"))) = Some [] ->
      handler runtime (POST (Some (js "{"))) world0 =
      (Ok (error_response runtime 400 "Missing required contact information"),
       world0))
  /\ (forall resp w',
        handler runtime (POST (Some (js "{"))) world0 = (Ok resp, w') ->
        statusCode resp = 400%Z ->
        exists parsed,
          JSON_parse runtime (body_text (POST (Some (js "{")))) = Some parsed
          /\ destructurable parsed /\ complete parsed = false).
Proof.
  assert (H1 : httpMethod (POST (Some (js "{"))) = js "POST") by reflexivity.
  assert (H2 : JSON_parse runtime (js "{}") = Some (VObject []))
    by (vm_compute; reflexivity).
  split; [auto|].
  exact (FunctionFacts.unparseable_body_500_absent_body_400 runtime
           (POST (Some (js "{"))) world0 H1 H2).
Defined.

Lemma notification_never_fails_creation_witness :
  (httpMethod (sent inquiry_opaque_company) = js "POST"
   /\ JSON_parse runtime (body_text (sent inquiry_opaque_company))
      = Some inquiry_opaque_company
   /\ destructurable inquiry_opaque_company
   /\ complete inquiry_opaque_company = true
   /\ store_online world0 = true)
  /\ (exists (b : bool) (entry : log_entry),
        sendEmailNotification runtime
          (created runtime world0 inquiry_opaque_company) world0
        = (Ok b, with_console world0 (console world0 ++ [entry])))
  /\ (forall b : bool,
        handle_post_with runtime (fun _ => ret b)
          (sent inquiry_opaque_company) world0
        = (Ok (accepted runtime
                 (submission_id (created runtime world0 inquiry_opaque_company))),
           after_create runtime world0 inquiry_opaque_company))
  /\ (exists w',
        handler runtime (sent inquiry_opaque_company) world0
        = (Ok (accepted runtime
                 (submission_id (created runtime world0 inquiry_opaque_company))),
           w')).
Proof.
  assert (H1 : httpMethod (sent inquiry_opaque_company) = js "POST")
    by reflexivity.
  assert (H2 : JSON_parse runtime (body_text (sent inquiry_opaque_company))
               = Some inquiry_opaque_company)
    by (vm_compute; reflexivity).
  assert (H3 : destructurable inquiry_opaque_company)
    by (split; discriminate).
  assert (H4 : complete inquiry_opaque_company = true)
    by (vm_compute; reflexivity).
  assert (H5 : store_online world0 = true) by reflexivity.
  split; [auto|].
  destruct (FunctionFacts.notification_never_fails_creation runtime
              (created runtime world0 inquiry_opaque_company) world0
              (sent inquiry_opaque_company) world0 H1 H2 H3 H4 H5)
    as ((b & entry & E & _) & Hany & (w' & E' & _)).
  split; [now exists b, entry|]. split; [exact Hany | now exists w'].
Defined.

Lemma create_assigns_id_status_timestamp_witness :
  (httpMethod (sent john_inquiry) = js "POST"
   /\ JSON_parse runtime (body_text (sent john_inquiry)) = Some john_inquiry
   /\ destructurable john_inquiry
   /\ complete john_inquiry = true
   /\ store_online world0 = true)
  /\ (exists w',
        handler runtime (sent john_inquiry) world0
        = (Ok (accepted runtime (js "sub_1705314600000_k3x9q2m1a")), w')
        /\ blobs_get (js "sub_1705314600000_k3x9q2m1a") (blobs w')
           = Some
               (JSON_stringify runtime
                  (VObject
                     [(js "id", VString (js "sub_1705314600000_k3x9q2m1a"));
                      (js "timestamp", VString (js "2024-01-15T10:30:00.001Z"));
                      (js "contactInfo",
                       Samples.contactInfo "John Smith" "john@example.com"
                         "TechCorp" "+1-555-0123");
                      (js "projectDetails", techcorp_project);
                      (js "status", VString (js "new"))])))
  /\ (js "sub_" ++ Z_toString 1705314600001 ++ js "_" ++ js "k3x9q2m1a"
      = js "sub_1705314600000_k3x9q2m1a" <->
      1705314600001%Z = 1705314600000%Z /\ js "k3x9q2m1a" = js "k3x9q2m1a").
Proof.
  assert (H1 : httpMethod (sent john_inquiry) = js "POST") by reflexivity.
  assert (H2 : JSON_parse runtime (body_text (sent john_inquiry))
               = Some john_inquiry)
    by (vm_compute; reflexivity).
  assert (H3 : destructurable john_inquiry) by (split; discriminate).
  assert (H4 : complete john_inquiry = true) by (vm_compute; reflexivity).
  assert (H5 : store_online world0 = true) by reflexivity.
  split; [auto|].
  exact (proj2 (FunctionFacts.create_assigns_id_status_timestamp runtime
                  (sent john_inquiry) world0 1705314600001 (js "k3x9q2m1a")
                  H1 H2 H3 H4 H5)).
Defined.

Lemma list_newest_first_witness :
  (store_online world2 = true
   /\ NoDup (map fst (blobs world2))
   /\ Forall2 (fun kv r => JSON_parse runtime (snd kv) = Some r) (blobs world2)
        [created runtime world0 john_inquiry;
         created runtime world1 jane_inquiry]
   /\ Forall (fun r => time_of runtime r <> None)
        [created runtime world0 john_inquiry;
         created runtime world1 jane_inquiry])
  /\ exists sorted,
       handler runtime GET world2
       = (Ok {| statusCode := 200;
                headers := json_headers;
                body := JSON_stringify runtime (VArray sorted) |}, world2)
       /\ Permutation [created runtime world0 john_inquiry;
                       created runtime world1 jane_inquiry] sorted
       /\ StronglySorted (not_older runtime) sorted.
Proof.
  assert (B : blobs world2
              = [(js "sub_1705314600000_k3x9q2m1a",
                  write_json (created runtime world0 john_inquiry));
                 (js "sub_1705314600002_k3x9q2m1b",
                  write_json (created runtime world1 jane_inquiry))])
    by (vm_compute; reflexivity).
  assert (H1 : store_online world2 = true) by reflexivity.
  assert (H2 : NoDup (map fst (blobs world2))).
  { rewrite B. repeat constructor; simpl; intuition discriminate. }
  assert (H3 : Forall2 (fun kv r => JSON_parse runtime (snd kv) = Some r)
                 (blobs world2)
                 [created runtime world0 john_inquiry;
                  created runtime world1 jane_inquiry]).
  { rewrite B. repeat constructor; vm_compute; reflexivity. }
  assert (H4 : Forall (fun r => time_of runtime r <> None)
                 [created runtime world0 john_inquiry;
                  created runtime world1 jane_inquiry]).
  { repeat constructor; vm_compute; discriminate. }
  split; [auto|].
  exact (FunctionFacts.list_newest_first runtime world2 H1 H2 H3 H4).
Defined.

End FunctionExamples.

(** ** Reading the export back *)

Module ExportFacts.
Import AdminDashboard.

Lemma plain_cons (c : code_unit) (f : jsstring) :
  plain (c :: f) = true ->
  (c =? QUOTE)%N = false /\ (c =? COMMA)%N = false /\ (c =? LF)%N = false
  /\ plain f = true.
Proof.
  unfold plain. simpl. rewrite andb_true_iff, negb_true_iff, !orb_false_iff.
  tauto.
Qed.

Lemma read_plain (f : jsstring) :
  plain f = true ->
  forall cur row rest,
    csv_read InPlain cur row (f ++ rest)
    = csv_read InPlain (rev f ++ cur) row rest.
Proof.
  induction f as [|c f IH]; intros Hp cur row rest; [reflexivity|].
  apply plain_cons in Hp as (Hq & Hc & Hl & Hp). simpl.
  rewrite Hq, Hc, Hl, IH by assumption. now rewrite <- app_assoc.
Qed.

(** A plain field and the comma after it. *)
Lemma read_plain_comma (f : jsstring) (row : list jsstring) (rest : jsstring) :
  plain f = true ->
  csv_read AtStart [] row (f ++ COMMA :: rest)
  = csv_read AtStart [] (f :: row) rest.
Proof.
  intros Hp. destruct f as [|c f]; [reflexivity|].
  pose proof (plain_cons _ _ Hp) as (Hq & Hc & Hl & Hp'). simpl.
  rewrite Hq, Hc, Hl, read_plain by assumption. simpl.
  now rewrite rev_app_distr, rev_involutive.
Qed.

(** A plain field at the end of a record. *)
Lemma read_plain_end (f : jsstring) (row : list jsstring) (rest : jsstring) :
  plain f = true ->
  csv_read AtStart [] row (f ++ LF :: rest)
  = option_map (cons (rev (f :: row))) (csv_read AtStart [] [] rest)
  /\ csv_read AtStart [] row f = Some [rev (f :: row)].
Proof.
  intros Hp. destruct f as [|c f]; [split; reflexivity|].
  pose proof (plain_cons _ _ Hp) as (Hq & Hc & Hl & Hp'). simpl.
  rewrite Hq, Hc, Hl. split.
  - rewrite read_plain by assumption. simpl.
    now rewrite rev_app_distr, rev_involutive.
  - rewrite <- (app_nil_r f) at 1. rewrite read_plain by assumption. simpl.
    now rewrite rev_app_distr, rev_involutive.
Qed.

Lemma read_quoted_text (d : jsstring) :
  forall cur row rest,
    csv_read InQuoted cur row (replace_quotes d ++ QUOTE :: rest)
    = csv_read AfterQuote (rev d ++ cur) row rest.
Proof.
  induction d as [|c d IH]; intros cur row rest; [reflexivity|]. simpl.
  destruct (c =? QUOTE)%N eqn:E; simpl.
  - apply N.eqb_eq in E. subst c. rewrite IH. now rewrite <- app_assoc.
  - rewrite E, IH. now rewrite <- app_assoc.
Qed.

(** A quoted field, up to what follows its closing quote. *)
Lemma read_quoted (d : jsstring) (row : list jsstring) (rest : jsstring) :
  csv_read AtStart [] row (([QUOTE] ++ replace_quotes d ++ [QUOTE]) ++ rest)
  = csv_read AfterQuote (rev d) row rest.
Proof.
  simpl. rewrite <- app_assoc. simpl.
  now rewrite read_quoted_text, app_nil_r.
Qed.

(** The plain fields of a record, each with its comma. *)
Lemma read_plain_fields (fs : list jsstring) :
  Forall (fun f => plain f = true) fs ->
  forall row rest,
    csv_read AtStart [] row (List.concat (map (fun f => f ++ [COMMA]) fs) ++ rest)
    = csv_read AtStart [] (rev fs ++ row) rest.
Proof.
  induction 1 as [|f fs Hf _ IH]; intros row rest; [reflexivity|]. simpl.
  rewrite <- !app_assoc. simpl. rewrite read_plain_comma by assumption.
  now rewrite IH.
Qed.

Lemma join_snoc (sep : jsstring) (fs : list jsstring) (x : jsstring) :
  join sep (fs ++ [x]) = List.concat (map (fun f => f ++ sep) fs) ++ x.
Proof.
  induction fs as [|f fs IH]; [reflexivity|].
  destruct fs as [|g fs].
  - simpl. now rewrite app_nil_r, <- app_assoc.
  - change (join sep ((f :: g :: fs) ++ [x]))
      with (f ++ sep ++ join sep ((g :: fs) ++ [x])).
    rewrite IH. cbn [map List.concat]. now rewrite <- !app_assoc.
Qed.

Lemma csv_fields_split (sub : ContactSubmission) :
  csv_fields sub
  = (csv_raw sub ++ [quoted (description (projectDetails sub))])
    ++ [quoted (or_empty (requirements (projectDetails sub)))].
Proof.
  unfold csv_fields, csv_raw, quoted.
  destruct (requirements (projectDetails sub)); reflexivity.
Qed.

(** A row of the export, up to what follows it. *)
Lemma read_row (sub : ContactSubmission) (rest : jsstring) :
  Forall (fun f => plain f = true) (csv_raw sub) ->
  csv_read AtStart [] [] (join [COMMA] (csv_fields sub) ++ rest)
  = csv_read AfterQuote
      (rev (or_empty (requirements (projectDetails sub))))
      (description (projectDetails sub) :: rev (csv_raw sub)) rest.
Proof.
  intros Hp. rewrite csv_fields_split, join_snoc, map_app, concat_app.
  cbn [map List.concat]. rewrite app_nil_r, <- !app_assoc.
  rewrite read_plain_fields by assumption. rewrite app_nil_r.
  unfold quoted at 1. rewrite read_quoted.
  change ([COMMA] ++ ?x) with (COMMA :: x). cbn [csv_read].
  change (COMMA =? QUOTE)%N with false. change (COMMA =? COMMA)%N with true.
  cbv iota. rewrite rev_involutive. unfold quoted. now rewrite read_quoted.
Qed.

Lemma rev_record (sub : ContactSubmission) :
  rev (rev (rev (or_empty (requirements (projectDetails sub))))
       :: description (projectDetails sub) :: rev (csv_raw sub))
  = csv_record sub.
Proof.
  unfold csv_record. generalize (csv_raw sub). intros raw. cbn [rev].
  now rewrite !rev_involutive, <- app_assoc.
Qed.

Lemma read_rows (subs : list ContactSubmission) :
  Forall (fun sub => Forall (fun f => plain f = true) (csv_raw sub)) subs ->
  subs <> [] ->
  csv_read AtStart [] []
    (join [LF] (map (fun sub => join [COMMA] (csv_fields sub)) subs))
  = Some (map csv_record subs).
Proof.
  induction 1 as [|sub subs Hsub Hsubs IH]; intros Hne; [contradiction|].
  destruct subs as [|sub' subs].
  - cbn [map join]. rewrite <- (app_nil_r (join _ _)).
    rewrite read_row by assumption. cbn [csv_read].
    now rewrite rev_record.
  - change (join [LF] (map ?f (sub :: sub' :: subs)))
      with (f sub ++ LF :: join [LF] (map f (sub' :: subs))).
    cbv beta. rewrite read_row by assumption. cbn [csv_read].
    change (LF =? QUOTE)%N with false. change (LF =? COMMA)%N with false.
    change (LF =? LF)%N with true. cbv iota.
    rewrite IH by discriminate. now rewrite rev_record.
Qed.

Lemma csv_columns_plain : Forall (fun f => plain f = true) csv_columns.
Proof. repeat constructor. Qed.

(** The first line of the export, up to what follows it. *)
Lemma read_header :
  csv_read AtStart [] [] csv_header = Some [csv_columns]
  /\ forall rest,
       csv_read AtStart [] [] (csv_header ++ LF :: rest)
       = option_map (cons csv_columns) (csv_read AtStart [] [] rest).
Proof.
  assert (E : csv_header
              = List.concat (map (fun f => f ++ [COMMA])
                               (removelast csv_columns))
                ++ js "Requirements") by reflexivity.
  assert (Hp : Forall (fun f => plain f = true) (removelast csv_columns))
    by (repeat constructor).
  rewrite E. split.
  - rewrite read_plain_fields by assumption.
    now rewrite (proj2 (read_plain_end (js "Requirements") _ [] eq_refl)).
  - intros rest. rewrite <- app_assoc.
    rewrite read_plain_fields by assumption.
    now rewrite (proj1 (read_plain_end (js "Requirements") _ rest eq_refl)).
Qed.

(** X1. The export reads back as the table it was made from: when none
    of the values written without quotes has a quote, a comma or a line
    feed, reading the CSV text gives the names of the columns and then,
    for each submission the filter shows, its twelve values, whatever
    the description and the requirements contain. *)
Theorem csv_export_reads_back (s : State) :
  Forall (fun sub => Forall (fun f => plain f = true) (csv_raw sub))
    (filteredSubmissions s) ->
  csv_parse (csvContent s)
  = Some (csv_columns :: map csv_record (filteredSubmissions s)).
Proof.
  unfold csv_parse, csvContent, filteredSubmissions. intros Hp.
  destruct (List.filter (shown (filter s)) (submissions s)) as [|sub subs] eqn:E.
  - exact (proj1 read_header).
  - change (join [LF] (csv_header :: map ?f (sub :: subs)))
      with (csv_header ++ LF :: join [LF] (map f (sub :: subs))).
    rewrite (proj2 read_header), read_rows by (assumption || discriminate).
    reflexivity.
Qed.

Lemma csv_export_reads_back_witness :
  Forall (fun sub => Forall (fun f => plain f = true) (csv_raw sub))
    (filteredSubmissions MoreSamples.triage)
  /\ csv_parse (csvContent MoreSamples.triage)
     = Some (csv_columns
             :: map csv_record (filteredSubmissions MoreSamples.triage)).
Proof.
  assert (H : Forall (fun sub => Forall (fun f => plain f = true) (csv_raw sub))
                (filteredSubmissions MoreSamples.triage))
    by (repeat constructor).
  split; [exact H|].
  exact (csv_export_reads_back MoreSamples.triage H).
Defined.

End ExportFacts.

(** ** Counting, filtering and updating in the dashboard *)

Module TriageFacts.
Import AdminDashboard.

Lemma count_partition (l : list ContactSubmission) :
  List.length (List.filter (fun x => Status_eqb (status x) new) l)
  + List.length (List.filter (fun x => Status_eqb (status x) reviewed) l)
  + List.length (List.filter (fun x => Status_eqb (status x) responded) l)
  = List.length l.
Proof.
  induction l as [|x l IH]; [reflexivity|].
  simpl. destruct (status x); simpl; lia.
Qed.

(** X2. The three counts of the header add up to the number of
    submissions, and the list shows as many cards as the count of the
    status it is filtered by, or all the submissions without a filter. *)
Theorem statusCounts_partition (s : State) :
  count_new (statusCounts s) + count_reviewed (statusCounts s)
  + count_responded (statusCounts s) = List.length (submissions s)
  /\ List.length (filteredSubmissions s)
     = match filter s with
       | all => List.length (submissions s)
       | only new => count_new (statusCounts s)
       | only reviewed => count_reviewed (statusCounts s)
       | only responded => count_responded (statusCounts s)
       end.
Proof.
  split; [apply count_partition|].
  unfold filteredSubmissions, statusCounts, shown.
  destruct (filter s) as [|[]]; cbn [count_new count_reviewed count_responded];
    try reflexivity.
  induction (submissions s); simpl; congruence.
Qed.

Lemma updated_twice (sub : ContactSubmission) (st1 st2 : Status)
  (n1 n2 : option jsstring) :
  updated (updated sub st1 n1) st2 n2
  = updated sub st2 (match n2 with Some n => Some n | None => n1 end).
Proof. unfold updated. simpl. now destruct n2, n1. Qed.

(** X3. Two updates of the same submission amount to one: the later
    status stays, and the later notes, or the earlier ones when the later
    update gives none. *)
Theorem updateSubmissionStatus_twice (target : jsstring) (st1 st2 : Status)
  (n1 n2 : option jsstring) (prev : list ContactSubmission) :
  updateSubmissionStatus target st2 n2
    (updateSubmissionStatus target st1 n1 prev)
  = updateSubmissionStatus target st2
      (match n2 with Some n => Some n | None => n1 end) prev.
Proof.
  unfold updateSubmissionStatus. rewrite map_map. apply map_ext.
  intros sub. destruct (jsstring_eqb (id sub) target) eqn:E.
  - change (id (updated sub st1 n1)) with (id sub). rewrite E.
    apply updated_twice.
  - now rewrite E.
Qed.

(** X4. An update for an id that no submission has changes nothing. *)
Theorem updateSubmissionStatus_unknown_id (target : jsstring) (st : Status)
  (new_notes : option jsstring) (prev : list ContactSubmission) :
  ~ In target (map id prev) ->
  updateSubmissionStatus target st new_notes prev = prev.
Proof.
  intros Hn. unfold updateSubmissionStatus.
  rewrite <- (map_id prev) at 2. apply map_ext_in. intros sub Hin.
  destruct (jsstring_eqb (id sub) target) eqn:E; [|reflexivity].
  apply jsstring_eqb_eq in E. exfalso. apply Hn. rewrite <- E.
  now apply in_map.
Qed.

Lemma updateSubmissionStatus_unknown_id_witness :
  ~ In (js "sub_0_none") (map id (submissions MoreSamples.triage))
  /\ updateSubmissionStatus (js "sub_0_none") responded (Some (js "lost"))
       (submissions MoreSamples.triage)
     = submissions MoreSamples.triage.
Proof.
  assert (H : ~ In (js "sub_0_none") (map id (submissions MoreSamples.triage)))
    by (simpl; intuition discriminate).
  split; [exact H|].
  exact (updateSubmissionStatus_unknown_id (js "sub_0_none") responded
           (Some (js "lost")) (submissions MoreSamples.triage) H).
Defined.

(** X5. Updates of two different submissions can be made in either
    order. *)
Theorem updateSubmissionStatus_commute (t1 t2 : jsstring) (st1 st2 : Status)
  (n1 n2 : option jsstring) (prev : list ContactSubmission) :
  t1 <> t2 ->
  updateSubmissionStatus t1 st1 n1 (updateSubmissionStatus t2 st2 n2 prev)
  = updateSubmissionStatus t2 st2 n2 (updateSubmissionStatus t1 st1 n1 prev).
Proof.
  intros Hne. unfold updateSubmissionStatus. rewrite !map_map.
  apply map_ext. intros sub.
  destruct (jsstring_eqb (id sub) t1) eqn:E1,
           (jsstring_eqb (id sub) t2) eqn:E2;
    cbn [id updated]; rewrite ?E1, ?E2; try reflexivity.
  apply jsstring_eqb_eq in E1, E2. congruence.
Qed.

Lemma updateSubmissionStatus_commute_witness :
  id Samples.jane <> id (Samples.john new)
  /\ updateSubmissionStatus (id Samples.jane) responded None
       (updateSubmissionStatus (id (Samples.john new)) reviewed
          (Some (js "call back")) (submissions MoreSamples.triage))
     = updateSubmissionStatus (id (Samples.john new)) reviewed
         (Some (js "call back"))
         (updateSubmissionStatus (id Samples.jane) responded None
            (submissions MoreSamples.triage)).
Proof.
  assert (H : id Samples.jane <> id (Samples.john new)) by discriminate.
  split; [exact H|].
  exact (updateSubmissionStatus_commute responded reviewed None
           (Some (js "call back")) (submissions MoreSamples.triage) H).
Defined.

Lemma error_step (s : State) (a : Action) :
  match a with FetchFailed _ => False | _ => True end ->
  error (step s a) = error s.
Proof.
  destruct a; simpl; try reflexivity; [contradiction|].
  intros _. now destruct (selectedSubmission s).
Qed.

(** X6. The error of a failed fetch is never cleared: whatever happens
    afterwards short of another failure, a successful fetch included, the
    message stays, and the dashboard renders the error instead of the list
    whenever it is not loading. *)
Theorem error_never_cleared (s : State) (actions : list Action)
  (c : code_unit) (msg : jsstring) :
  error s = Some (c :: msg) ->
  Forall (fun a => match a with FetchFailed _ => False | _ => True end)
    actions ->
  error (run s actions) = Some (c :: msg)
  /\ (loading (run s actions) = false ->
      render (run s actions) = ErrorView (c :: msg)).
Proof.
  intros He Ha.
  assert (E : error (run s actions) = Some (c :: msg)).
  { unfold run. revert s He.
    induction Ha as [|a actions Hna _ IH]; intros s He; [assumption|].
    simpl. apply IH. now rewrite error_step. }
  split; [assumption|]. intros Hl. unfold render. now rewrite Hl, E.
Qed.

Lemma error_never_cleared_witness :
  (error MoreSamples.failed = Some (js "Failed to fetch submissions")
   /\ Forall (fun a => match a with FetchFailed _ => False | _ => True end)
        [Retry; Fetched [Samples.jane]])
  /\ error (run MoreSamples.failed [Retry; Fetched [Samples.jane]])
     = Some (js "Failed to fetch submissions")
  /\ (loading (run MoreSamples.failed [Retry; Fetched [Samples.jane]]) = false ->
      render (run MoreSamples.failed [Retry; Fetched [Samples.jane]])
      = ErrorView (js "Failed to fetch submissions")).
Proof.
  assert (H1 : error MoreSamples.failed = Some (js "Failed to fetch submissions"))
    by reflexivity.
  assert (H2 : Forall (fun a => match a with
                                | FetchFailed _ => False
                                | _ => True
                                end) [Retry; Fetched [Samples.jane]])
    by (repeat constructor).
  split; [auto|].
  exact (@error_never_cleared MoreSamples.failed
           [Retry; Fetched [Samples.jane]] 70%N (js "ailed to fetch submissions")
           H1 H2).
Defined.




End TriageFacts.

(** ** The endpoint as a whole *)

Module EndpointFacts.

Section WithRuntime.
Variable rt : Runtime.

(** The world after the GET branch: as before, or with one more line on
    the console. *)
Lemma handle_get_world (w : World) :
  snd (handle_get rt w) = w
  \/ exists entry, snd (handle_get rt w) = with_console w (console w ++ [entry]).
Proof.
  unfold handle_get, try_catch, bind, store_list, lift.
  destruct (store_online w); [|right; eexists; reflexivity].
  pose proof (FunctionFacts.get_all_world rt (map fst (blobs w)) w) as Hw.
  destruct (get_all rt (map fst (blobs w)) w) as [[l|e] w1]; simpl in Hw;
    subst w1; [|right; eexists; reflexivity].
  destruct (sort_by (newest_first rt) l) as [sorted|e];
    [now left | right; eexists; reflexivity].
Qed.

(** X8. A list request either answers 200 and leaves the world exactly
    as it was, or answers 500, Failed to fetch submissions, and adds one
    line to the console and nothing else. *)
Theorem handle_get_outcome (w : World) :
  (exists sorted,
     handler rt GET w
     = (Ok {| statusCode := 200;
              headers := json_headers;
              body := JSON_stringify rt (VArray sorted) |}, w))
  \/ (exists e,
        handler rt GET w
        = (Ok (error_response rt 500 "Failed to fetch submissions"),
           with_console w
             (console w
              ++ [LogError (js "Error fetching submissions:") e]))).
Proof.
  rewrite FunctionFacts.handler_GET.
  unfold handle_get, try_catch, bind, store_list, lift.
  destruct (store_online w); [|right; now exists StoreError].
  pose proof (FunctionFacts.get_all_world rt (map fst (blobs w)) w) as Hw.
  destruct (get_all rt (map fst (blobs w)) w) as [[l|e] w1]; simpl in Hw;
    subst w1; [|right; now exists e].
  destruct (sort_by (newest_first rt) l) as [sorted|e];
    [left; now exists sorted | right; now exists e].
Qed.

Lemma handle_get_status (w : World) :
  exists resp w',
    handle_get rt w = (Ok resp, w')
    /\ In (statusCode resp) [200; 400; 405; 500]%Z.
Proof.
  unfold handle_get, try_catch, bind, store_list, lift.
  destruct (store_online w);
    [|eexists; eexists; split; [reflexivity | simpl; tauto]].
  destruct (get_all rt (map fst (blobs w)) w) as [[l|e] w1];
    [|eexists; eexists; split; [reflexivity | simpl; tauto]].
  destruct (sort_by (newest_first rt) l) as [sorted|e];
    eexists; eexists; (split; [reflexivity | simpl; tauto]).
Qed.

Lemma created_id (w : World) (parsed : value) :
  submission_id (created rt w parsed) = next_id w.
Proof. reflexivity. Qed.

(** The answer of the POST branch. *)
Lemma handle_post_table (event : Event) (w : World) :
  fst (handle_post rt event w) = Ok (post_response rt w event).
Proof.
  unfold post_response, handle_post.
  destruct (JSON_parse rt (body_text event)) as [parsed|] eqn:Hparse.
  - destruct (FunctionFacts.destructurable_dec parsed) as [Hd|Hd].
    + assert (Hpost :
        fst (handle_post_with rt (sendEmailNotification rt) event w)
        = Ok (if missing_contact (get_opt parsed (js "contactInfo")) then
                error_response rt 400 "Missing required contact information"
              else if missing_project (get_opt parsed (js "projectDetails"))
              then error_response rt 400 "Missing required project details"
              else if store_online w then accepted rt (next_id w)
              else error_response rt 500 "Failed to process submission")).
      { destruct (missing_contact _) eqn:C.
        - unfold handle_post_with, try_catch, bind, lift. rewrite Hparse.
          rewrite !(FunctionFacts.get_destructurable _ Hd), C. reflexivity.
        - destruct (missing_project _) eqn:P.
          + unfold handle_post_with, try_catch, bind, lift. rewrite Hparse.
            rewrite !(FunctionFacts.get_destructurable _ Hd), C, P.
            reflexivity.
          + assert (Hc : complete parsed = true)
              by (apply FunctionFacts.complete_checks; auto).
            destruct (store_online w) eqn:Hon.
            * destruct (FunctionFacts.handle_post_complete rt event w
                          Hparse Hd Hc Hon) as [entry E].
              unfold handle_post in E. rewrite E. reflexivity.
            * destruct (FunctionFacts.handle_post_with_offline rt
                          (sendEmailNotification rt) event w Hparse Hd Hc Hon)
                as (w1 & E & _).
              rewrite E. reflexivity. }
      destruct parsed; try exact Hpost;
        destruct Hd as [H1 H2]; congruence.
    + rewrite (FunctionFacts.handle_post_with_null rt
                 (sendEmailNotification rt) event w Hparse Hd).
      destruct parsed; try reflexivity;
        exfalso; apply Hd; split; discriminate.
  - now rewrite (FunctionFacts.handle_post_with_unparseable rt
                   (sendEmailNotification rt) event w Hparse).
Qed.


(** A POST that is not accepted writes nothing. *)
Lemma handle_post_rejected_frame (event : Event) (w : World) :
  statusCode (post_response rt w event) = 200%Z
  \/ blobs (snd (handle_post rt event w)) = blobs w.
Proof.
  unfold post_response.
  destruct (JSON_parse rt (body_text event)) as [parsed|] eqn:Hparse.
  - destruct (FunctionFacts.destructurable_dec parsed) as [Hd|Hd].
    + assert (Hcases :
        statusCode
          (if missing_contact (get_opt parsed (js "contactInfo")) then
             error_response rt 400 "Missing required contact information"
           else if missing_project (get_opt parsed (js "projectDetails"))
           then error_response rt 400 "Missing required project details"
           else if store_online w then accepted rt (next_id w)
           else error_response rt 500 "Failed to process submission")
        = 200%Z
        \/ blobs (snd (handle_post rt event w)) = blobs w).
      { destruct (complete parsed) eqn:Hc.
        - apply FunctionFacts.complete_checks in Hc as Hc'.
          destruct Hc' as [C P]. rewrite C, P.
          destruct (store_online w) eqn:Hon; [now left|]. right.
          destruct (FunctionFacts.handle_post_with_offline rt
                      (sendEmailNotification rt) event w Hparse Hd Hc Hon)
            as (w1 & E & Hb).
          unfold handle_post. now rewrite E.
        - right.
          destruct (FunctionFacts.handle_post_with_incomplete rt
                      (sendEmailNotification rt) event w Hparse Hd Hc)
            as [msg E].
          unfold handle_post. now rewrite E. }
      destruct parsed; try exact Hcases;
        destruct Hd as [H1 H2]; congruence.
    + right. unfold handle_post.
      now rewrite (FunctionFacts.handle_post_with_null rt
                     (sendEmailNotification rt) event w Hparse Hd).
  - right. unfold handle_post.
    now rewrite (FunctionFacts.handle_post_with_unparseable rt
                   (sendEmailNotification rt) event w Hparse).
Qed.

(** X9. The answer to a POST follows the table of [post_response]: a
    body that does not parse or is null gets 500; then the contact part
    is checked, then the project part, each with its own 400; then a
    store that cannot be reached gives 500; what is left is accepted.
    The notification has no part in it, and a request that is not
    accepted writes nothing to the store. *)
Theorem post_response_table (event : Event) (w : World) :
  httpMethod event = js "POST" ->
  fst (handler rt event w) = Ok (post_response rt w event)
  /\ (statusCode (post_response rt w event) = 200%Z
      \/ blobs (snd (handler rt event w)) = blobs w).
Proof.
  intros Hm. rewrite (FunctionFacts.handler_POST rt event Hm).
  split; [apply handle_post_table|].
  apply handle_post_rejected_frame.
Qed.

Lemma post_response_status (event : Event) (w : World) :
  In (statusCode (post_response rt w event)) [200; 400; 405; 500]%Z.
Proof.
  unfold post_response.
  destruct (JSON_parse rt (body_text event)) as [parsed|]; [|simpl; tauto].
  destruct parsed; try (simpl; tauto);
    destruct (missing_contact _); try (simpl; tauto);
    destruct (missing_project _); try (simpl; tauto);
    destruct (store_online w); simpl; tauto.
Qed.

(** X10. The function always answers: no error escapes it, whatever the
    request and the state of the store, and the status of its answer is
    200, 400, 405 or 500. *)
Theorem handler_always_answers (event : Event) (w : World) :
  exists resp w',
    handler rt event w = (Ok resp, w')
    /\ In (statusCode resp) [200; 400; 405; 500]%Z.
Proof.
  unfold handler.
  destruct (jsstring_eqb (httpMethod event) (js "OPTIONS")).
  - eexists. eexists. split; [reflexivity | simpl; tauto].
  - destruct (jsstring_eqb (httpMethod event) (js "GET")).
    + apply handle_get_status.
    + destruct (jsstring_eqb (httpMethod event) (js "POST")).
      * pose proof (handle_post_table event w) as T.
        destruct (handle_post rt event w) as [[resp|e] w'] eqn:E; simpl in T;
          [|discriminate].
        injection T as ->. exists (post_response rt w event), w'.
        split; [reflexivity | apply post_response_status].
      * eexists. eexists. split; [reflexivity | simpl; tauto].
Qed.

(** X11. Only a POST uses the clock and the random generator or writes
    to the store: a request with any other method leaves the three as
    they were. *)
Theorem only_post_writes (event : Event) (w : World) :
  httpMethod event <> js "POST" ->
  blobs (snd (handler rt event w)) = blobs w
  /\ clock_reads (snd (handler rt event w)) = clock_reads w
  /\ random_draws (snd (handler rt event w)) = random_draws w.
Proof.
  intros Hm. unfold handler.
  destruct (jsstring_eqb (httpMethod event) (js "OPTIONS")); [auto|].
  destruct (jsstring_eqb (httpMethod event) (js "GET")).
  - destruct (handle_get_world w) as [-> | (entry & ->)]; auto.
  - rewrite (jsstring_eqb_neq Hm). auto.
Qed.

Lemma blobs_get_set_other (k k' text : jsstring)
  (b : list (jsstring * jsstring)) :
  k <> k' -> blobs_get k (blobs_set k' text b) = blobs_get k b.
Proof.
  intros Hne. induction b as [|[k0 v0] b IH]; simpl.
  - now rewrite (jsstring_eqb_neq Hne).
  - destruct (jsstring_eqb k' k0) eqn:E; simpl.
    + apply jsstring_eqb_eq in E. subst k0.
      now rewrite (jsstring_eqb_neq Hne).
    + now rewrite IH.
Qed.

(** The store after a request: as before, or with one blob written
    under the next id. *)
Lemma handler_blobs (event : Event) (w : World) :
  blobs (snd (handler rt event w)) = blobs w
  \/ exists text,
       blobs (snd (handler rt event w)) = blobs_set (next_id w) text (blobs w).
Proof.
  destruct (jsstring_eqb (httpMethod event) (js "POST")) eqn:EP.
  - apply jsstring_eqb_eq in EP.
    rewrite (FunctionFacts.handler_POST rt event EP).
    destruct (JSON_parse rt (body_text event)) as [parsed|] eqn:Hparse.
    + destruct (FunctionFacts.destructurable_dec parsed) as [Hd|Hd].
      * destruct (complete parsed) eqn:Hc.
        -- destruct (store_online w) eqn:Hon.
           ++ destruct (FunctionFacts.handle_post_complete rt event w
                          Hparse Hd Hc Hon) as [entry E].
              rewrite E. right. eexists. reflexivity.
           ++ destruct (FunctionFacts.handle_post_with_offline rt
                          (sendEmailNotification rt) event w Hparse Hd Hc Hon)
                as (w1 & E & Hb).
              unfold handle_post. rewrite E. now left.
        -- destruct (FunctionFacts.handle_post_with_incomplete rt
                       (sendEmailNotification rt) event w Hparse Hd Hc)
             as [msg E].
           unfold handle_post. rewrite E. now left.
      * unfold handle_post.
        rewrite (FunctionFacts.handle_post_with_null rt
                   (sendEmailNotification rt) event w Hparse Hd). now left.
    + unfold handle_post.
      rewrite (FunctionFacts.handle_post_with_unparseable rt
                 (sendEmailNotification rt) event w Hparse). now left.
  - left. unfold handler. rewrite EP.
    destruct (jsstring_eqb (httpMethod event) (js "OPTIONS")); [reflexivity|].
    destruct (jsstring_eqb (httpMethod event) (js "GET")); [|reflexivity].
    now destruct (handle_get_world w) as [-> | (entry & ->)].
Qed.

(** X12. No request deletes or changes a record of the store other than
    the one it creates: under every key but the id of the new record the
    store holds after the request what it held before, and no key
    disappears. *)
Theorem other_records_untouched (event : Event) (w : World) (k : jsstring) :
  k <> next_id w ->
  blobs_get k (blobs (snd (handler rt event w))) = blobs_get k (blobs w)
  /\ (In k (map fst (blobs w)) ->
      In k (map fst (blobs (snd (handler rt event w))))).
Proof.
  intros Hk. destruct (handler_blobs event w) as [-> | (text & ->)];
    [auto|]. split.
  - now apply blobs_get_set_other.
  - rewrite FunctionFacts.blobs_set_keys.
    destruct (existsb _ _); [auto | intros; apply in_or_app; now left].
Qed.

Lemma get_all_corrupt (w : World) (keys : list jsstring) (k text : jsstring) :
  store_online w = true ->
  In k keys ->
  blobs_get k (blobs w) = Some text ->
  JSON_parse rt text = None ->
  get_all rt keys w = (Throw SyntaxError, w).
Proof.
  intros Hon Hin Hget Hparse.
  induction keys as [|k0 keys IH]; [contradiction|].
  simpl. unfold bind, store_get_json. rewrite Hon.
  destruct (jsstring_eqb k0 k) eqn:E.
  - apply jsstring_eqb_eq in E. subst k0. now rewrite Hget, Hparse.
  - assert (Hin' : In k keys).
    { destruct Hin as [-> | Hin]; [|assumption].
      now rewrite jsstring_eqb_refl in E. }
    destruct (blobs_get k0 (blobs w)) as [t0|].
    + destruct (JSON_parse rt t0); [|reflexivity]. now rewrite (IH Hin').
    + now rewrite (IH Hin').
Qed.

(** X13. One blob that is not JSON makes the whole list fail: the list
    request is answered 500 and none of the other records is returned. *)
Theorem corrupt_blob_fails_list (w : World) (k text : jsstring) :
  store_online w = true ->
  NoDup (map fst (blobs w)) ->
  In (k, text) (blobs w) ->
  JSON_parse rt text = None ->
  handler rt GET w
  = (Ok (error_response rt 500 "Failed to fetch submissions"),
     with_console w
       (console w
        ++ [LogError (js "Error fetching submissions:") SyntaxError])).
Proof.
  intros Hon Hnd Hin Hparse. rewrite FunctionFacts.handler_GET.
  unfold handle_get, try_catch, bind, store_list, lift. rewrite Hon.
  rewrite (@get_all_corrupt w (map fst (blobs w)) k text); auto.
  - now apply (in_map fst) in Hin.
  - now apply FunctionFacts.blobs_get_In.
Qed.

(** X14. A create request is read through its [contactInfo] and its
    [projectDetails] alone: two bodies that agree on these two get the
    same answer and have the same effect, whatever else they carry (an
    id, a status, a timestamp of the client's). *)
Theorem post_reads_two_properties (e1 e2 : Event) (w : World)
  (p1 p2 : value) :
  httpMethod e1 = js "POST" ->
  httpMethod e2 = js "POST" ->
  JSON_parse rt (body_text e1) = Some p1 ->
  JSON_parse rt (body_text e2) = Some p2 ->
  destructurable p1 ->
  destructurable p2 ->
  get_opt p1 (js "contactInfo") = get_opt p2 (js "contactInfo") ->
  get_opt p1 (js "projectDetails") = get_opt p2 (js "projectDetails") ->
  handler rt e1 w = handler rt e2 w.
Proof.
  intros M1 M2 P1 P2 D1 D2 Hc Hp.
  rewrite (FunctionFacts.handler_POST rt e1 M1),
          (FunctionFacts.handler_POST rt e2 M2).
  unfold handle_post, handle_post_with, try_catch, bind, lift.
  rewrite P1, P2.
  rewrite !(FunctionFacts.get_destructurable _ D1),
          !(FunctionFacts.get_destructurable _ D2), Hc, Hp.
  reflexivity.
Qed.

Lemma blobs_set_fresh (k text : jsstring) (b : list (jsstring * jsstring)) :
  ~ In k (map fst b) -> blobs_set k text b = b ++ [(k, text)].
Proof.
  induction b as [|[k0 v0] b IH]; simpl; intros Hn; [reflexivity|].
  destruct (jsstring_eqb k k0) eqn:E.
  - apply jsstring_eqb_eq in E. exfalso. apply Hn. now left.
  - rewrite IH by tauto. reflexivity.
Qed.

(** The list of a store that holds well-formed records. *)
Lemma list_of_records (w : World) (records : list value) :
  store_online w = true ->
  NoDup (map fst (blobs w)) ->
  Forall2 (fun kv r => JSON_parse rt (snd kv) = Some r) (blobs w) records ->
  Forall (fun r => time_of rt r <> None) records ->
  exists sorted,
    handle_get rt w
    = (Ok {| statusCode := 200;
             headers := json_headers;
             body := JSON_stringify rt (VArray sorted) |}, w)
    /\ Permutation records sorted
    /\ StronglySorted (not_older rt) sorted.
Proof.
  intros Hon Hnd Hparse Ht.
  destruct (SortFacts.sort_by_descending
              (FunctionFacts.newest_first_keyed rt Ht))
    as (sorted & Hsort & Hperm & Hdesc).
  exists sorted. split; [|split; [assumption|]].
  - unfold handle_get, try_catch, bind, store_list, lift. rewrite Hon.
    rewrite (@FunctionFacts.get_all_reads rt w (blobs w) records Hon);
      [now rewrite Hsort | | exact Hparse].
    intros [k v] Hin. now apply FunctionFacts.blobs_get_In.
  - apply (@SortFacts.StronglySorted_on value
             (fun a b =>
                (match time_of rt b with Some t => t | None => 0 end
                 <= match time_of rt a with Some t => t | None => 0 end)%Z)
             (not_older rt)
             (fun r => time_of rt r <> None)).
    + intros a b Ha Hb Hab. unfold not_older.
      destruct (time_of rt a) as [ta|]; [|contradiction].
      destruct (time_of rt b) as [tb|]; [|contradiction]. eauto.
    + now apply (Permutation_Forall Hperm).
    + exact Hdesc.
Qed.

(** X15. A record that was created is listed: after an accepted create
    request whose id is new to the store, and whose record the runtime
    reads back as it wrote it, the list request answers with the records
    of before and the new one, each once, the most recent first. *)
Theorem created_record_is_listed (event : Event) (w : World)
  (parsed : value) (records : list value) :
  httpMethod event = js "POST" ->
  JSON_parse rt (body_text event) = Some parsed ->
  destructurable parsed ->
  complete parsed = true ->
  store_online w = true ->
  NoDup (map fst (blobs w)) ->
  Forall2 (fun kv r => JSON_parse rt (snd kv) = Some r) (blobs w) records ->
  Forall (fun r => time_of rt r <> None) records ->
  ~ In (next_id w) (map fst (blobs w)) ->
  JSON_parse rt (JSON_stringify rt (created rt w parsed))
  = Some (created rt w parsed) ->
  time_of rt (created rt w parsed) <> None ->
  exists w1 sorted,
    handler rt event w = (Ok (accepted rt (next_id w)), w1)
    /\ handler rt GET w1
       = (Ok {| statusCode := 200;
                headers := json_headers;
                body := JSON_stringify rt (VArray sorted) |}, w1)
    /\ Permutation (created rt w parsed :: records) sorted
    /\ StronglySorted (not_older rt) sorted.
Proof.
  intros Hm Hparse Hd Hc Hon Hnd Hrec Ht Hfresh Hround Htime.
  destruct (FunctionFacts.handle_post_complete rt event w Hparse Hd Hc Hon)
    as [entry E].
  rewrite (FunctionFacts.handler_POST rt event Hm), E.
  set (w1 := with_console (after_create rt w parsed)
               (console (after_create rt w parsed) ++ [entry])).
  assert (Hb : blobs w1
               = blobs w ++ [(next_id w,
                              JSON_stringify rt (created rt w parsed))])
    by (apply blobs_set_fresh; assumption).
  destruct (@list_of_records w1 (records ++ [created rt w parsed]))
    as (sorted & Eget & Hperm & Hsorted).
  - exact Hon.
  - rewrite Hb, map_app. apply NoDup_app; [assumption | repeat constructor;
      simpl; tauto |].
    intros k Hk [<- | []]. contradiction.
  - rewrite Hb. apply Forall2_app; [assumption|]. repeat constructor.
    exact Hround.
  - apply Forall_app. split; [assumption | now repeat constructor].
  - exists w1, sorted. split; [reflexivity|].
    rewrite FunctionFacts.handler_GET. split; [exact Eget|].
    split; [|assumption].
    rewrite <- Hperm. apply Permutation_cons_append.
Qed.

Lemma ToString_primitive (v : value) :
  primitive v = true -> exists s, ToString rt v = Ok s.
Proof. destruct v as [| | [] | | | |]; simpl; try discriminate; eauto. Qed.

(** The two parts of a complete request are objects. *)
Lemma complete_parts (parsed : value) :
  complete parsed = true ->
  (exists props, get_opt parsed (js "contactInfo") = VObject props)
  /\ (exists props, get_opt parsed (js "projectDetails") = VObject props).
Proof.
  intros Hc. apply FunctionFacts.complete_checks in Hc as [C P].
  unfold missing_contact in C. unfold missing_project in P.
  apply orb_false_iff in C as [C _]. apply orb_false_iff in C as [C _].
  apply orb_false_iff in P as [P _]. apply orb_false_iff in P as [P _].
  apply negb_false_iff in C, P. split.
  - destruct (get_opt parsed (js "contactInfo")); try discriminate. eauto.
  - destruct (get_opt parsed (js "projectDetails")); try discriminate. eauto.
Qed.

(** Reading a field of the record made of a complete request. *)
Lemma get2_created (w : World) (parsed : value) (part name : string) :
  complete parsed = true ->
  part = "contactInfo"%string \/ part = "projectDetails"%string ->
  get2 (created rt w parsed) part name = Ok (field parsed part name).
Proof.
  intros Hc Hpart.
  destruct (complete_parts parsed Hc) as [[cprops Ec] [pprops Ep]].
  unfold get2, created, field.
  destruct Hpart as [-> | ->].
  - change (get (new_submission rt ?n ?t ?c ?ci ?pd) (js "contactInfo"))
      with (Ok ci).
    cbn [result_bind]. now rewrite Ec.
  - change (get (new_submission rt ?n ?t ?c ?ci ?pd) (js "projectDetails"))
      with (Ok pd).
    cbn [result_bind]. now rewrite Ep.
Qed.

Lemma show2_created (w : World) (parsed : value) (part name : string) :
  complete parsed = true ->
  In (part, name) printed_fields ->
  primitive (field parsed part name) = true ->
  exists s, show2 rt (created rt w parsed) part name = Ok s.
Proof.
  intros Hc Hin Hp. unfold show2. rewrite get2_created; auto.
  - now apply ToString_primitive.
  - unfold printed_fields in Hin. simpl in Hin.
    repeat (destruct Hin as [[= <- _] | Hin]; [tauto|]). contradiction.
Qed.

(** X16. The notification of a created record succeeds when the nine
    values it prints are not objects, as are all the values the form can
    send: it answers [true] and logs the message, addressed to
    NOTIFICATION_EMAIL, or to contact@lovania.com when that is not
    set. *)
Theorem notification_of_primitive_request (w w1 : World) (parsed : value) :
  complete parsed = true ->
  (forall part name,
     In (part, name) printed_fields ->
     primitive (field parsed part name) = true) ->
  exists data,
    sendEmailNotification rt (created rt w parsed) w1
    = (Ok true,
       with_console w1
         (console w1 ++ [Log (js "Email notification would be sent:") data]))
    /\ get_opt data (js "to") = VString (notification_address w1).
Proof.
  intros Hc Hp.
  assert (S : forall part name, In (part, name) printed_fields ->
                exists s, show2 rt (created rt w parsed) part name = Ok s).
  { intros part name Hin. apply show2_created; auto. }
  destruct (S "contactInfo" "name")%string as [s1 E1]; [simpl; tauto|].
  destruct (S "contactInfo" "email")%string as [s2 E2]; [simpl; tauto|].
  destruct (S "contactInfo" "company")%string as [s3 E3]; [simpl; tauto|].
  destruct (S "contactInfo" "phone")%string as [s4 E4]; [simpl; tauto|].
  destruct (S "projectDetails" "projectType")%string as [s5 E5];
    [simpl; tauto|].
  destruct (S "projectDetails" "timeline")%string as [s6 E6]; [simpl; tauto|].
  destruct (S "projectDetails" "budget")%string as [s7 E7]; [simpl; tauto|].
  destruct (S "projectDetails" "description")%string as [s8 E8];
    [simpl; tauto|].
  destruct (S "projectDetails" "requirements")%string as [s9 E9];
    [simpl; tauto|].
  assert (Hhtml : exists html, email_html rt (created rt w parsed) = Ok html).
  { unfold email_html. rewrite E1, E2, E3, E4, E5, E6, E7, E8.
    cbn [result_bind].
    rewrite (get2_created w parsed "requirements" Hc (or_intror eq_refl)).
    cbn [result_bind]. rewrite E9.
    destruct (truthy (field parsed "projectDetails" "requirements"));
      cbn [result_bind]; eexists; reflexivity. }
  destruct Hhtml as [html Eh].
  unfold sendEmailNotification, try_catch, bind, emailData, console_log, ret.
  rewrite E3, Eh. cbn [result_bind]. eexists. split; reflexivity.
Qed.

End WithRuntime.

End EndpointFacts.

(** ** The three steps of the form *)

Module WizardFacts.
Import ContactForm.

Lemma validateContactInfo_contact (a b : FormData) :
  contactInfo a = contactInfo b ->
  validateContactInfo a = validateContactInfo b.
Proof. unfold validateContactInfo. now intros ->. Qed.

Lemma Step_eqb_eq (a b : Step) : Step_eqb a b = true <-> a = b.
Proof. destruct a, b; simpl; split; congruence. Qed.

Lemma react_validated (s : State) (e : UserEvent) :
  validated s -> validated (react s e).
Proof.
  intros Hv. pose proof Hv as [Hc Hp].
  destruct e as [f v | f v | | | | o |]; cbn [react].
  - destruct (negb (isSubmitted s) && Step_eqb (currentStep s) contact)
      eqn:G; [|assumption].
    apply andb_true_iff in G as [_ G]. apply Step_eqb_eq in G.
    split; cbn [handleContactInfoChange currentStep formData]; rewrite G;
      intros H; [contradiction | discriminate].
  - destruct (negb (isSubmitted s) && Step_eqb (currentStep s) project)
      eqn:G; [|assumption].
    apply andb_true_iff in G as [_ G]. apply Step_eqb_eq in G.
    split; cbn [handleProjectDetailsChange currentStep formData]; rewrite G;
      intros H; [|discriminate].
    rewrite (validateContactInfo_contact _ (formData s)) by reflexivity.
    apply Hc. rewrite G. discriminate.
  - destruct (negb (isSubmitted s) && negb (Step_eqb (currentStep s) review));
      [|assumption].
    unfold next. destruct (currentStep s) eqn:E.
    + destruct (validateContactInfo (formData s)) as [errs [|]] eqn:V;
        split; cbn [currentStep formData]; intros H;
        try discriminate; try contradiction.
      now rewrite V.
    + destruct (validateProjectDetails (formData s)) as [errs [|]] eqn:V;
        split; cbn [currentStep formData]; intros H; try discriminate;
        try (apply Hc; discriminate).
      now rewrite V.
    + assumption.
  - destruct (negb (isSubmitted s) && negb (Step_eqb (currentStep s) contact));
      [|assumption].
    unfold back. split; cbn [currentStep formData]; intros H.
    + apply Hc. intros E. rewrite E in H. contradiction.
    + destruct (currentStep s); discriminate.
  - destruct (negb (isSubmitted s) && Step_eqb (currentStep s) review
              && negb (isLoading s)); assumption.
  - destruct (isLoading s); [|assumption].
    destruct o as [status|]; [cbn [settled]; destruct (ok status)|];
      assumption.
  - destruct (isSubmitted s); [|assumption].
    split; cbn [reset currentStep]; intros H; [contradiction | discriminate].
Qed.

Lemma fold_validated (events : list UserEvent) (s : State) :
  validated s -> validated (fold_left react events s).
Proof.
  revert s. induction events as [|e events IH]; intros s H; [assumption|].
  simpl. apply IH. now apply react_validated.
Qed.

(** X17. Whatever the user does, the form is on its second or third
    step only with contact data that pass the validation, and on its
    third step only with project data that pass it: the data shown for
    review, and sent by Submit, have been validated as they are. *)
Theorem session_validated (events : list UserEvent) :
  let s := session events in
  (currentStep s <> contact ->
   snd (validateContactInfo (formData s)) = true)
  /\ (currentStep s = review ->
      snd (validateContactInfo (formData s)) = true
      /\ snd (validateProjectDetails (formData s)) = true).
Proof.
  assert (H : validated (session events)).
  { apply fold_validated. split; intros H; [contradiction | discriminate]. }
  destruct H as [Hc Hp]. cbv zeta. split; [assumption|].
  intros Hr. split; [|auto]. apply Hc. rewrite Hr. discriminate.
Qed.

Lemma not_blank_truthy (s : jsstring) :
  blank s = false -> truthy (VString s) = true.
Proof. now destruct s. Qed.

(** Data that pass the validations of the form make a request with all
    its required fields. *)
Lemma valid_form_complete (formData : FormData) :
  snd (validateContactInfo formData) = true ->
  snd (validateProjectDetails formData) = true ->
  complete (FormData_value formData) = true.
Proof.
  intros Hc Hp.
  apply FormFacts.validateContactInfo_true in Hc as (N & E & _ & C).
  apply FormFacts.validateProjectDetails_true in Hp as (T & D & L).
  unfold complete, required_fields. cbn [forallb fst snd].
  change (field (FormData_value formData) "contactInfo" "name")
    with (VString (name (contactInfo formData))).
  change (field (FormData_value formData) "contactInfo" "email")
    with (VString (email (contactInfo formData))).
  change (field (FormData_value formData) "contactInfo" "company")
    with (VString (company (contactInfo formData))).
  change (field (FormData_value formData) "projectDetails" "projectType")
    with (VString (projectType (projectDetails formData))).
  change (field (FormData_value formData) "projectDetails" "description")
    with (VString (description (projectDetails formData))).
  change (field (FormData_value formData) "projectDetails" "timeline")
    with (VString (timeline (projectDetails formData))).
  rewrite (not_blank_truthy _ N), (not_blank_truthy _ E),
    (not_blank_truthy _ C), (not_blank_truthy _ D).
  destruct (projectType (projectDetails formData)); [contradiction|].
  destruct (timeline (projectDetails formData)); [contradiction|].
  reflexivity.
Qed.

(** X18. What the form lets through, the function accepts: a request
    made of data that pass both validations of the form, read by the
    runtime as it was written, is answered 200 while the store can be
    reached, its record is stored, and the form shows the confirmation. *)
Theorem valid_form_request_accepted (rt : Runtime) (formData : FormData)
  (w : World) (s : State) :
  snd (validateContactInfo formData) = true ->
  snd (validateProjectDetails formData) = true ->
  JSON_parse rt (body_text (request rt formData))
  = Some (FormData_value formData) ->
  store_online w = true ->
  exists w',
    handler rt (request rt formData) w = (Ok (accepted rt (next_id w)), w')
    /\ blobs_get (next_id w) (blobs w')
       = Some (JSON_stringify rt (created rt w (FormData_value formData)))
    /\ isSubmitted
         (settled (Responded (statusCode (accepted rt (next_id w)))) s)
       = true.
Proof.
  intros Hc Hp Hparse Hon.
  assert (Hcomplete : complete (FormData_value formData) = true)
    by now apply valid_form_complete.
  assert (Hd : destructurable (FormData_value formData))
    by (split; discriminate).
  destruct (FunctionFacts.handle_post_complete rt (request rt formData) w
              Hparse Hd Hcomplete Hon) as [entry E].
  rewrite (FunctionFacts.handler_POST rt (request rt formData) eq_refl), E.
  eexists. split; [reflexivity|]. split; [|reflexivity].
  cbn [blobs with_console after_create]. apply FunctionFacts.blobs_get_set.
Qed.

(** X19. The form shows its confirmation for the answers 200 of the
    function and for no other: after any other answer it keeps the data
    that were entered, stops loading and shows the message that the
    submission failed. *)
Theorem form_confirms_exactly_accepted (rt : Runtime) (event : Event)
  (w : World) (s : State) :
  isSubmitted s = false ->
  exists resp w',
    handler rt event w = (Ok resp, w')
    /\ (isSubmitted (settled (Responded (statusCode resp)) s) = true
        <-> statusCode resp = 200%Z)
    /\ formData (settled (Responded (statusCode resp)) s) = formData s
    /\ isLoading (settled (Responded (statusCode resp)) s) = false
    /\ (statusCode resp <> 200%Z ->
        has_error "submit" (errors (settled (Responded (statusCode resp)) s))
        = true).
Proof.
  intros Hs.
  assert (H : exists resp w',
            handler rt event w = (Ok resp, w')
            /\ In (statusCode resp) [200; 400; 405; 500]%Z).
  { unfold handler.
    destruct (jsstring_eqb (httpMethod event) (js "OPTIONS")).
    - eexists. eexists. split; [reflexivity | simpl; tauto].
    - destruct (jsstring_eqb (httpMethod event) (js "GET")).
      + apply EndpointFacts.handle_get_status.
      + destruct (jsstring_eqb (httpMethod event) (js "POST")).
        * pose proof (EndpointFacts.handle_post_table rt event w) as T.
          destruct (handle_post rt event w) as [[resp|e] w'] eqn:E;
            simpl in T; [|discriminate].
          injection T as ->. exists (post_response rt w event), w'.
          split; [reflexivity | apply EndpointFacts.post_response_status].
        * eexists. eexists. split; [reflexivity | simpl; tauto]. }
  destruct H as (resp & w' & E & Hin). exists resp, w'.
  split; [assumption|].
  simpl in Hin. destruct Hin as [<- | [<- | [<- | [<- | []]]]];
    cbn [settled ok isSubmitted formData isLoading errors]; rewrite ?Hs;
    repeat split; intros; try reflexivity; try congruence; try discriminate.
Qed.

(** X20. On the first two steps Continue validates the current step and
    keeps the data: it moves to the following step and shows no message
    when the validation passes, and stays with at least one message when
    it does not. *)
Theorem continue_advances_iff_no_message (s : State) :
  currentStep s <> review ->
  formData (next s) = formData s
  /\ ((errors (next s) = []
       /\ currentStep (next s) = following (currentStep s))
      \/ (errors (next s) <> [] /\ currentStep (next s) = currentStep s)).
Proof.
  intros Hr. unfold next. destruct (currentStep s) eqn:E.
  - unfold validateContactInfo. cbv zeta.
    match goal with |- context [List.length ?l] => destruct l eqn:L end;
      cbn [formData errors currentStep List.length Nat.eqb following];
      (split; [reflexivity|]); [left | right]; split;
      (reflexivity || discriminate).
  - unfold validateProjectDetails. cbv zeta.
    match goal with |- context [List.length ?l] => destruct l eqn:L end;
      cbn [formData errors currentStep List.length Nat.eqb following];
      (split; [reflexivity|]); [left | right]; split;
      (reflexivity || discriminate).
  - contradiction.
Qed.

Lemma class_without_at (u : jsstring) :
  forallb not_space_or_at u = true ->
  count_occ N.eq_dec u AT = 0
  /\ ~ In AT u
  /\ forallb (fun c => negb (is_space c)) u = true.
Proof.
  induction u as [|c u IH]; simpl; [auto|].
  rewrite andb_true_iff. intros [Hc Hu].
  destruct (IH Hu) as (Hn & Hi & Hs).
  unfold not_space_or_at in Hc.
  apply negb_true_iff, orb_false_iff in Hc as [Hsp Hat].
  apply N.eqb_neq in Hat.
  rewrite Hsp, Hs. destruct (N.eq_dec c AT); [contradiction|].
  repeat split; auto. intros [H|H]; auto.
Qed.

(** X21. An email the form lets through has no white space and exactly
    one at sign, with something before it and, after it, a dot that is
    neither the first nor the last character. *)
Theorem form_email_shape (formData : FormData) :
  snd (validateContactInfo formData) = true ->
  let e := email (contactInfo formData) in
  count_occ N.eq_dec e AT = 1
  /\ forallb (fun c => negb (is_space c)) e = true
  /\ exists local host tld,
       e = local ++ [AT] ++ host ++ [DOT] ++ tld
       /\ local <> [] /\ host <> [] /\ tld <> []
       /\ ~ In AT local /\ ~ In AT host /\ ~ In AT tld.
Proof.
  intros H. apply FormFacts.validateContactInfo_true in H as (_ & _ & H & _).
  apply FormFacts.email_pattern_spec in H
    as (u & v & t & E & [Hu Hu'] & [Hv Hv'] & [Ht Ht']).
  destruct (class_without_at u Hu') as (Cu & Iu & Su).
  destruct (class_without_at v Hv') as (Cv & Iv & Sv).
  destruct (class_without_at t Ht') as (Ct & It & St).
  cbv zeta. rewrite E. split; [|split].
  - unfold code_unit in *. rewrite !count_occ_app, Cu, Cv, Ct. reflexivity.
  - rewrite !forallb_app, Su, Sv, St. reflexivity.
  - exists u, v, t. auto 10.
Qed.

Lemma errors_get_set_other (key k msg : string) (errors : Errors) :
  key <> k -> errors_get key (errors_set k msg errors) = errors_get key errors.
Proof.
  intros Hne. induction errors as [|[k0 m0] errors IH]; simpl.
  - now rewrite (proj2 (String.eqb_neq key k) Hne).
  - destruct (String.eqb k k0) eqn:E; simpl.
    + apply String.eqb_eq in E. subst k0.
      now rewrite (proj2 (String.eqb_neq key k) Hne).
    + now rewrite IH.
Qed.

Lemma errors_get_set_same (k msg : string) (errors : Errors) :
  errors_get k (errors_set k msg errors) = Some msg.
Proof.
  induction errors as [|[k0 m0] errors IH]; simpl.
  - now rewrite String.eqb_refl.
  - destruct (String.eqb k k0) eqn:E; simpl;
      now rewrite ?String.eqb_refl, ?E.
Qed.

Lemma clear_error_cleared (k : string) (errors : Errors) :
  has_error k (clear_error k errors) = false.
Proof.
  unfold clear_error. destruct (has_error k errors) eqn:E; [|assumption].
  unfold has_error. now rewrite errors_get_set_same.
Qed.

Lemma clear_error_other (key k : string) (errors : Errors) :
  key <> k -> errors_get key (clear_error k errors) = errors_get key errors.
Proof.
  intros Hne. unfold clear_error.
  destruct (has_error k errors); [now apply errors_get_set_other | reflexivity].
Qed.

(** X22. Typing in a field of the contact step, or of the project step,
    changes that field and no other, and hides the message of that field
    and no other; the step stays. *)
Theorem typing_changes_one_field (f g : ContactField) (pf pg : ProjectField)
  (v : jsstring) (key : string) (s : State) :
  g <> f ->
  pg <> pf ->
  key <> contact_key f ->
  key <> project_key pf ->
  let c := handleContactInfoChange f v s in
  let p := handleProjectDetailsChange pf v s in
  (contact_get f (contactInfo (formData c)) = v
   /\ contact_get g (contactInfo (formData c))
      = contact_get g (contactInfo (formData s))
   /\ projectDetails (formData c) = projectDetails (formData s)
   /\ has_error (contact_key f) (errors c) = false
   /\ errors_get key (errors c) = errors_get key (errors s)
   /\ currentStep c = currentStep s)
  /\ (project_get pf (projectDetails (formData p)) = v
      /\ project_get pg (projectDetails (formData p))
         = project_get pg (projectDetails (formData s))
      /\ contactInfo (formData p) = contactInfo (formData s)
      /\ has_error (project_key pf) (errors p) = false
      /\ errors_get key (errors p) = errors_get key (errors s)
      /\ currentStep p = currentStep s).
Proof.
  intros Hg Hpg Hk Hpk. cbv zeta.
  unfold handleContactInfoChange, handleProjectDetailsChange.
  cbn [formData contactInfo projectDetails errors currentStep].
  rewrite !clear_error_cleared, !clear_error_other by assumption.
  repeat split.
  - now destruct f.
  - destruct f, g; try reflexivity; contradiction.
  - now destruct pf.
  - destruct pf, pg; try reflexivity; contradiction.
Qed.

End WizardFacts.

(** ** The endpoint and the form on the sample data *)

Module MoreExamples.
Import ReferenceRuntime Samples MoreSamples.

Lemma post_response_table_witness :
  httpMethod (sent inquiry_without_company) = js "POST"
  /\ fst (handler runtime (sent inquiry_without_company) world0)
     = Ok (post_response runtime world0 (sent inquiry_without_company))
  /\ (statusCode (post_response runtime world0 (sent inquiry_without_company))
      = 200%Z
      \/ blobs (snd (handler runtime (sent inquiry_without_company) world0))
         = blobs world0).
Proof.
  assert (H : httpMethod (sent inquiry_without_company) = js "POST")
    by reflexivity.
  split; [exact H|].
  exact (EndpointFacts.post_response_table runtime
           (sent inquiry_without_company) world0 H).
Defined.

Lemma only_post_writes_witness :
  httpMethod GET <> js "POST"
  /\ blobs (snd (handler runtime GET world_corrupt)) = blobs world_corrupt
  /\ clock_reads (snd (handler runtime GET world_corrupt))
     = clock_reads world_corrupt
  /\ random_draws (snd (handler runtime GET world_corrupt))
     = random_draws world_corrupt.
Proof.
  assert (H : httpMethod GET <> js "POST") by discriminate.
  split; [exact H|].
  exact (EndpointFacts.only_post_writes runtime GET world_corrupt H).
Defined.

Lemma other_records_untouched_witness :
  js "sub_1705314600000_k3x9q2m1a" <> next_id world1
  /\ blobs_get (js "sub_1705314600000_k3x9q2m1a")
       (blobs (snd (handler runtime (sent jane_inquiry) world1)))
     = blobs_get (js "sub_1705314600000_k3x9q2m1a") (blobs world1)
  /\ (In (js "sub_1705314600000_k3x9q2m1a") (map fst (blobs world1)) ->
      In (js "sub_1705314600000_k3x9q2m1a")
        (map fst (blobs (snd (handler runtime (sent jane_inquiry) world1))))).
Proof.
  assert (H : js "sub_1705314600000_k3x9q2m1a" <> next_id world1)
    by (vm_compute; discriminate).
  split; [exact H|].
  exact (@EndpointFacts.other_records_untouched runtime (sent jane_inquiry)
           world1 (js "sub_1705314600000_k3x9q2m1a") H).
Defined.

Lemma corrupt_blob_fails_list_witness :
  (store_online world_corrupt = true
   /\ NoDup (map fst (blobs world_corrupt))
   /\ In (js "sub_0_broken", js "{") (blobs world_corrupt)
   /\ JSON_parse runtime (js "{") = None)
  /\ handler runtime GET world_corrupt
     = (Ok (error_response runtime 500 "Failed to fetch submissions"),
        with_console world_corrupt
          (console world_corrupt
           ++ [LogError (js "Error fetching submissions:") SyntaxError])).
Proof.
  assert (B : blobs world_corrupt
              = [(js "sub_1705314600000_k3x9q2m1a",
                  write_json (created runtime world0 john_inquiry));
                 (js "sub_0_broken", js "{")])
    by (vm_compute; reflexivity).
  assert (H1 : store_online world_corrupt = true) by reflexivity.
  assert (H2 : NoDup (map fst (blobs world_corrupt))).
  { rewrite B. repeat constructor; simpl; intuition discriminate. }
  assert (H3 : In (js "sub_0_broken", js "{") (blobs world_corrupt)).
  { rewrite B. right. left. reflexivity. }
  assert (H4 : JSON_parse runtime (js "{") = None) by (vm_compute; reflexivity).
  split; [auto|].
  exact (@EndpointFacts.corrupt_blob_fails_list runtime world_corrupt
           (js "sub_0_broken") (js "{") H1 H2 H3 H4).
Defined.

Lemma post_reads_two_properties_witness :
  (httpMethod (sent john_inquiry) = js "POST"
   /\ httpMethod (sent john_inquiry_with_id) = js "POST"
   /\ JSON_parse runtime (body_text (sent john_inquiry)) = Some john_inquiry
   /\ JSON_parse runtime (body_text (sent john_inquiry_with_id))
      = Some john_inquiry_with_id
   /\ destructurable john_inquiry
   /\ destructurable john_inquiry_with_id
   /\ get_opt john_inquiry (js "contactInfo")
      = get_opt john_inquiry_with_id (js "contactInfo")
   /\ get_opt john_inquiry (js "projectDetails")
      = get_opt john_inquiry_with_id (js "projectDetails"))
  /\ handler runtime (sent john_inquiry) world0
     = handler runtime (sent john_inquiry_with_id) world0.
Proof.
  assert (H1 : httpMethod (sent john_inquiry) = js "POST") by reflexivity.
  assert (H2 : httpMethod (sent john_inquiry_with_id) = js "POST")
    by reflexivity.
  assert (H3 : JSON_parse runtime (body_text (sent john_inquiry))
               = Some john_inquiry)
    by (vm_compute; reflexivity).
  assert (H4 : JSON_parse runtime (body_text (sent john_inquiry_with_id))
               = Some john_inquiry_with_id)
    by (vm_compute; reflexivity).
  assert (H5 : destructurable john_inquiry) by (split; discriminate).
  assert (H6 : destructurable john_inquiry_with_id) by (split; discriminate).
  assert (H7 : get_opt john_inquiry (js "contactInfo")
               = get_opt john_inquiry_with_id (js "contactInfo"))
    by reflexivity.
  assert (H8 : get_opt john_inquiry (js "projectDetails")
               = get_opt john_inquiry_with_id (js "projectDetails"))
    by reflexivity.
  split; [repeat split; assumption || apply H5 || apply H6|].
  exact (@EndpointFacts.post_reads_two_properties runtime
           (sent john_inquiry) (sent john_inquiry_with_id) world0
           john_inquiry john_inquiry_with_id H1 H2 H3 H4 H5 H6 H7 H8).
Defined.

Lemma created_record_is_listed_witness :
  (httpMethod (sent jane_inquiry) = js "POST"
   /\ JSON_parse runtime (body_text (sent jane_inquiry)) = Some jane_inquiry
   /\ destructurable jane_inquiry
   /\ complete jane_inquiry = true
   /\ store_online world1 = true
   /\ NoDup (map fst (blobs world1))
   /\ Forall2 (fun kv r => JSON_parse runtime (snd kv) = Some r) (blobs world1)
        [created runtime world0 john_inquiry]
   /\ Forall (fun r => time_of runtime r <> None)
        [created runtime world0 john_inquiry]
   /\ ~ In (next_id world1) (map fst (blobs world1))
   /\ JSON_parse runtime (JSON_stringify runtime (created runtime world1 jane_inquiry))
      = Some (created runtime world1 jane_inquiry)
   /\ time_of runtime (created runtime world1 jane_inquiry) <> None)
  /\ exists w1 sorted,
       handler runtime (sent jane_inquiry) world1
       = (Ok (accepted runtime (next_id world1)), w1)
       /\ handler runtime GET w1
          = (Ok {| statusCode := 200;
                   headers := json_headers;
                   body := JSON_stringify runtime (VArray sorted) |}, w1)
       /\ Permutation
            (created runtime world1 jane_inquiry
             :: [created runtime world0 john_inquiry]) sorted
       /\ StronglySorted (not_older runtime) sorted.
Proof.
  assert (B : blobs world1
              = [(js "sub_1705314600000_k3x9q2m1a",
                  write_json (created runtime world0 john_inquiry))])
    by (vm_compute; reflexivity).
  assert (H1 : httpMethod (sent jane_inquiry) = js "POST") by reflexivity.
  assert (H2 : JSON_parse runtime (body_text (sent jane_inquiry))
               = Some jane_inquiry)
    by (vm_compute; reflexivity).
  assert (H3 : destructurable jane_inquiry) by (split; discriminate).
  assert (H4 : complete jane_inquiry = true) by (vm_compute; reflexivity).
  assert (H5 : store_online world1 = true) by reflexivity.
  assert (H6 : NoDup (map fst (blobs world1))).
  { rewrite B. repeat constructor; simpl; intuition discriminate. }
  assert (H7 : Forall2 (fun kv r => JSON_parse runtime (snd kv) = Some r)
                 (blobs world1) [created runtime world0 john_inquiry]).
  { rewrite B. repeat constructor; vm_compute; reflexivity. }
  assert (H8 : Forall (fun r => time_of runtime r <> None)
                 [created runtime world0 john_inquiry]).
  { repeat constructor; vm_compute; discriminate. }
  assert (H9 : ~ In (next_id world1) (map fst (blobs world1))).
  { rewrite B. vm_compute. intuition discriminate. }
  assert (H10 : JSON_parse runtime
                  (JSON_stringify runtime (created runtime world1 jane_inquiry))
                = Some (created runtime world1 jane_inquiry))
    by (vm_compute; reflexivity).
  assert (H11 : time_of runtime (created runtime world1 jane_inquiry) <> None)
    by (vm_compute; discriminate).
  split; [repeat split; assumption || apply H3|].
  exact (@EndpointFacts.created_record_is_listed runtime (sent jane_inquiry)
           world1 jane_inquiry [created runtime world0 john_inquiry]
           H1 H2 H3 H4 H5 H6 H7 H8 H9 H10 H11).
Defined.

Lemma notification_of_primitive_request_witness :
  (complete john_inquiry = true
   /\ forall part name,
        In (part, name) printed_fields ->
        primitive (field john_inquiry part name) = true)
  /\ exists data,
       sendEmailNotification runtime (created runtime world0 john_inquiry)
         (after_create runtime world0 john_inquiry)
       = (Ok true,
          with_console (after_create runtime world0 john_inquiry)
            (console (after_create runtime world0 john_inquiry)
             ++ [Log (js "Email notification would be sent:") data]))
       /\ get_opt data (js "to")
          = VString (notification_address
                       (after_create runtime world0 john_inquiry)).
Proof.
  assert (H1 : complete john_inquiry = true) by (vm_compute; reflexivity).
  assert (H2 : forall part name,
             In (part, name) printed_fields ->
             primitive (field john_inquiry part name) = true).
  { intros part name Hin. simpl in Hin.
    repeat (destruct Hin as [[= <- <-] | Hin]; [reflexivity|]).
    contradiction. }
  split; [auto|].
  exact (@EndpointFacts.notification_of_primitive_request runtime world0
           (after_create runtime world0 john_inquiry) john_inquiry H1 H2).
Defined.

Lemma valid_form_request_accepted_witness :
  (snd (ContactForm.validateContactInfo (form "John Smith" "john@example.com"))
   = true
   /\ snd (ContactForm.validateProjectDetails
             (form "John Smith" "john@example.com")) = true
   /\ JSON_parse runtime
        (body_text
           (ContactForm.request runtime (form "John Smith" "john@example.com")))
      = Some (ContactForm.FormData_value (form "John Smith" "john@example.com"))
   /\ store_online world0 = true)
  /\ exists w',
       handler runtime
         (ContactForm.request runtime (form "John Smith" "john@example.com"))
         world0
       = (Ok (accepted runtime (next_id world0)), w')
       /\ blobs_get (next_id world0) (blobs w')
          = Some
              (JSON_stringify runtime
                 (created runtime world0
                    (ContactForm.FormData_value
                       (form "John Smith" "john@example.com"))))
       /\ ContactForm.isSubmitted
            (ContactForm.settled
               (ContactForm.Responded
                  (statusCode (accepted runtime (next_id world0))))
               (ContactForm.submitting typed_contact))
          = true.
Proof.
  assert (H1 : snd (ContactForm.validateContactInfo
                      (form "John Smith" "john@example.com")) = true)
    by (vm_compute; reflexivity).
  assert (H2 : snd (ContactForm.validateProjectDetails
                      (form "John Smith" "john@example.com")) = true)
    by (vm_compute; reflexivity).
  assert (H3 : JSON_parse runtime
                 (body_text
                    (ContactForm.request runtime
                       (form "John Smith" "john@example.com")))
               = Some (ContactForm.FormData_value
                         (form "John Smith" "john@example.com")))
    by (vm_compute; reflexivity).
  assert (H4 : store_online world0 = true) by reflexivity.
  split; [auto|].
  exact (@WizardFacts.valid_form_request_accepted runtime
           (form "John Smith" "john@example.com") world0
           (ContactForm.submitting typed_contact) H1 H2 H3 H4).
Defined.

Lemma form_confirms_exactly_accepted_witness :
  ContactForm.isSubmitted typed_contact = false
  /\ exists resp w',
       handler runtime (sent inquiry_without_company) world0 = (Ok resp, w')
       /\ (ContactForm.isSubmitted
             (ContactForm.settled (ContactForm.Responded (statusCode resp))
                typed_contact) = true
           <-> statusCode resp = 200%Z)
       /\ ContactForm.formData
            (ContactForm.settled (ContactForm.Responded (statusCode resp))
               typed_contact)
          = ContactForm.formData typed_contact
       /\ ContactForm.isLoading
            (ContactForm.settled (ContactForm.Responded (statusCode resp))
               typed_contact) = false
       /\ (statusCode resp <> 200%Z ->
           ContactForm.has_error "submit"
             (ContactForm.errors
                (ContactForm.settled (ContactForm.Responded (statusCode resp))
                   typed_contact)) = true).
Proof.
  assert (H : ContactForm.isSubmitted typed_contact = false) by reflexivity.
  split; [exact H|].
  exact (@WizardFacts.form_confirms_exactly_accepted runtime
           (sent inquiry_without_company) world0 typed_contact H).
Defined.

Lemma continue_advances_iff_no_message_witness :
  ContactForm.currentStep typed_contact <> ContactForm.review
  /\ ContactForm.formData (ContactForm.next typed_contact)
     = ContactForm.formData typed_contact
  /\ ((ContactForm.errors (ContactForm.next typed_contact) = []
       /\ ContactForm.currentStep (ContactForm.next typed_contact)
          = following (ContactForm.currentStep typed_contact))
      \/ (ContactForm.errors (ContactForm.next typed_contact) <> []
          /\ ContactForm.currentStep (ContactForm.next typed_contact)
             = ContactForm.currentStep typed_contact)).
Proof.
  assert (H : ContactForm.currentStep typed_contact <> ContactForm.review)
    by discriminate.
  split; [exact H|].
  exact (@WizardFacts.continue_advances_iff_no_message typed_contact H).
Defined.

Lemma form_email_shape_witness :
  snd (ContactForm.validateContactInfo (form "John Smith" "john@example.com"))
  = true
  /\ (let e := ContactForm.email
                 (ContactForm.contactInfo
                    (form "John Smith" "john@example.com")) in
      count_occ N.eq_dec e AT = 1
      /\ forallb (fun c => negb (is_space c)) e = true
      /\ exists local host tld,
           e = local ++ [AT] ++ host ++ [DOT] ++ tld
           /\ local <> [] /\ host <> [] /\ tld <> []
           /\ ~ In AT local /\ ~ In AT host /\ ~ In AT tld).
Proof.
  assert (H : snd (ContactForm.validateContactInfo
                     (form "John Smith" "john@example.com")) = true)
    by (vm_compute; reflexivity).
  split; [exact H|].
  exact (@WizardFacts.form_email_shape
           (form "John Smith" "john@example.com") H).
Defined.

Lemma typing_changes_one_field_witness :
  (ContactForm.Email <> ContactForm.Name
   /\ ContactForm.Budget <> ContactForm.Description
   /\ "email"%string <> ContactForm.contact_key ContactForm.Name
   /\ "email"%string <> ContactForm.project_key ContactForm.Description)
  /\ (let c := ContactForm.handleContactInfoChange ContactForm.Name (js "Jo")
                 typed_contact in
      let p := ContactForm.handleProjectDetailsChange ContactForm.Description
                 (js "Jo") typed_contact in
      (ContactForm.contact_get ContactForm.Name
         (ContactForm.contactInfo (ContactForm.formData c)) = js "Jo"
       /\ ContactForm.contact_get ContactForm.Email
            (ContactForm.contactInfo (ContactForm.formData c))
          = ContactForm.contact_get ContactForm.Email
              (ContactForm.contactInfo (ContactForm.formData typed_contact))
       /\ ContactForm.projectDetails (ContactForm.formData c)
          = ContactForm.projectDetails (ContactForm.formData typed_contact)
       /\ ContactForm.has_error (ContactForm.contact_key ContactForm.Name)
            (ContactForm.errors c) = false
       /\ ContactForm.errors_get "email" (ContactForm.errors c)
          = ContactForm.errors_get "email" (ContactForm.errors typed_contact)
       /\ ContactForm.currentStep c = ContactForm.currentStep typed_contact)
      /\ (ContactForm.project_get ContactForm.Description
            (ContactForm.projectDetails (ContactForm.formData p)) = js "Jo"
          /\ ContactForm.project_get ContactForm.Budget
               (ContactForm.projectDetails (ContactForm.formData p))
             = ContactForm.project_get ContactForm.Budget
                 (ContactForm.projectDetails
                    (ContactForm.formData typed_contact))
          /\ ContactForm.contactInfo (ContactForm.formData p)
             = ContactForm.contactInfo (ContactForm.formData typed_contact)
          /\ ContactForm.has_error
               (ContactForm.project_key ContactForm.Description)
               (ContactForm.errors p) = false
          /\ ContactForm.errors_get "email" (ContactForm.errors p)
             = ContactForm.errors_get "email"
                 (ContactForm.errors typed_contact)
          /\ ContactForm.currentStep p
             = ContactForm.currentStep typed_contact)).
Proof.
  assert (H1 : ContactForm.Email <> ContactForm.Name) by discriminate.
  assert (H2 : ContactForm.Budget <> ContactForm.Description) by discriminate.
  assert (H3 : "email"%string <> ContactForm.contact_key ContactForm.Name)
    by discriminate.
  assert (H4 : "email"%string
               <> ContactForm.project_key ContactForm.Description)
    by discriminate.
  split; [auto|].
  exact (@WizardFacts.typing_changes_one_field
           ContactForm.Name ContactForm.Email
           ContactForm.Description ContactForm.Budget
           (js "Jo") "email"%string typed_contact H1 H2 H3 H4).
Defined.

Lemma session_validated_witness :
  ContactForm.currentStep (ContactForm.session filling) = ContactForm.review
  /\ snd (ContactForm.validateContactInfo
           (ContactForm.formData (ContactForm.session filling))) = true
  /\ snd (ContactForm.validateProjectDetails
           (ContactForm.formData (ContactForm.session filling))) = true.
Proof.
  assert (H : ContactForm.currentStep (ContactForm.session filling)
              = ContactForm.review) by (vm_compute; reflexivity).
  split; [exact H|].
  exact (proj2 (WizardFacts.session_validated filling) H).
Defined.


End MoreExamples.
